(** * Tracing core of the Elastic APM Go agent: span context, transaction
      lifecycle, dropped-span statistics and the instrumentation config store.

    The development follows the three source files
    - [spancontext.go]  (SpanContext and its setters, [build], [outcome]),
    - [transaction.go]  (StartTransactionOptions, End, Discard, the
      dropped-span timings map),
    - [config.go]       (parsers of configuration values, updateRemoteConfig,
      setLocalInstrumentationConfig).

    Part I holds the embedding of the code, Part II the properties. *)

From Stdlib Require Import ZArith Lia Ascii.
From stdpp Require Import base numbers strings pretty list gmap fin_maps.

Local Open Scope Z_scope.

(* ===================================================================== *)
(** * Part I: the program                                                 *)
(* ===================================================================== *)

(** ** Machine integers

    Go's [int], [int64] and [time.Duration] are 64-bit two's complement,
    [uint64] is 64-bit unsigned; arithmetic wraps around. *)

Module GoInt.

Definition wrap_uint64 (z : Z) : Z := z mod 2 ^ 64.

Definition wrap_int64 (z : Z) : Z := (z + 2 ^ 63) mod 2 ^ 64 - 2 ^ 63.

(** [uint64(x)] for a signed 64-bit [x]. *)
Definition uint64_of_int (z : Z) : Z := wrap_uint64 z.

End GoInt.

(** ** Dropped-span statistics (transaction.go) *)

Module DroppedSpans.

(** [maxDroppedSpanStats] sets the hard limit for the number of dropped span
    stats that are stored in a transaction. *)
Definition maxDroppedSpanStats : nat := 128.

Record droppedSpanTimingsKey := mkKey {
  destination : string;
  outcome : string
}.

#[global] Instance droppedSpanTimingsKey_eq_dec : EqDecision droppedSpanTimingsKey.
Proof. solve_decision. Defined.

#[global] Instance droppedSpanTimingsKey_countable : Countable droppedSpanTimingsKey.
Proof.
  refine (inj_countable' (λ k, (destination k, outcome k))
                         (λ p, mkKey p.1 p.2) _).
  by intros [].
Defined.

(** [spanTiming] is declared in breakdown.go; [add] uses its two fields:
    [duration] (an int64 of nanoseconds) and [count] (a uint64). *)
Record spanTiming := mkTiming {
  duration : Z;
  count : Z
}.

Definition zeroTiming : spanTiming := mkTiming 0 0.

(** [droppedSpanTimingsMap] records span timings for groups of dropped
    spans. *)
Abbreviation droppedSpanTimingsMap := (gmap droppedSpanTimingsKey spanTiming).

(** [add] accumulates the timing for a {destination, outcome} pair, silently
    drops any pairs that would cause the map to exceed
    [maxDroppedSpanStats]. *)
Definition add (m : droppedSpanTimingsMap) (dst out : string) (cnt d : Z)
  : droppedSpanTimingsMap :=
  let k := mkKey dst out in
  let '(timing, ok) :=
    match m !! k with
    | Some t => (t, true)
    | None => (zeroTiming, false)
    end in
  if ok || bool_decide (size m < maxDroppedSpanStats)%nat then
    <[k := mkTiming (GoInt.wrap_int64 (duration timing + d))
                    (GoInt.wrap_uint64 (count timing + GoInt.uint64_of_int cnt))]> m
  else m.

(** [reset] resets m back to its initial zero state. *)
Definition reset (m : droppedSpanTimingsMap) : droppedSpanTimingsMap :=
  foldr delete m (map_to_list m).*1.

(** One call of [add], as data, and a run of calls from left to right. *)
Record addCall := mkAdd {
  add_dst : string;
  add_outcome : string;
  add_count : Z;
  add_d : Z
}.

Definition add_all (m : droppedSpanTimingsMap) (calls : list addCall)
  : droppedSpanTimingsMap :=
  foldl (λ acc c, add acc (add_dst c) (add_outcome c) (add_count c) (add_d c))
        m calls.

(** The call for the destination made of the byte [i], with the outcome
    "success", and the 128 such calls that fill a map. *)
Definition nthCall (i : nat) : addCall :=
  mkAdd (String (Ascii.ascii_of_nat i) "") "success" 1 1000.

Definition fullCalls : list addCall := nthCall <$> seq 0 128.

End DroppedSpans.

(** ** Strings (Go's [strings], [fmt] and [net/url], as far as the code uses
    them)

    A Go string is a sequence of bytes; [string] is a list of [ascii], that
    is of bytes. *)

Module GoString.

Fixpoint map_bytes (f : ascii → ascii) (s : string) : string :=
  match s with
  | EmptyString => EmptyString
  | String a s' => String (f a) (map_bytes f s')
  end.

(** [strings.LastIndexByte s c]: the index of the last [c] in [s], or -1. *)
Fixpoint LastIndexByte_from (i : Z) (s : string) (c : ascii) (found : Z) : Z :=
  match s with
  | EmptyString => found
  | String a s' =>
      LastIndexByte_from (i + 1) s' c (if Ascii.eqb a c then i else found)
  end.

Definition LastIndexByte (s : string) (c : ascii) : Z :=
  LastIndexByte_from 0 s c (-1).

(** [s[i]], for an index in range. *)
Definition byte_at (s : string) (i : Z) : option ascii :=
  if i <? 0 then None else String.get (Z.to_nat i) s.

(** [s[:i]] and [s[i:]], for [0 <= i <= len(s)]. *)
Definition slice_to (s : string) (i : Z) : string :=
  String.substring 0 (Z.to_nat i) s.

Definition slice_from (s : string) (i : Z) : string :=
  String.substring (Z.to_nat i) (String.length s - Z.to_nat i) s.

Definition len (s : string) : Z := Z.of_nat (String.length s).

Definition is_empty (s : string) : bool := bool_decide (s = "").

(** [fmt.Sprintf("%s:%d", s, n)]. *)
Definition Sprintf_s_colon_d (s : string) (n : Z) : string :=
  s +:+ ":" +:+ pretty n.

(** ASCII letters of [strings.ToUpper] and [strings.ToLower]; bytes outside
    ['a'..'z'] / ['A'..'Z'] are left as they are. *)
Definition upper_byte (a : ascii) : ascii :=
  let n := nat_of_ascii a in
  if bool_decide (97 ≤ n ≤ 122)%nat then ascii_of_nat (n - 32) else a.

Definition lower_byte (a : ascii) : ascii :=
  let n := nat_of_ascii a in
  if bool_decide (65 ≤ n ≤ 90)%nat then ascii_of_nat (n + 32) else a.

Definition asciiToUpper : string → string := map_bytes upper_byte.
Definition asciiToLower : string → string := map_bytes lower_byte.

Definition is_space (a : ascii) : bool :=
  let n := nat_of_ascii a in
  bool_decide (n = 32 ∨ 9 ≤ n ≤ 13)%nat.

Fixpoint trim_left (s : string) : string :=
  match s with
  | String a s' => if is_space a then trim_left s' else s
  | EmptyString => EmptyString
  end.

Fixpoint rev_string (s : string) (acc : string) : string :=
  match s with
  | EmptyString => acc
  | String a s' => rev_string s' (String a acc)
  end.

(** [strings.TrimSpace] on ASCII white space. *)
Definition asciiTrimSpace (s : string) : string :=
  rev_string (trim_left (rev_string (trim_left s) "")) "".

(** Decimal digits, as [strconv.Atoi] reads an unsigned port number;
    [None] when a byte is not a digit or there is none. *)
Definition digit_value (a : ascii) : option Z :=
  let n := nat_of_ascii a in
  if bool_decide (48 ≤ n ≤ 57)%nat then Some (Z.of_nat (n - 48)) else None.

Fixpoint digits_value (acc : Z) (s : string) : option Z :=
  match s with
  | EmptyString => Some acc
  | String a s' =>
      match digit_value a with
      | Some d => digits_value (10 * acc + d) s'
      | None => None
      end
  end.

Definition parse_decimal (s : string) : option Z :=
  if is_empty s then None else digits_value 0 s.

End GoString.

(** [net/url]: the part of [URL] that the span context reads, and
    [URL.String] for a URL that has only a scheme and a host. *)

Module GoURL.

Record URL := mkURL {
  Scheme : string;
  User : option string;
  Host : string;
  Path : string
}.

(** [shouldEscape(c, encodeHost)]: letters, digits, ["-_.~"] and the
    sub-delimiters and brackets that RFC 3986 and RFC 6874 allow in a host
    are kept, every other byte is percent-encoded. *)
Definition host_byte_kept (a : ascii) : bool :=
  let n := nat_of_ascii a in
  bool_decide ((97 ≤ n ≤ 122) ∨ (65 ≤ n ≤ 90) ∨ (48 ≤ n ≤ 57))%nat
  || bool_decide (a ∈ String.list_ascii_of_string "-_.~!$&'()*+,;=:[]<>")
  || bool_decide (n = 34)%nat.

Definition hex_digit (n : nat) : ascii :=
  ascii_of_nat (if bool_decide (n < 10)%nat then 48 + n else 55 + n).

Fixpoint escape_host (s : string) : string :=
  match s with
  | EmptyString => EmptyString
  | String a s' =>
      if host_byte_kept a then String a (escape_host s')
      else
        let n := nat_of_ascii a in
        String "%" (String (hex_digit (n / 16)) (String (hex_digit (n mod 16))
                                                        (escape_host s')))
  end.

(** [(&url.URL{Scheme: scheme, Host: host}).String()]. *)
Definition String_of_scheme_host (scheme host : string) : string :=
  (if GoString.is_empty scheme then "" else scheme +:+ ":")
  +:+ (if GoString.is_empty host then "" else "//" +:+ escape_host host).

(** [http.Request], of which only the URL (possibly nil) is read. *)
Record Request := mkRequest { req_URL : option URL }.

End GoURL.

(** ** Span context (spancontext.go) *)

Module SpanCtx.
Import GoString GoURL.

(** *** Helpers of utils.go *)

(** Modelled from the spec: [truncateString] and [truncateLongString]
    (utils.go, outside the files verified here) cut a string to a fixed
    bound, "a short bound for ordinary fields, a longer bound for free-text
    fields like statements"; the short bound is the 1024 characters that
    the comment of [SetLabel] documents. *)
Definition stringLengthLimit : nat := 1024.
Definition longStringLengthLimit : nat := Z.to_nat 10000.

Definition truncateString (s : string) : string :=
  String.substring 0 stringLengthLimit s.

Definition truncateLongString (s : string) : string :=
  String.substring 0 longStringLengthLimit s.

(** Modelled from the spec: [cleanLabelKey] (utils.go), by the comment of
    [SetLabel]: the invalid characters of a key, the dot, the asterisk and
    the double quote (byte 34), are replaced with underscores. *)
Definition cleanLabelKey (key : string) : string :=
  map_bytes (λ a, if bool_decide (a ∈ String.list_ascii_of_string ".*")
                     || bool_decide (nat_of_ascii a = 34%nat)
                  then "_"%char else a) key.

(** A label value, a Go [interface{}]: a number, a boolean, a string, or
    any other value, which is kept by its [fmt.Sprint] rendering. *)
Inductive labelValue :=
| LNumber (z : Z)
| LBool (b : bool)
| LString (s : string)
| LOther (printed : string).

(** Modelled from the spec: [makeLabelValue] (utils.go), by the comment of
    [SetLabel]: numbers and booleans are kept, anything else becomes a
    string, truncated to 1024 characters. *)
Definition makeLabelValue (v : labelValue) : labelValue :=
  match v with
  | LNumber _ | LBool _ => v
  | LString s | LOther s => LString (truncateString s)
  end.

(** *** Types of the [model] package, as spancontext.go uses them

    A pointer field that is only ever assigned the address of a sibling
    field of the same [SpanContext] ([c.model.Database = &c.database]) is a
    boolean: [true] when it points at that sibling, [false] when it is nil.
    Later writes to the sibling are therefore seen through the pointer, as
    in the code. *)

Record IfaceMapItem := mkItem { Key : string; Value : labelValue }.

Record model_DatabaseSpanContext := mkDatabase {
  db_Instance : string;
  db_Statement : string;
  db_Type : string;
  db_User : string;
  db_RowsAffected : bool  (* &c.databaseRowsAffected, or nil *)
}.

Record model_MessageQueueSpanContext := mkQueue { mq_Name : string }.

Record model_MessageSpanContext := mkMessage {
  msg_Queue : option model_MessageQueueSpanContext
}.

Record model_HTTPSpanContext := mkHTTP {
  http_URL : option URL;
  http_StatusCode : Z
}.

Record model_DestinationSpanContext := mkDestination {
  dst_Address : string;
  dst_Port : Z;
  dst_Service : bool;  (* &c.destinationService, or nil *)
  dst_Cloud : bool     (* &c.destinationCloud, or nil *)
}.

Record model_DestinationServiceSpanContext := mkDestinationService {
  ds_Name : string;
  ds_Resource : string
}.

Record model_ServiceSpanContext := mkService {
  svc_Target : bool    (* &c.serviceTarget, or nil *)
}.

Record model_ServiceTargetSpanContext := mkServiceTarget {
  st_Type : string;
  st_Name : string
}.

Record model_DestinationCloudSpanContext := mkCloud { dc_Region : string }.

Record model_OTel := mkOTel {
  otel_Attributes : option (gmap string labelValue);
  otel_SpanKind : string
}.

Record model_SpanContext := mkModel {
  m_Destination : bool;  (* &c.destination, or nil *)
  m_Service : bool;      (* &c.service, or nil *)
  m_Database : bool;     (* &c.database, or nil *)
  m_Message : bool;      (* &c.message, or nil *)
  m_HTTP : bool;         (* &c.http, or nil *)
  m_Tags : list IfaceMapItem
}.

(** *** The exported argument structs *)

Record DatabaseSpanContext := mkDatabaseArg {
  Instance : string;
  Statement : string;
  Type_ : string;
  User_ : string
}.

Record ServiceTargetSpanContext := mkServiceTargetArg {
  target_Type : string;
  target_Name : string
}.

Record DestinationServiceSpanContext := mkDestinationServiceArg {
  Name : string;
  Resource : string
}.

Record DestinationCloudSpanContext := mkCloudArg { Region : string }.

Record MessageSpanContext := mkMessageArg { QueueName : string }.

(** [SpanContext] provides methods for setting span context. *)
Record SpanContext := mkSpanContext {
  model : model_SpanContext;
  destination : model_DestinationSpanContext;
  destinationService : model_DestinationServiceSpanContext;
  service : model_ServiceSpanContext;
  serviceTarget : model_ServiceTargetSpanContext;
  destinationCloud : model_DestinationCloudSpanContext;
  message : model_MessageSpanContext;
  databaseRowsAffected : Z;
  database : model_DatabaseSpanContext;
  http : model_HTTPSpanContext;
  otel : option model_OTel;
  (* If SetDestinationService has been called, we do not auto-set its
     resource value on span end. *)
  setDestinationServiceCalled : bool
}.

(** Field assignments [c.f = x]. *)
Definition with_model (x : model_SpanContext) (c : SpanContext) : SpanContext :=
  mkSpanContext x (destination c) (destinationService c) (service c)
    (serviceTarget c) (destinationCloud c) (message c)
    (databaseRowsAffected c) (database c) (http c) (otel c)
    (setDestinationServiceCalled c) .

Definition with_destination (x : model_DestinationSpanContext)
    (c : SpanContext) : SpanContext :=
  mkSpanContext (model c) x (destinationService c) (service c)
    (serviceTarget c) (destinationCloud c) (message c)
    (databaseRowsAffected c) (database c) (http c) (otel c)
    (setDestinationServiceCalled c) .

Definition with_destinationService (x : model_DestinationServiceSpanContext)
    (c : SpanContext) : SpanContext :=
  mkSpanContext (model c) (destination c) x (service c) (serviceTarget c)
    (destinationCloud c) (message c) (databaseRowsAffected c) (database c)
    (http c) (otel c) (setDestinationServiceCalled c) .

Definition with_service (x : model_ServiceSpanContext)
    (c : SpanContext) : SpanContext :=
  mkSpanContext (model c) (destination c) (destinationService c) x
    (serviceTarget c) (destinationCloud c) (message c)
    (databaseRowsAffected c) (database c) (http c) (otel c)
    (setDestinationServiceCalled c) .

Definition with_serviceTarget (x : model_ServiceTargetSpanContext)
    (c : SpanContext) : SpanContext :=
  mkSpanContext (model c) (destination c) (destinationService c) (service c) x
    (destinationCloud c) (message c) (databaseRowsAffected c) (database c)
    (http c) (otel c) (setDestinationServiceCalled c) .

Definition with_destinationCloud (x : model_DestinationCloudSpanContext)
    (c : SpanContext) : SpanContext :=
  mkSpanContext (model c) (destination c) (destinationService c) (service c)
    (serviceTarget c) x (message c) (databaseRowsAffected c) (database c)
    (http c) (otel c) (setDestinationServiceCalled c) .

Definition with_message (x : model_MessageSpanContext)
    (c : SpanContext) : SpanContext :=
  mkSpanContext (model c) (destination c) (destinationService c) (service c)
    (serviceTarget c) (destinationCloud c) x (databaseRowsAffected c)
    (database c) (http c) (otel c) (setDestinationServiceCalled c) .

Definition with_databaseRowsAffected (x : Z) (c : SpanContext) : SpanContext :=
  mkSpanContext (model c) (destination c) (destinationService c) (service c)
    (serviceTarget c) (destinationCloud c) (message c) x (database c) (http c)
    (otel c) (setDestinationServiceCalled c) .

Definition with_database (x : model_DatabaseSpanContext)
    (c : SpanContext) : SpanContext :=
  mkSpanContext (model c) (destination c) (destinationService c) (service c)
    (serviceTarget c) (destinationCloud c) (message c)
    (databaseRowsAffected c) x (http c) (otel c)
    (setDestinationServiceCalled c) .

Definition with_http (x : model_HTTPSpanContext)
    (c : SpanContext) : SpanContext :=
  mkSpanContext (model c) (destination c) (destinationService c) (service c)
    (serviceTarget c) (destinationCloud c) (message c)
    (databaseRowsAffected c) (database c) x (otel c)
    (setDestinationServiceCalled c) .

Definition with_otel (x : option model_OTel) (c : SpanContext) : SpanContext :=
  mkSpanContext (model c) (destination c) (destinationService c) (service c)
    (serviceTarget c) (destinationCloud c) (message c)
    (databaseRowsAffected c) (database c) (http c) x
    (setDestinationServiceCalled c) .

Definition with_setDestinationServiceCalled (x : bool)
    (c : SpanContext) : SpanContext :=
  mkSpanContext (model c) (destination c) (destinationService c) (service c)
    (serviceTarget c) (destinationCloud c) (message c)
    (databaseRowsAffected c) (database c) (http c) (otel c) x.

Definition with_m_Destination (x : bool)
    (c : model_SpanContext) : model_SpanContext :=
  mkModel x (m_Service c) (m_Database c) (m_Message c) (m_HTTP c) (m_Tags c).

Definition with_m_Service (x : bool)
    (c : model_SpanContext) : model_SpanContext :=
  mkModel (m_Destination c) x (m_Database c) (m_Message c) (m_HTTP c)
    (m_Tags c) .

Definition with_m_Database (x : bool)
    (c : model_SpanContext) : model_SpanContext :=
  mkModel (m_Destination c) (m_Service c) x (m_Message c) (m_HTTP c) (m_Tags c).

Definition with_m_Message (x : bool)
    (c : model_SpanContext) : model_SpanContext :=
  mkModel (m_Destination c) (m_Service c) (m_Database c) x (m_HTTP c)
    (m_Tags c) .

Definition with_m_HTTP (x : bool) (c : model_SpanContext) : model_SpanContext :=
  mkModel (m_Destination c) (m_Service c) (m_Database c) (m_Message c) x
    (m_Tags c) .

Definition with_m_Tags (x : list IfaceMapItem)
    (c : model_SpanContext) : model_SpanContext :=
  mkModel (m_Destination c) (m_Service c) (m_Database c) (m_Message c)
    (m_HTTP c) x.

Definition with_dst_Address (x : string)
    (c : model_DestinationSpanContext) : model_DestinationSpanContext :=
  mkDestination x (dst_Port c) (dst_Service c) (dst_Cloud c).

Definition with_dst_Port (x : Z)
    (c : model_DestinationSpanContext) : model_DestinationSpanContext :=
  mkDestination (dst_Address c) x (dst_Service c) (dst_Cloud c).

Definition with_dst_Service (x : bool)
    (c : model_DestinationSpanContext) : model_DestinationSpanContext :=
  mkDestination (dst_Address c) (dst_Port c) x (dst_Cloud c).

Definition with_dst_Cloud (x : bool)
    (c : model_DestinationSpanContext) : model_DestinationSpanContext :=
  mkDestination (dst_Address c) (dst_Port c) (dst_Service c) x.

(** The zero value [SpanContext{}]. *)
Definition zeroModel : model_SpanContext :=
  mkModel false false false false false [].

Definition zeroSpanContext : SpanContext :=
  mkSpanContext zeroModel (mkDestination "" 0 false false)
    (mkDestinationService "" "") (mkService false) (mkServiceTarget "" "")
    (mkCloud "") (mkMessage None) 0 (mkDatabase "" "" "" "" false)
    (mkHTTP None 0) None false.

(** [build] returns [&c.model], or nil. *)
Definition build (c : SpanContext) : option model_SpanContext :=
  if negb (bool_decide (length (m_Tags (model c)) = 0%nat)) then Some (model c)
  else if m_Message (model c) then Some (model c)
  else if m_Database (model c) then Some (model c)
  else if m_HTTP (model c) then Some (model c)
  else if m_Destination (model c) then Some (model c)
  else None.

(** [reset]: [Tags] is cut to length zero, everything else becomes zero. *)
Definition reset (c : SpanContext) : SpanContext :=
  with_model (with_m_Tags (take 0 (m_Tags (model c))) zeroModel) zeroSpanContext.

Definition otel_or_new (c : SpanContext) : model_OTel :=
  match otel c with
  | None => mkOTel None ""
  | Some o => o
  end.

(** [SetOTelAttributes] sets the provided OpenTelemetry attributes. *)
Definition SetOTelAttributes (c : SpanContext)
    (m : option (gmap string labelValue)) : SpanContext :=
  let o := otel_or_new c in
  with_otel (Some (mkOTel m (otel_SpanKind o))) c.

(** [SetOTelSpanKind] sets the provided SpanKind. *)
Definition SetOTelSpanKind (c : SpanContext) (spanKind : string) : SpanContext :=
  let o := otel_or_new c in
  with_otel (Some (mkOTel (otel_Attributes o) spanKind)) c.

(** [SetLabel] sets a label in the context; keys are not de-duplicated. *)
Definition SetLabel (c : SpanContext) (key : string) (value : labelValue)
  : SpanContext :=
  with_model
    (with_m_Tags (m_Tags (model c) ++ [mkItem (cleanLabelKey key) (makeLabelValue value)])
                 (model c)) c.

(** [SetDatabase] sets the span context for database-related operations. *)
Definition SetDatabase (c : SpanContext) (db : DatabaseSpanContext) : SpanContext :=
  let c := with_database
             (mkDatabase (truncateString (Instance db))
                         (truncateLongString (Statement db))
                         (truncateString (Type_ db))
                         (truncateString (User_ db))
                         false) c in
  with_model (with_m_Database true (model c)) c.

(** [SetDatabaseRowsAffected] records the number of rows affected by a
    database operation. *)
Definition SetDatabaseRowsAffected (c : SpanContext) (n : Z) : SpanContext :=
  let c := with_databaseRowsAffected n c in
  let d := database c in
  with_database
    (mkDatabase (db_Instance d) (db_Statement d) (db_Type d) (db_User d) true) c.

(** [SetDestinationAddress] sets the destination address and port in the
    context; it has no effect when called with an empty addr. *)
Definition SetDestinationAddress (c : SpanContext) (addr : string) (port : Z)
  : SpanContext :=
  if negb (is_empty addr) then
    let c := with_destination
               (with_dst_Port port
                  (with_dst_Address (truncateString addr) (destination c))) c in
    with_model (with_m_Destination true (model c)) c
  else c.

(** [SetMessage] sets the message info in the context; a no-op when the
    queue name is empty. *)
Definition SetMessage (c : SpanContext) (msg : MessageSpanContext) : SpanContext :=
  if is_empty (QueueName msg) then c
  else
    let c := with_message
               (mkMessage (Some (mkQueue (truncateString (QueueName msg))))) c in
    with_model (with_m_Message true (model c)) c.

(** [SetDestinationService] sets the destination service info in the
    context; nothing but the called-flag is set when the resource is
    empty. *)
Definition SetDestinationService (c : SpanContext)
    (svc : DestinationServiceSpanContext) : SpanContext :=
  let c := with_setDestinationServiceCalled true c in
  if is_empty (Resource svc) then c
  else
    let c := with_destinationService
               (mkDestinationService (truncateString (Name svc))
                                     (truncateString (Resource svc))) c in
    let c := with_destination (with_dst_Service true (destination c)) c in
    with_model (with_m_Destination true (model c)) c.

(** [SetServiceTarget] sets the service target info in the context. *)
Definition SetServiceTarget (c : SpanContext) (svc : ServiceTargetSpanContext)
  : SpanContext :=
  let c := with_serviceTarget
             (mkServiceTarget (truncateString (target_Type svc))
                              (truncateString (target_Name svc))) c in
  let c := with_service (mkService true) c in
  with_model (with_m_Service true (model c)) c.

(** [SetDestinationCloud] sets the destination cloud info in the context. *)
Definition SetDestinationCloud (c : SpanContext)
    (cloud : DestinationCloudSpanContext) : SpanContext :=
  let c := with_destinationCloud (mkCloud (truncateString (Region cloud))) c in
  let c := with_destination (with_dst_Cloud true (destination c)) c in
  with_model (with_m_Destination true (model c)) c.

(** [SetHTTPStatusCode] records the HTTP response status code. *)
Definition SetHTTPStatusCode (c : SpanContext) (statusCode : Z) : SpanContext :=
  let c := with_http (mkHTTP (http_URL (http c)) statusCode) c in
  with_model (with_m_HTTP true (model c)) c.

(** [outcome] returns the outcome to assign to the associated span, based
    on context (e.g. HTTP status code). *)
Definition outcome (c : SpanContext) : string :=
  if negb (http_StatusCode (http c) =? 0) then
    if http_StatusCode (http c) <? 400 then "success" else "failure"
  else "".

(** *** internal/apmhttputil *)

(** Modelled from the spec: [apmhttputil.SchemeDefaultPort] (outside the
    files verified here) gives "the scheme's default" port: 80 for http,
    443 for https, and 0 for a scheme without one. *)
Definition SchemeDefaultPort (scheme : string) : Z :=
  if bool_decide (scheme = "http") then 80
  else if bool_decide (scheme = "https") then 443
  else 0.

(** Modelled from the spec: [apmhttputil.DestinationAddr] (outside the
    files verified here) "derives destination address/port from the request
    authority": the host without its port and without the brackets of an
    IPv6 literal, and the port written in the authority, or the scheme's
    default when none is written; a port that is not a number reads as 0. *)
Definition strip_brackets (h : string) : string :=
  let n := len h in
  if (2 <=? n) && bool_decide (byte_at h 0 = Some "["%char)
     && bool_decide (byte_at h (n - 1) = Some "]"%char)
  then slice_to (slice_from h 1) (n - 2) else h.

Definition DestinationAddr (req : Request) : string * Z :=
  match req_URL req with
  | None => ("", 0)
  | Some u =>
      let h := Host u in
      let i := LastIndexByte h ":" in
      if (0 <=? i) && negb (bool_decide (byte_at h (len h - 1) = Some "]"%char))
      then (strip_brackets (slice_to h i),
            default 0 (parse_decimal (slice_from h (i + 1))))
      else (strip_brackets h, SchemeDefaultPort (Scheme u))
  end.

(** [SetHTTPRequest] sets the details of the HTTP request in the context.
    It makes implicit calls to [SetDestinationAddress] and
    [SetDestinationService], using details from [req.URL]. *)
Definition SetHTTPRequest (c : SpanContext) (req : Request) : SpanContext :=
  match req_URL req with
  | None => c
  | Some u =>
      let c := with_http (mkHTTP (Some u) (http_StatusCode (http c))) c in
      let c := with_model (with_m_HTTP true (model c)) c in
      let '(addr, port) := DestinationAddr req in
      let c := SetDestinationAddress c addr port in
      let host := Host u in
      let destinationServiceResource := host in
      let '(urlHost, destinationServiceResource) :=
        if negb (port =? 0) && (port =? SchemeDefaultPort (Scheme u)) then
          let n := len host in
          let '(urlHost, hasDefaultPort) :=
            if (0 <? n) && negb (bool_decide (byte_at host (n - 1) = Some "]"%char))
            then
              let i := LastIndexByte host ":" in
              if negb (i =? -1)
              then (* Remove the default port from destination.service.name. *)
                   (slice_to host i, true)
              else (host, false)
            else (host, false) in
          if negb hasDefaultPort
          then (* Add the default port to destination.service.resource. *)
               (urlHost, Sprintf_s_colon_d destinationServiceResource port)
          else (urlHost, destinationServiceResource)
        else (host, destinationServiceResource) in
      SetDestinationService c
        (mkDestinationServiceArg (String_of_scheme_host (Scheme u) urlHost)
                                 destinationServiceResource)
  end.

(** *** Reading a built context through its pointers *)

Definition Destination_of (c : SpanContext) : option model_DestinationSpanContext :=
  if m_Destination (model c) then Some (destination c) else None.

Definition DestinationService_of (c : SpanContext)
  : option model_DestinationServiceSpanContext :=
  if m_Destination (model c) && dst_Service (destination c)
  then Some (destinationService c) else None.

(** Whether a destination-service string carries a port, that is a colon
    followed by the decimal digits of a number, at its end. *)
Definition carries_port (s : string) : bool :=
  let i := LastIndexByte s ":" in
  negb (i =? -1) && bool_decide (is_Some (parse_decimal (slice_from s (i + 1)))).

(** The requests of the example: https://example.com:443/x and
    https://example.com:8443/x. *)
Definition request_443 : Request :=
  mkRequest (Some (mkURL "https" None "example.com:443" "/x")).

Definition request_8443 : Request :=
  mkRequest (Some (mkURL "https" None "example.com:8443" "/x")).

(** At least one of the labels, message, database, HTTP or destination
    sub-contexts has been populated. *)
Definition populated (c : SpanContext) : Prop :=
  m_Tags (model c) ≠ [] ∨ m_Message (model c) = true ∨ m_Database (model c) = true
  ∨ m_HTTP (model c) = true ∨ m_Destination (model c) = true.

(** Calls that touch only the service target and the OpenTelemetry data. *)
Inductive targetCall :=
| CallSetServiceTarget (svc : ServiceTargetSpanContext)
| CallSetOTelAttributes (m : option (gmap string labelValue))
| CallSetOTelSpanKind (spanKind : string).

Definition do_targetCall (c : SpanContext) (call : targetCall) : SpanContext :=
  match call with
  | CallSetServiceTarget svc => SetServiceTarget c svc
  | CallSetOTelAttributes m => SetOTelAttributes c m
  | CallSetOTelSpanKind k => SetOTelSpanKind c k
  end.

End SpanCtx.

(** ** Configuration (config.go) *)

Module Config.
Import GoString.

(** *** What config.go takes from other packages

    [strings], [strconv.ParseFloat], [configutil], [wildcard], [apmlog] and
    the ratio sampler are outside the three files; the code is modelled over
    any implementation of them.  A failing parser returns [None] where the Go
    function returns a non-nil error.  [range] is the order in which a
    [for k, v := range m] loop visits a map, which Go leaves unspecified:
    any enumeration of the entries of the map. *)
Class ConfigExternals := {
  ToUpper : string → string;
  ToLower : string → string;
  TrimSpace : string → string;
  float : Type;
  float_zero : float;
  float_one : float;
  float_ltb : float → float → bool;
  ParseFloat : string → option float;
  ParseDuration : string → option Z;
  ParseDurationOptions : string → Z → option Z;
  Matchers : Type;
  ParseWildcardPatterns : string → Matchers;
  LogLevel : Type;
  ParseLogLevel : string → option LogLevel;
  Sampler : Type;
  NewRatioSampler : float → Sampler;
  range : gmap string string → list (string * string);
  range_perm : ∀ m, range m ≡ₚ map_to_list m
}.

(** [strconv.ParseBool]. *)
Definition ParseBool (str : string) : option bool :=
  if bool_decide (str ∈ ["1"; "t"; "T"; "true"; "TRUE"; "True"]) then Some true
  else if bool_decide (str ∈ ["0"; "f"; "F"; "false"; "FALSE"; "False"]) then Some false
  else None.

(** [strconv.Atoi]: an optional sign and decimal digits, within the range
    of a 64-bit [int]. *)
Definition Atoi (str : string) : option Z :=
  let '(neg, digits) :=
    match str with
    | String "-" rest => (true, rest)
    | String "+" rest => (false, rest)
    | _ => (false, str)
    end in
  match parse_decimal digits with
  | Some n =>
      let z := if neg then - n else n in
      if (- 2 ^ 63 <=? z) && (z <? 2 ^ 63) then Some z else None
  | None => None
  end.

(** *** Names of the settings *)

Definition envMaxSpans := "ELASTIC_APM_TRANSACTION_MAX_SPANS".
Definition envTransactionSampleRate := "ELASTIC_APM_TRANSACTION_SAMPLE_RATE".
Definition envSanitizeFieldNames := "ELASTIC_APM_SANITIZE_FIELD_NAMES".
Definition envCaptureHeaders := "ELASTIC_APM_CAPTURE_HEADERS".
Definition envCaptureBody := "ELASTIC_APM_CAPTURE_BODY".
Definition envSpanStackTraceMinDuration := "ELASTIC_APM_SPAN_STACK_TRACE_MIN_DURATION".
Definition envRecording := "ELASTIC_APM_RECORDING".
Definition envIgnoreURLs := "ELASTIC_APM_TRANSACTION_IGNORE_URLS".
Definition envStackTraceLimit := "ELASTIC_APM_STACK_TRACE_LIMIT".
Definition envUseElasticTraceparentHeader := "ELASTIC_APM_USE_ELASTIC_TRACEPARENT_HEADER".
Definition envContinuationStrategy := "ELASTIC_APM_TRACE_CONTINUATION_STRATEGY".
Definition envSpanCompressionEnabled := "ELASTIC_APM_SPAN_COMPRESSION_ENABLED".
Definition envSpanCompressionExactMatchMaxDuration :=
  "ELASTIC_APM_SPAN_COMPRESSION_EXACT_MATCH_MAX_DURATION".
Definition envSpanCompressionSameKindMaxDuration :=
  "ELASTIC_APM_SPAN_COMPRESSION_SAME_KIND_MAX_DURATION".
Definition envExitSpanMinDuration := "ELASTIC_APM_EXIT_SPAN_MIN_DURATION".

(** Modelled from the spec: the constant [apmlog.EnvLogLevel] is declared in
    internal/apmlog, outside the files verified here; it names the
    log-level setting in the ELASTIC_APM_ scheme of the constants above. *)
Definition EnvLogLevel := "ELASTIC_APM_LOG_LEVEL".

Definition defaultContinuationStrategy := "continue".

(** [time.Microsecond], in nanoseconds. *)
Definition Microsecond : Z := 1000.

(** *** Values *)

(** [CaptureBodyMode] (capturebody.go). *)
Inductive CaptureBodyMode :=
| CaptureBodyOff
| CaptureBodyErrors
| CaptureBodyTransactions
| CaptureBodyAll.

(** [compressionOptions] (span_compressed.go), with the three fields that
    config.go assigns. *)
Record compressionOptions := mkCompressionOptions {
  enabled : bool;
  exactMatchMaxDuration : Z;
  sameKindMaxDuration : Z
}.

Definition with_enabled (x : bool)
    (c : compressionOptions) : compressionOptions :=
  mkCompressionOptions x (exactMatchMaxDuration c) (sameKindMaxDuration c).

Definition with_exactMatchMaxDuration (x : Z)
    (c : compressionOptions) : compressionOptions :=
  mkCompressionOptions (enabled c) x (sameKindMaxDuration c).

Definition with_sameKindMaxDuration (x : Z)
    (c : compressionOptions) : compressionOptions :=
  mkCompressionOptions (enabled c) (exactMatchMaxDuration c) x.

Section WithExternals.
Context `{!ConfigExternals}.

(** [instrumentationConfigValues] holds configuration that is accessible
    outside of the tracer loop, for instrumentation.  A nil [Sampler] is
    [None]. *)
Record instrumentationConfigValues := mkValues {
  recording : bool;
  captureBody : CaptureBodyMode;
  captureHeaders : bool;
  maxSpans : Z;
  sampler : option Sampler;
  spanStackTraceMinDuration : Z;
  exitSpanMinDuration : Z;
  continuationStrategy : string;
  stackTraceLimit : Z;
  propagateLegacyHeader : bool;
  sanitizedFieldNames : Matchers;
  ignoreTransactionURLs : Matchers;
  compressionOptions_ : compressionOptions
}.

Definition with_recording (x : bool)
    (c : instrumentationConfigValues) : instrumentationConfigValues :=
  mkValues x (captureBody c) (captureHeaders c) (maxSpans c) (sampler c)
    (spanStackTraceMinDuration c) (exitSpanMinDuration c)
    (continuationStrategy c) (stackTraceLimit c) (propagateLegacyHeader c)
    (sanitizedFieldNames c) (ignoreTransactionURLs c) (compressionOptions_ c)
    .

Definition with_captureBody (x : CaptureBodyMode)
    (c : instrumentationConfigValues) : instrumentationConfigValues :=
  mkValues (recording c) x (captureHeaders c) (maxSpans c) (sampler c)
    (spanStackTraceMinDuration c) (exitSpanMinDuration c)
    (continuationStrategy c) (stackTraceLimit c) (propagateLegacyHeader c)
    (sanitizedFieldNames c) (ignoreTransactionURLs c) (compressionOptions_ c)
    .

Definition with_captureHeaders (x : bool)
    (c : instrumentationConfigValues) : instrumentationConfigValues :=
  mkValues (recording c) (captureBody c) x (maxSpans c) (sampler c)
    (spanStackTraceMinDuration c) (exitSpanMinDuration c)
    (continuationStrategy c) (stackTraceLimit c) (propagateLegacyHeader c)
    (sanitizedFieldNames c) (ignoreTransactionURLs c) (compressionOptions_ c)
    .

Definition with_maxSpans (x : Z)
    (c : instrumentationConfigValues) : instrumentationConfigValues :=
  mkValues (recording c) (captureBody c) (captureHeaders c) x (sampler c)
    (spanStackTraceMinDuration c) (exitSpanMinDuration c)
    (continuationStrategy c) (stackTraceLimit c) (propagateLegacyHeader c)
    (sanitizedFieldNames c) (ignoreTransactionURLs c) (compressionOptions_ c)
    .

Definition with_sampler (x : option Sampler)
    (c : instrumentationConfigValues) : instrumentationConfigValues :=
  mkValues (recording c) (captureBody c) (captureHeaders c) (maxSpans c) x
    (spanStackTraceMinDuration c) (exitSpanMinDuration c)
    (continuationStrategy c) (stackTraceLimit c) (propagateLegacyHeader c)
    (sanitizedFieldNames c) (ignoreTransactionURLs c) (compressionOptions_ c)
    .

Definition with_spanStackTraceMinDuration (x : Z)
    (c : instrumentationConfigValues) : instrumentationConfigValues :=
  mkValues (recording c) (captureBody c) (captureHeaders c) (maxSpans c)
    (sampler c) x (exitSpanMinDuration c) (continuationStrategy c)
    (stackTraceLimit c) (propagateLegacyHeader c) (sanitizedFieldNames c)
    (ignoreTransactionURLs c) (compressionOptions_ c) .

Definition with_exitSpanMinDuration (x : Z)
    (c : instrumentationConfigValues) : instrumentationConfigValues :=
  mkValues (recording c) (captureBody c) (captureHeaders c) (maxSpans c)
    (sampler c) (spanStackTraceMinDuration c) x (continuationStrategy c)
    (stackTraceLimit c) (propagateLegacyHeader c) (sanitizedFieldNames c)
    (ignoreTransactionURLs c) (compressionOptions_ c) .

Definition with_continuationStrategy (x : string)
    (c : instrumentationConfigValues) : instrumentationConfigValues :=
  mkValues (recording c) (captureBody c) (captureHeaders c) (maxSpans c)
    (sampler c) (spanStackTraceMinDuration c) (exitSpanMinDuration c) x
    (stackTraceLimit c) (propagateLegacyHeader c) (sanitizedFieldNames c)
    (ignoreTransactionURLs c) (compressionOptions_ c) .

Definition with_stackTraceLimit (x : Z)
    (c : instrumentationConfigValues) : instrumentationConfigValues :=
  mkValues (recording c) (captureBody c) (captureHeaders c) (maxSpans c)
    (sampler c) (spanStackTraceMinDuration c) (exitSpanMinDuration c)
    (continuationStrategy c) x (propagateLegacyHeader c)
    (sanitizedFieldNames c) (ignoreTransactionURLs c) (compressionOptions_ c)
    .

Definition with_propagateLegacyHeader (x : bool)
    (c : instrumentationConfigValues) : instrumentationConfigValues :=
  mkValues (recording c) (captureBody c) (captureHeaders c) (maxSpans c)
    (sampler c) (spanStackTraceMinDuration c) (exitSpanMinDuration c)
    (continuationStrategy c) (stackTraceLimit c) x (sanitizedFieldNames c)
    (ignoreTransactionURLs c) (compressionOptions_ c) .

Definition with_sanitizedFieldNames (x : Matchers)
    (c : instrumentationConfigValues) : instrumentationConfigValues :=
  mkValues (recording c) (captureBody c) (captureHeaders c) (maxSpans c)
    (sampler c) (spanStackTraceMinDuration c) (exitSpanMinDuration c)
    (continuationStrategy c) (stackTraceLimit c) (propagateLegacyHeader c) x
    (ignoreTransactionURLs c) (compressionOptions_ c) .

Definition with_ignoreTransactionURLs (x : Matchers)
    (c : instrumentationConfigValues) : instrumentationConfigValues :=
  mkValues (recording c) (captureBody c) (captureHeaders c) (maxSpans c)
    (sampler c) (spanStackTraceMinDuration c) (exitSpanMinDuration c)
    (continuationStrategy c) (stackTraceLimit c) (propagateLegacyHeader c)
    (sanitizedFieldNames c) x (compressionOptions_ c) .

Definition with_compressionOptions_ (x : compressionOptions)
    (c : instrumentationConfigValues) : instrumentationConfigValues :=
  mkValues (recording c) (captureBody c) (captureHeaders c) (maxSpans c)
    (sampler c) (spanStackTraceMinDuration c) (exitSpanMinDuration c)
    (continuationStrategy c) (stackTraceLimit c) (propagateLegacyHeader c)
    (sanitizedFieldNames c) (ignoreTransactionURLs c) x.

(** [instrumentationConfig] holds current configuration values, as well as
    information required to revert from remote to local configuration:
    [local] holds functions for setting the values to the most recently,
    locally specified configuration; [remote] holds the environment variable
    keys for applied remote config. *)
Record instrumentationConfig := mkConfig {
  values : instrumentationConfigValues;
  local : gmap string (instrumentationConfigValues → instrumentationConfigValues);
  remote : gset string
}.

(** A function on the embedded values, as a function on the config. *)
Definition on_values (f : instrumentationConfigValues → instrumentationConfigValues)
    (cfg : instrumentationConfig) : instrumentationConfig :=
  mkConfig (f (values cfg)) (local cfg) (remote cfg).

(** [parseSampleRate] parses a numeric sampling rate in the range [0,1.0],
    returning a Sampler. *)
Definition parseSampleRate (name value : string) : option Sampler :=
  let value := if is_empty value then "1" else value in
  match ParseFloat value with
  | None => None
  | Some ratio =>
      if float_ltb ratio float_zero || float_ltb float_one ratio then None
      else Some (NewRatioSampler ratio)
  end.

(** [validateContinuationStrategy]: [true] for a nil error. *)
Definition validateContinuationStrategy (value : string) : bool :=
  bool_decide (value ∈ ["continue"; "restart"; "restart_external"]).

Definition parseCaptureBody (name value : string) : option CaptureBodyMode :=
  let s := TrimSpace (ToLower value) in
  if bool_decide (s = "all") then Some CaptureBodyAll
  else if bool_decide (s = "errors") then Some CaptureBodyErrors
  else if bool_decide (s = "transactions") then Some CaptureBodyTransactions
  else if bool_decide (s = "off") then Some CaptureBodyOff
  else None.

(** *** Logging

    The logger handed to [updateRemoteConfig] is nil, the default logger of
    apmlog, or a custom one; what is written is kept as a list of events,
    one per call of [Errorf], [Warningf] and [Debugf], each with the key (and
    value) that its message reports. *)
Inductive Logger := NilLogger | DefaultLogger | CustomLogger.

Inductive logEvent :=
| ErrorfFailure (k : string)          (* "central config failure: ..." *)
| WarningfUnsupported (k : string)    (* "... unsupported config: %s" *)
| WarningfIgnored (k v : string)      (* "central config ignored: ..." *)
| DebugfUpdated (k v : string)        (* "... updated %s to %s" *)
| DebugfReverted (k : string).        (* "... reverted %s to local config" *)

(** [warningf], [debugf] and [errorf] do nothing for a nil logger. *)
Definition emit (logger : Logger) (ev : logEvent) : list logEvent :=
  match logger with
  | NilLogger => []
  | _ => [ev]
  end.

Definition envName (k : string) : string := "ELASTIC_APM_" +:+ ToUpper k.

(** *** updateRemoteConfig *)

(** The body of the [switch envName(k)] for one attribute: either the value
    is turned down, with the event to log, and the key is deleted from
    [attrs], or an update of the config is appended to [updates]. *)
Inductive remoteOutcome :=
| Rejected (ev : logEvent)
| Update (u : instrumentationConfig → instrumentationConfig).

Definition parsed {A} (k : string) (r : option A)
    (u : A → instrumentationConfigValues → instrumentationConfigValues)
  : remoteOutcome :=
  match r with
  | None => Rejected (ErrorfFailure k)
  | Some a => Update (on_values (u a))
  end.

Definition remoteUpdate (logger : Logger) (k v : string) : remoteOutcome :=
  let e := envName k in
  if bool_decide (e = envCaptureBody) then
    parsed k (parseCaptureBody k v) with_captureBody
  else if bool_decide (e = envMaxSpans) then
    parsed k (Atoi v) with_maxSpans
  else if bool_decide (e = envExitSpanMinDuration) then
    parsed k (ParseDurationOptions v Microsecond) with_exitSpanMinDuration
  else if bool_decide (e = envIgnoreURLs) then
    Update (on_values (with_ignoreTransactionURLs (ParseWildcardPatterns v)))
  else if bool_decide (e = envRecording) then
    parsed k (ParseBool v) with_recording
  else if bool_decide (e = envSanitizeFieldNames) then
    Update (on_values (with_sanitizedFieldNames (ParseWildcardPatterns v)))
  else if bool_decide (e = envContinuationStrategy) then
    parsed k (if validateContinuationStrategy v then Some v else None)
           with_continuationStrategy
  else if bool_decide (e = envSpanStackTraceMinDuration) then
    parsed k (ParseDuration v) with_spanStackTraceMinDuration
  else if bool_decide (e = envStackTraceLimit) then
    parsed k (Atoi v) with_stackTraceLimit
  else if bool_decide (e = envTransactionSampleRate) then
    parsed k (parseSampleRate k v) (λ s, with_sampler (Some s))
  else if bool_decide (e = EnvLogLevel) then
    match ParseLogLevel v with
    | None => Rejected (ErrorfFailure k)
    | Some level =>
        match logger with
        | DefaultLogger =>
            (* dl.SetLevel(level): the level of the process-wide logger is
               no part of the config, which the update leaves as it is. *)
            Update (λ cfg, cfg)
        | _ => Rejected (WarningfIgnored k v)
        end
    end
  else if bool_decide (e = envSpanCompressionEnabled) then
    parsed k (ParseBool v)
           (λ val c, with_compressionOptions_ (with_enabled val (compressionOptions_ c)) c)
  else if bool_decide (e = envSpanCompressionExactMatchMaxDuration) then
    parsed k (ParseDuration v)
           (λ d c, with_compressionOptions_
                     (with_exactMatchMaxDuration d (compressionOptions_ c)) c)
  else if bool_decide (e = envSpanCompressionSameKindMaxDuration) then
    parsed k (ParseDuration v)
           (λ d c, with_compressionOptions_
                     (with_sameKindMaxDuration d (compressionOptions_ c)) c)
  else Rejected (WarningfUnsupported k).

(** The state of the first loop: the updates so far, [attrs] with the
    turned-down keys deleted, and the log. *)
Record loopState := mkLoop {
  updates : list (instrumentationConfig → instrumentationConfig);
  attrs_of : gmap string string;
  log_of : list logEvent
}.

(** One round of [for k, v := range attrs]. *)
Definition attrStep (logger : Logger) (old : gmap string string)
    (st : loopState) (kv : string * string) : loopState :=
  let '(k, v) := kv in
  if bool_decide (old !! k = Some v) then st
  else
    match remoteUpdate logger k v with
    | Rejected ev =>
        mkLoop (updates st) (delete k (attrs_of st)) (log_of st ++ emit logger ev)
    | Update u =>
        mkLoop (updates st ++ [u]) (attrs_of st)
               (log_of st ++ emit logger (DebugfUpdated k v))
    end.

(** The update that reverts [k] to local config. *)
Definition revert (k : string) (cfg : instrumentationConfig) : instrumentationConfig :=
  match local cfg !! envName k with
  | Some f => on_values f cfg
  | None => cfg
  end.

(** One round of [for k := range old]. *)
Definition oldStep (logger : Logger) (st : loopState) (kv : string * string)
  : loopState :=
  let '(k, _) := kv in
  if bool_decide (is_Some (attrs_of st !! k)) then st
  else
    mkLoop (updates st ++ [revert k]) (attrs_of st)
           (log_of st ++ emit logger (DebugfReverted k)).

(** [updateInstrumentationConfig]: a copy of the current config is changed
    by [f] and put in place of the current one by compare-and-swap, again
    and again until no other update came in between; run alone, the first
    attempt succeeds. *)
Definition updateInstrumentationConfig
    (f : instrumentationConfig → instrumentationConfig)
    (cfg : instrumentationConfig) : instrumentationConfig :=
  f cfg.

(** [updateRemoteConfig] updates the config with changes held in [attrs],
    and reverts to local config for config attributes that have been removed
    (exist in [old] but not in [attrs]).  On return, unapplied config will
    have been removed from [attrs]: the result is the new config, [attrs]
    as the call leaves it, and the log. *)
Definition updateRemoteConfig (logger : Logger) (cfg : instrumentationConfig)
    (old attrs : gmap string string)
  : instrumentationConfig * gmap string string * list logEvent :=
  let st := foldl (attrStep logger old) (mkLoop [] attrs []) (range attrs) in
  let st := foldl (oldStep logger) st (range old) in
  let cfg' :=
    match updates st with
    | [] => cfg
    | _ =>
        let remote' : gset string :=
          list_to_set ((λ kv, envName kv.1) <$> range (attrs_of st)) in
        updateInstrumentationConfig
          (λ cfg, foldl (λ cfg update, update cfg)
                        (mkConfig (values cfg) (local cfg) remote') (updates st))
          cfg
    end in
  (cfg', attrs_of st, log_of st).

(** [setLocalInstrumentationConfig] sets local transaction configuration
    with the specified environment variable key. *)
Definition setLocalInstrumentationConfig (envKey : string)
    (f : instrumentationConfigValues → instrumentationConfigValues)
    (cfg : instrumentationConfig) : instrumentationConfig :=
  updateInstrumentationConfig
    (λ cfg,
       let cfg := mkConfig (values cfg) (<[envKey := f]> (local cfg)) (remote cfg) in
       if bool_decide (envKey ∈ remote cfg) then cfg else on_values f cfg)
    cfg.

(** The tracer's loop hands each batch of central config to
    [updateRemoteConfig] together with the attributes that the previous
    call left; [applyBatches] runs it over a list of batches. *)
Fixpoint applyBatches (logger : Logger) (cfg : instrumentationConfig)
    (old : gmap string string) (batches : list (gmap string string))
  : instrumentationConfig * gmap string string :=
  match batches with
  | [] => (cfg, old)
  | attrs :: rest =>
      let '(cfg', attrs', _) := updateRemoteConfig logger cfg old attrs in
      applyBatches logger cfg' attrs' rest
  end.

End WithExternals.

End Config.

(** ** Transactions (transaction.go) *)

Module Tx.
Import GoString Config.

(** *** Identifiers and trace context (tracecontext.go)

    A [TraceID] is an array of 16 bytes and a [SpanID] one of 8 bytes; a
    byte is an integer in [0, 255]. *)
Definition TraceID := list Z.
Definition SpanID := list Z.

Definition zeroTraceID : TraceID := replicate 16 0.
Definition zeroSpanID : SpanID := replicate 8 0.

(** Modelled from the spec: [isZero] and [Validate] of [TraceID] and
    [SpanID] (tracecontext.go, outside the files verified here); "zero value
    is invalid", and "Validate rejects all-zero" values.  [Validate] is
    [true] for a nil error. *)
Definition isZero (id : list Z) : bool := forallb (Z.eqb 0) id.
Definition Validate (id : list Z) : bool := negb (isZero id).

(** [binary.LittleEndian.PutUint64(b, v)]: the eight bytes of [v], least
    significant first. *)
Definition le_bytes (v : Z) : list Z :=
  (λ i, Z.land (Z.shiftr v (8 * Z.of_nat i)) 255) <$> seq 0 8.

(** [copy(dst, src)]: the first [min(len(dst), len(src))] bytes of [dst]
    are overwritten. *)
Definition copy (dst src : list Z) : list Z :=
  take (length dst) src ++ drop (length src) dst.

(** Modelled from the spec: [TraceOptions] is the byte of flags, whose
    lowest bit is the "sampled/recorded bit"; [WithRecorded] and [Recorded]
    (tracecontext.go) set and read it. *)
Definition TraceOptions := Z.

Definition WithRecorded (o : TraceOptions) (recorded : bool) : TraceOptions :=
  if recorded then Z.lor o 1 else Z.land o 254.

Definition Recorded (o : TraceOptions) : bool := Z.testbit o 0.

(** [time.Time] as nanoseconds since the zero time, and [time.Duration] as
    nanoseconds. *)
Definition Time := Z.

Definition IsZero (t : Time) : bool := t =? 0.

(** [time.Since(t)], at the instant [now]: the difference, kept within the
    range of a [Duration]. *)
Definition Since (now t : Time) : Z :=
  Z.max (- 2 ^ 63) (Z.min (2 ^ 63 - 1) (now - t)).

(** *** What transaction.go takes from other files

    The trace state, the rounding and formatting of sample rates, the
    pseudo-random generator and the span side of a transaction are outside
    the three files; the code is modelled over any implementation of them.
    [Uint64] returns the number drawn and the generator after the draw.
    [evict] takes the cached span out of the compressed-span cache. *)
Class TxExternals `{!ConfigExternals} := {
  TraceState : Type;
  zeroTraceState : TraceState;
  haveElastic : TraceState → bool;
  TraceState_Validate : TraceState → bool;
  NewTraceState : list (string * string) → TraceState;
  elasticTracestateVendorKey : string;
  formatElasticTracestateValue : float → string;
  roundSampleRate : float → float;
  Rand : Type;
  rand_New : Z → Rand;
  Uint64 : Rand → Z * Rand;
  ChildrenTimer : Type;
  zeroChildrenTimer : ChildrenTimer;
  SpanTimingsMap : Type;
  make_spanTimingsMap : SpanTimingsMap;
  spanTimings_reset : SpanTimingsMap → SpanTimingsMap;
  CompressedSpan : Type;
  zeroCompressedSpan : CompressedSpan;
  with_options : compressionOptions → CompressedSpan → CompressedSpan;
  SpanT : Type;
  evict : CompressedSpan → option SpanT * CompressedSpan;
  otherEvent : Type
}.

Section WithExternals.
Context `{!ConfigExternals} `{!TxExternals}.

Record TraceContext := mkTraceContext {
  Trace : TraceID;
  Span : SpanID;
  Options : TraceOptions;
  State : TraceState
}.

Definition with_Trace (x : TraceID) (c : TraceContext) : TraceContext :=
  mkTraceContext x (Span c) (Options c) (State c).

Definition with_Span (x : SpanID) (c : TraceContext) : TraceContext :=
  mkTraceContext (Trace c) x (Options c) (State c).

Definition with_Options (x : TraceOptions) (c : TraceContext) : TraceContext :=
  mkTraceContext (Trace c) (Span c) x (State c).

Definition with_State (x : TraceState) (c : TraceContext) : TraceContext :=
  mkTraceContext (Trace c) (Span c) (Options c) x.

Definition zeroTraceContext : TraceContext :=
  mkTraceContext zeroTraceID zeroSpanID 0 zeroTraceState.

Record SpanLink := mkSpanLink {
  link_Trace : TraceID;
  link_Span : SpanID
}.

(** [SampleParams] and [SampleResult] (sampler.go). *)
Record SampleParams := mkSampleParams { params_TraceContext : TraceContext }.

Record SampleResult := mkSampleResult {
  Sampled : bool;
  SampleRate : float
}.

(** [TransactionOptions] holds options for [StartTransactionOptions]. *)
Record TransactionOptions := mkTransactionOptions {
  opts_TraceContext : TraceContext;
  TransactionID : SpanID;
  Start : Time;
  Links : list SpanLink
}.

(** Modelled from the spec: the type [Context] of a transaction's context
    (context.go) is outside the files verified here.  Its three fields that
    transaction.go writes are taken from there; for the rest the data model
    of the spec has TransactionData hold "an embedded SpanContext", from
    which the outcome is "derived from SpanContext (e.g., HTTP status)".
    [Context_reset] puts it back into "a recyclable zero state", keeping the
    capture-body mask it was created with. *)
Record Context_ := mkContext {
  captureBodyMask : CaptureBodyMode;
  ctx_captureHeaders : bool;
  ctx_sanitizedFieldNames : option Matchers;
  spanContext : SpanCtx.SpanContext
}.

Definition Context_outcome (c : Context_) : string :=
  SpanCtx.outcome (spanContext c).

Definition Context_reset (c : Context_) : Context_ :=
  mkContext (captureBodyMask c) false None (SpanCtx.reset (spanContext c)).

(** [TransactionData] holds the details for a transaction, and is embedded
    inside [Transaction].  ([mu] guards the span side against sibling
    spans; calls are modelled one at a time.) *)
Record TransactionData := mkTransactionData {
  Name : string;
  Type_ : string;
  Duration : Z;
  Context : Context_;
  Result : string;
  Outcome : string;
  td_recording : bool;
  td_maxSpans : Z;
  td_exitSpanMinDuration : Z;
  td_spanStackTraceMinDuration : Z;
  td_stackTraceLimit : Z;
  breakdownMetricsEnabled : bool;
  td_propagateLegacyHeader : bool;
  timestamp : Time;
  links : list SpanLink;
  errorCaptured : bool;
  spansCreated : Z;
  spansDropped : Z;
  childrenTimer : ChildrenTimer;
  spanTimings : SpanTimingsMap;
  droppedSpansStats : DroppedSpans.droppedSpanTimingsMap;
  rand : Rand;
  compressedSpan : CompressedSpan
}.

Definition with_Name (x : string) (c : TransactionData) : TransactionData :=
  mkTransactionData x (Type_ c) (Duration c) (Context c) (Result c)
    (Outcome c) (td_recording c) (td_maxSpans c) (td_exitSpanMinDuration c)
    (td_spanStackTraceMinDuration c) (td_stackTraceLimit c)
    (breakdownMetricsEnabled c) (td_propagateLegacyHeader c) (timestamp c)
    (links c) (errorCaptured c) (spansCreated c) (spansDropped c)
    (childrenTimer c) (spanTimings c) (droppedSpansStats c) (rand c)
    (compressedSpan c) .

Definition with_Type_ (x : string) (c : TransactionData) : TransactionData :=
  mkTransactionData (Name c) x (Duration c) (Context c) (Result c) (Outcome c)
    (td_recording c) (td_maxSpans c) (td_exitSpanMinDuration c)
    (td_spanStackTraceMinDuration c) (td_stackTraceLimit c)
    (breakdownMetricsEnabled c) (td_propagateLegacyHeader c) (timestamp c)
    (links c) (errorCaptured c) (spansCreated c) (spansDropped c)
    (childrenTimer c) (spanTimings c) (droppedSpansStats c) (rand c)
    (compressedSpan c) .

Definition with_Duration (x : Z) (c : TransactionData) : TransactionData :=
  mkTransactionData (Name c) (Type_ c) x (Context c) (Result c) (Outcome c)
    (td_recording c) (td_maxSpans c) (td_exitSpanMinDuration c)
    (td_spanStackTraceMinDuration c) (td_stackTraceLimit c)
    (breakdownMetricsEnabled c) (td_propagateLegacyHeader c) (timestamp c)
    (links c) (errorCaptured c) (spansCreated c) (spansDropped c)
    (childrenTimer c) (spanTimings c) (droppedSpansStats c) (rand c)
    (compressedSpan c) .

Definition with_Context (x : Context_)
    (c : TransactionData) : TransactionData :=
  mkTransactionData (Name c) (Type_ c) (Duration c) x (Result c) (Outcome c)
    (td_recording c) (td_maxSpans c) (td_exitSpanMinDuration c)
    (td_spanStackTraceMinDuration c) (td_stackTraceLimit c)
    (breakdownMetricsEnabled c) (td_propagateLegacyHeader c) (timestamp c)
    (links c) (errorCaptured c) (spansCreated c) (spansDropped c)
    (childrenTimer c) (spanTimings c) (droppedSpansStats c) (rand c)
    (compressedSpan c) .

Definition with_Outcome (x : string) (c : TransactionData) : TransactionData :=
  mkTransactionData (Name c) (Type_ c) (Duration c) (Context c) (Result c) x
    (td_recording c) (td_maxSpans c) (td_exitSpanMinDuration c)
    (td_spanStackTraceMinDuration c) (td_stackTraceLimit c)
    (breakdownMetricsEnabled c) (td_propagateLegacyHeader c) (timestamp c)
    (links c) (errorCaptured c) (spansCreated c) (spansDropped c)
    (childrenTimer c) (spanTimings c) (droppedSpansStats c) (rand c)
    (compressedSpan c) .

Definition with_td_recording (x : bool)
    (c : TransactionData) : TransactionData :=
  mkTransactionData (Name c) (Type_ c) (Duration c) (Context c) (Result c)
    (Outcome c) x (td_maxSpans c) (td_exitSpanMinDuration c)
    (td_spanStackTraceMinDuration c) (td_stackTraceLimit c)
    (breakdownMetricsEnabled c) (td_propagateLegacyHeader c) (timestamp c)
    (links c) (errorCaptured c) (spansCreated c) (spansDropped c)
    (childrenTimer c) (spanTimings c) (droppedSpansStats c) (rand c)
    (compressedSpan c) .

Definition with_td_maxSpans (x : Z) (c : TransactionData) : TransactionData :=
  mkTransactionData (Name c) (Type_ c) (Duration c) (Context c) (Result c)
    (Outcome c) (td_recording c) x (td_exitSpanMinDuration c)
    (td_spanStackTraceMinDuration c) (td_stackTraceLimit c)
    (breakdownMetricsEnabled c) (td_propagateLegacyHeader c) (timestamp c)
    (links c) (errorCaptured c) (spansCreated c) (spansDropped c)
    (childrenTimer c) (spanTimings c) (droppedSpansStats c) (rand c)
    (compressedSpan c) .

Definition with_td_exitSpanMinDuration (x : Z)
    (c : TransactionData) : TransactionData :=
  mkTransactionData (Name c) (Type_ c) (Duration c) (Context c) (Result c)
    (Outcome c) (td_recording c) (td_maxSpans c) x
    (td_spanStackTraceMinDuration c) (td_stackTraceLimit c)
    (breakdownMetricsEnabled c) (td_propagateLegacyHeader c) (timestamp c)
    (links c) (errorCaptured c) (spansCreated c) (spansDropped c)
    (childrenTimer c) (spanTimings c) (droppedSpansStats c) (rand c)
    (compressedSpan c) .

Definition with_td_spanStackTraceMinDuration (x : Z)
    (c : TransactionData) : TransactionData :=
  mkTransactionData (Name c) (Type_ c) (Duration c) (Context c) (Result c)
    (Outcome c) (td_recording c) (td_maxSpans c) (td_exitSpanMinDuration c) x
    (td_stackTraceLimit c) (breakdownMetricsEnabled c)
    (td_propagateLegacyHeader c) (timestamp c) (links c) (errorCaptured c)
    (spansCreated c) (spansDropped c) (childrenTimer c) (spanTimings c)
    (droppedSpansStats c) (rand c) (compressedSpan c) .

Definition with_td_stackTraceLimit (x : Z)
    (c : TransactionData) : TransactionData :=
  mkTransactionData (Name c) (Type_ c) (Duration c) (Context c) (Result c)
    (Outcome c) (td_recording c) (td_maxSpans c) (td_exitSpanMinDuration c)
    (td_spanStackTraceMinDuration c) x (breakdownMetricsEnabled c)
    (td_propagateLegacyHeader c) (timestamp c) (links c) (errorCaptured c)
    (spansCreated c) (spansDropped c) (childrenTimer c) (spanTimings c)
    (droppedSpansStats c) (rand c) (compressedSpan c) .

Definition with_breakdownMetricsEnabled (x : bool)
    (c : TransactionData) : TransactionData :=
  mkTransactionData (Name c) (Type_ c) (Duration c) (Context c) (Result c)
    (Outcome c) (td_recording c) (td_maxSpans c) (td_exitSpanMinDuration c)
    (td_spanStackTraceMinDuration c) (td_stackTraceLimit c) x
    (td_propagateLegacyHeader c) (timestamp c) (links c) (errorCaptured c)
    (spansCreated c) (spansDropped c) (childrenTimer c) (spanTimings c)
    (droppedSpansStats c) (rand c) (compressedSpan c) .

Definition with_td_propagateLegacyHeader (x : bool)
    (c : TransactionData) : TransactionData :=
  mkTransactionData (Name c) (Type_ c) (Duration c) (Context c) (Result c)
    (Outcome c) (td_recording c) (td_maxSpans c) (td_exitSpanMinDuration c)
    (td_spanStackTraceMinDuration c) (td_stackTraceLimit c)
    (breakdownMetricsEnabled c) x (timestamp c) (links c) (errorCaptured c)
    (spansCreated c) (spansDropped c) (childrenTimer c) (spanTimings c)
    (droppedSpansStats c) (rand c) (compressedSpan c) .

Definition with_timestamp (x : Time) (c : TransactionData) : TransactionData :=
  mkTransactionData (Name c) (Type_ c) (Duration c) (Context c) (Result c)
    (Outcome c) (td_recording c) (td_maxSpans c) (td_exitSpanMinDuration c)
    (td_spanStackTraceMinDuration c) (td_stackTraceLimit c)
    (breakdownMetricsEnabled c) (td_propagateLegacyHeader c) x (links c)
    (errorCaptured c) (spansCreated c) (spansDropped c) (childrenTimer c)
    (spanTimings c) (droppedSpansStats c) (rand c) (compressedSpan c) .

Definition with_links (x : list SpanLink)
    (c : TransactionData) : TransactionData :=
  mkTransactionData (Name c) (Type_ c) (Duration c) (Context c) (Result c)
    (Outcome c) (td_recording c) (td_maxSpans c) (td_exitSpanMinDuration c)
    (td_spanStackTraceMinDuration c) (td_stackTraceLimit c)
    (breakdownMetricsEnabled c) (td_propagateLegacyHeader c) (timestamp c) x
    (errorCaptured c) (spansCreated c) (spansDropped c) (childrenTimer c)
    (spanTimings c) (droppedSpansStats c) (rand c) (compressedSpan c) .

Definition with_rand (x : Rand) (c : TransactionData) : TransactionData :=
  mkTransactionData (Name c) (Type_ c) (Duration c) (Context c) (Result c)
    (Outcome c) (td_recording c) (td_maxSpans c) (td_exitSpanMinDuration c)
    (td_spanStackTraceMinDuration c) (td_stackTraceLimit c)
    (breakdownMetricsEnabled c) (td_propagateLegacyHeader c) (timestamp c)
    (links c) (errorCaptured c) (spansCreated c) (spansDropped c)
    (childrenTimer c) (spanTimings c) (droppedSpansStats c) x
    (compressedSpan c) .

Definition with_compressedSpan (x : CompressedSpan)
    (c : TransactionData) : TransactionData :=
  mkTransactionData (Name c) (Type_ c) (Duration c) (Context c) (Result c)
    (Outcome c) (td_recording c) (td_maxSpans c) (td_exitSpanMinDuration c)
    (td_spanStackTraceMinDuration c) (td_stackTraceLimit c)
    (breakdownMetricsEnabled c) (td_propagateLegacyHeader c) (timestamp c)
    (links c) (errorCaptured c) (spansCreated c) (spansDropped c)
    (childrenTimer c) (spanTimings c) (droppedSpansStats c) (rand c) x.

(** [Transaction] describes an event occurring in the monitored service.
    [TransactionData] is set to nil, here [None], when either of the
    transaction's [End] or [Discard] methods are called. *)
Record Transaction := mkTransaction {
  traceContext : TraceContext;
  parentID : SpanID;
  TransactionData_ : option TransactionData
}.

(** An event in the tracer's queue: a transaction with its data, or an
    event of another kind. *)
Inductive tracerEvent :=
| transactionEvent (tx : Transaction) (td : TransactionData)
| anotherEvent (e : otherEvent).

(** The part of [Tracer] that transaction.go reads and writes: the current
    config, the active flag, whether breakdown metrics are enabled, the pool
    of transaction data, the buffered channel [events] with its capacity,
    the transactions that were handed to
    [breakdownMetrics.recordTransaction], and the counter of dropped
    transactions of [stats]. *)
Record Tracer := mkTracer {
  instrumentationConfigInternal : instrumentationConfig;
  active : bool;
  breakdownMetrics_enabled : bool;
  transactionDataPool : list TransactionData;
  events : list tracerEvent;
  events_capacity : nat;
  breakdownMetrics_recorded : list TransactionData;
  stats_TransactionsDropped : Z
}.

Definition with_transactionDataPool (x : list TransactionData)
    (c : Tracer) : Tracer :=
  mkTracer (instrumentationConfigInternal c) (active c)
    (breakdownMetrics_enabled c) x (events c) (events_capacity c)
    (breakdownMetrics_recorded c) (stats_TransactionsDropped c) .

Definition with_events (x : list tracerEvent) (c : Tracer) : Tracer :=
  mkTracer (instrumentationConfigInternal c) (active c)
    (breakdownMetrics_enabled c) (transactionDataPool c) x (events_capacity c)
    (breakdownMetrics_recorded c) (stats_TransactionsDropped c) .

Definition with_breakdownMetrics_recorded (x : list TransactionData)
    (c : Tracer) : Tracer :=
  mkTracer (instrumentationConfigInternal c) (active c)
    (breakdownMetrics_enabled c) (transactionDataPool c) (events c)
    (events_capacity c) x (stats_TransactionsDropped c) .

Definition with_stats_TransactionsDropped (x : Z) (c : Tracer) : Tracer :=
  mkTracer (instrumentationConfigInternal c) (active c)
    (breakdownMetrics_enabled c) (transactionDataPool c) (events c)
    (events_capacity c) (breakdownMetrics_recorded c) x.

(** The sampler, and the end of an evicted span ([Span.end] of span.go),
    which acts on the tracer. *)
Class TracerExternals := {
  Sample : Sampler → SampleParams → SampleResult;
  Span_end : SpanT → Tracer → Tracer
}.

Context `{!TracerExternals}.

(** What a call of [StartTransactionOptions] takes from its surroundings:
    which item [sync.Pool.Get] hands out, if any; the seed read from
    [crypto/rand], if the read succeeds; and the time. *)
Record StartEnv := mkStartEnv {
  poolPick : option nat;
  cryptoSeed : option Z;
  now : Time
}.

(** [t.transactionDataPool.Get()]: the picked item leaves the pool. *)
Definition pool_Get (pick : option nat) (pool : list TransactionData)
  : option (TransactionData * list TransactionData) :=
  match pick with
  | None => None
  | Some i =>
      match pool !! i with
      | Some td => Some (td, delete i pool)
      | None => None
      end
  end.

Definition newTransactionData (env : StartEnv) : TransactionData :=
  let seed := match cryptoSeed env with
              | Some seed => seed
              | None => GoInt.wrap_int64 (now env)   (* time.Now().UnixNano() *)
              end in
  mkTransactionData "" "" (-1)
    (mkContext CaptureBodyTransactions false None SpanCtx.zeroSpanContext)
    "" "" false 0 0 0 0 false false 0 [] false 0 0 zeroChildrenTimer
    make_spanTimingsMap ∅ (rand_New seed) zeroCompressedSpan.

(** The transaction data of a new transaction: from the pool, or newly
    made, with a generator seeded from [crypto/rand] or else the clock. *)
Definition acquire (env : StartEnv) (t : Tracer) : TransactionData * Tracer :=
  match pool_Get (poolPick env) (transactionDataPool t) with
  | Some (td, pool) => (td, with_transactionDataPool pool t)
  | None => (newTransactionData env, t)
  end.

(** The continuation strategy in force for an inbound trace context. *)
Definition effectiveStrategy (continuationStrategy : string)
    (inbound : TraceContext) : string :=
  if bool_decide (continuationStrategy = "restart_external") then
    if haveElastic (State inbound) then "continue" else "restart"
  else continuationStrategy.

(** The identity of the new transaction: its trace context, its parent,
    the transaction data (with the link of a restarted trace, and the
    generator after the draws) and whether the transaction is a root. *)
Definition continuation (continuationStrategy : string)
    (opts : TransactionOptions) (td : TransactionData)
  : TraceContext * SpanID * TransactionData * bool :=
  let inbound := opts_TraceContext opts in
  let continuationStrategy := effectiveStrategy continuationStrategy inbound in
  let '(td, shouldRestartTrace) :=
    if bool_decide (continuationStrategy = "restart")
       && (negb (isZero (Trace inbound)) && negb (isZero (Span inbound)))
    then (with_links (links td ++ [mkSpanLink (Trace inbound) (Span inbound)]) td,
          true)
    else (td, false) in
  if Validate (Trace inbound) && negb shouldRestartTrace then
    let tc := with_Options (Options inbound)
                (with_Trace (Trace inbound) zeroTraceContext) in
    let parent := if Validate (Span inbound) then Span inbound else zeroSpanID in
    let '(tc, td) :=
      if Validate (TransactionID opts) then (with_Span (TransactionID opts) tc, td)
      else
        let '(n, r) := Uint64 (rand td) in
        (with_Span (copy (Span tc) (le_bytes n)) tc, with_rand r td) in
    let tc := if TraceState_Validate (State inbound)
              then with_State (State inbound) tc else tc in
    (tc, parent, td, false)
  else
    (* Start a new trace. We reuse the trace ID for the root transaction's
       ID if one is not specified in the options. *)
    let '(n1, r1) := Uint64 (rand td) in
    let '(n2, r2) := Uint64 r1 in
    let td := with_rand r2 td in
    let trace := copy (take 8 zeroTraceID) (le_bytes n1)
                 ++ copy (drop 8 zeroTraceID) (le_bytes n2) in
    let tc := with_Trace trace zeroTraceContext in
    let tc := if Validate (TransactionID opts)
              then with_Span (TransactionID opts) tc
              else with_Span (copy (Span tc) (Trace tc)) tc in
    (tc, zeroSpanID, td, true).

(** The sampling decision of a root, and the flags of a continued trace. *)
Definition sampling (smp : option Sampler) (inbound : TraceContext)
    (tc : TraceContext) (root : bool) : TraceContext :=
  if root then
    match smp with
    | Some smp =>
        let result := Sample smp (mkSampleParams tc) in
        let result :=
          if negb (Sampled result)
          then (* Special case: for unsampled transactions we report a
                  sample rate of 0, so that we do not count them in
                  aggregations in the server. *)
               mkSampleResult (Sampled result) float_zero
          else result in
        let sampleRate := roundSampleRate (SampleRate result) in
        let tc := with_State
                    (NewTraceState
                       [(elasticTracestateVendorKey,
                         formatElasticTracestateValue sampleRate)]) tc in
        if Sampled result then with_Options (WithRecorded (Options tc) true) tc
        else tc
    | None => with_Options (WithRecorded (Options tc) true) tc
    end
  else with_Options (Options inbound) tc.

(** The snapshot of the config is copied onto the transaction. *)
Definition applySnapshot (instrumentationConfig : instrumentationConfigValues)
    (t : Tracer) (td : TransactionData) : TransactionData :=
  let td := with_td_maxSpans (maxSpans instrumentationConfig) td in
  let td := with_compressedSpan
              (with_options (compressionOptions_ instrumentationConfig)
                            (compressedSpan td)) td in
  let td := with_td_exitSpanMinDuration (exitSpanMinDuration instrumentationConfig) td in
  let td := with_td_spanStackTraceMinDuration
              (spanStackTraceMinDuration instrumentationConfig) td in
  let td := with_td_stackTraceLimit (stackTraceLimit instrumentationConfig) td in
  let td := with_Context
              (mkContext (captureBodyMask (Context td))
                         (captureHeaders instrumentationConfig)
                         (Some (sanitizedFieldNames instrumentationConfig))
                         (spanContext (Context td))) td in
  let td := with_td_propagateLegacyHeader
              (propagateLegacyHeader instrumentationConfig) td in
  with_breakdownMetricsEnabled (breakdownMetrics_enabled t) td.

(** [StartTransactionOptions] returns a new Transaction with the specified
    name, type, and options. *)
Definition StartTransactionOptions (env : StartEnv) (t : Tracer)
    (name transactionType : string) (opts : TransactionOptions)
  : Transaction * Tracer :=
  let '(td, t) := acquire env t in
  (* Take a snapshot of config that should apply to all spans within the
     transaction. *)
  let instrumentationConfig := values (instrumentationConfigInternal t) in
  let td := with_td_recording (recording instrumentationConfig) td in
  if negb (td_recording td) || negb (active t) then
    (mkTransaction zeroTraceContext zeroSpanID (Some td), t)
  else
  let td := applySnapshot instrumentationConfig t td in
  let '(tc, parent, td, root) :=
    continuation (continuationStrategy instrumentationConfig) opts td in
  let tc := sampling (sampler instrumentationConfig) (opts_TraceContext opts) tc root in
  let td := with_Name name td in
  let td := with_Type_ transactionType td in
  let td := with_timestamp (if IsZero (Start opts) then now env else Start opts) td in
  let td := with_links (links td ++ Links opts) td in
  (mkTransaction tc parent (Some td), t).

(** The transaction data as [continuation] receives it in a call of
    [StartTransactionOptions]: acquired, and stamped with the config. *)
Definition stamped (env : StartEnv) (t : Tracer) : TransactionData :=
  let '(td, t) := acquire env t in
  let instrumentationConfig := values (instrumentationConfigInternal t) in
  applySnapshot instrumentationConfig t
    (with_td_recording (recording instrumentationConfig) td).

(** [ended] reports whether or not End or Discard has been called. *)
Definition ended (tx : Transaction) : bool :=
  bool_decide (TransactionData_ tx = None).

(** [reset] resets the TransactionData back to its zero state and places it
    back into the transaction pool. *)
Definition TransactionData_reset (td : TransactionData) (t : Tracer) : Tracer :=
  let td :=
    mkTransactionData "" "" (-1) (Context_reset (Context td)) "" "" false 0 0 0 0
      false false 0 [] false 0 0 zeroChildrenTimer
      (spanTimings_reset (spanTimings td))
      (DroppedSpans.reset (droppedSpansStats td))
      (rand td) zeroCompressedSpan in
  with_transactionDataPool (transactionDataPool t ++ [td]) t.

Definition detach (tx : Transaction) : Transaction :=
  mkTransaction (traceContext tx) (parentID tx) None.

(** [Discard] discards a previously started transaction. *)
Definition Discard (tx : Transaction) (t : Tracer) : Transaction * Tracer :=
  match TransactionData_ tx with
  | None => (tx, t)
  | Some td => (detach tx, TransactionData_reset td t)
  end.

(** [enqueue]: the send on [events] must not block; it goes through when
    the buffer has room. *)
Definition enqueue (tx : Transaction) (td : TransactionData) (t : Tracer) : Tracer :=
  if bool_decide (length (events t) < events_capacity t)%nat then
    with_events (events t ++ [transactionEvent tx td]) t
  else
    (* Enqueuing a transaction should never block. *)
    let t := with_breakdownMetrics_recorded (breakdownMetrics_recorded t ++ [td]) t in
    let t := with_stats_TransactionsDropped (stats_TransactionsDropped t + 1) t in
    TransactionData_reset td t.

(** [End] enqueues tx for sending to the Elastic APM server; [now] is the
    time of the call. *)
Definition End (now : Time) (tx : Transaction) (t : Tracer) : Transaction * Tracer :=
  match TransactionData_ tx with
  | None => (tx, t)
  | Some td =>
      let td := if is_empty (Type_ td) then with_Type_ "custom" td else td in
      if td_recording td then
        let td := if Duration td <? 0
                  then with_Duration (Since now (timestamp td)) td else td in
        let td :=
          if is_empty (Outcome td) then
            let td := with_Outcome (Context_outcome (Context td)) td in
            if is_empty (Outcome td) then
              if errorCaptured td then with_Outcome "failure" td
              else with_Outcome "success" td
            else td
          else td in
        (* Evict the compressed-span cache and end the span. *)
        let '(evictedSpan, cache) := evict (compressedSpan td) in
        let td := with_compressedSpan cache td in
        let t := match evictedSpan with
                 | Some s => Span_end s t
                 | None => t
                 end in
        let tx := mkTransaction (traceContext tx) (parentID tx) (Some td) in
        (detach tx, enqueue tx td t)
      else (detach tx, TransactionData_reset td t)
  end.

(** The outcome of a transaction by the order of precedence: the value set
    by the caller, else the one that the HTTP status code gives, else
    whether an error was captured. *)
Definition resolvedOutcome (td : TransactionData) : string :=
  if negb (is_empty (Outcome td)) then Outcome td
  else
    let statusCode := SpanCtx.http_StatusCode (SpanCtx.http (spanContext (Context td))) in
    if negb (statusCode =? 0) then
      if statusCode <? 400 then "success" else "failure"
    else if errorCaptured td then "failure" else "success".

(** [EnsureParent] returns the span ID for tx's parent, generating a parent
    span ID if one has not already been set and tx has not been ended. *)
Definition EnsureParent (tx : Transaction) : SpanID * Transaction :=
  if ended tx then (zeroSpanID, tx)
  else if isZero (parentID tx) then
    let p := copy (parentID tx) (drop 8 (Trace (traceContext tx))) in
    (p, mkTransaction (traceContext tx) p (TransactionData_ tx))
  else (parentID tx, tx).

End WithExternals.

End Tx.

(** ** Vocabulary for the properties of the config store *)

Module ConfigSpec.
Import GoString Config.

(** The fields of [instrumentationConfigValues], one per setting. *)
Inductive configField :=
| FRecording
| FCaptureBody
| FCaptureHeaders
| FMaxSpans
| FSampler
| FSpanStackTraceMinDuration
| FExitSpanMinDuration
| FContinuationStrategy
| FStackTraceLimit
| FPropagateLegacyHeader
| FSanitizedFieldNames
| FIgnoreTransactionURLs
| FCompressionEnabled
| FCompressionExactMatch
| FCompressionSameKind.

(** The field that a setting, named as its environment variable, holds. *)
Definition fieldOfEnv (e : string) : option configField :=
  if bool_decide (e = envRecording) then Some FRecording
  else if bool_decide (e = envCaptureBody) then Some FCaptureBody
  else if bool_decide (e = envCaptureHeaders) then Some FCaptureHeaders
  else if bool_decide (e = envMaxSpans) then Some FMaxSpans
  else if bool_decide (e = envTransactionSampleRate) then Some FSampler
  else if bool_decide (e = envSpanStackTraceMinDuration) then Some FSpanStackTraceMinDuration
  else if bool_decide (e = envExitSpanMinDuration) then Some FExitSpanMinDuration
  else if bool_decide (e = envContinuationStrategy) then Some FContinuationStrategy
  else if bool_decide (e = envStackTraceLimit) then Some FStackTraceLimit
  else if bool_decide (e = envUseElasticTraceparentHeader) then Some FPropagateLegacyHeader
  else if bool_decide (e = envSanitizeFieldNames) then Some FSanitizedFieldNames
  else if bool_decide (e = envIgnoreURLs) then Some FIgnoreTransactionURLs
  else if bool_decide (e = envSpanCompressionEnabled) then Some FCompressionEnabled
  else if bool_decide (e = envSpanCompressionExactMatchMaxDuration) then Some FCompressionExactMatch
  else if bool_decide (e = envSpanCompressionSameKindMaxDuration) then Some FCompressionSameKind
  else None.

Section WithExternals.
Context `{!ConfigExternals}.

(** Two values agree on a field. *)
Definition agree (f : configField) (v v' : instrumentationConfigValues) : Prop :=
  match f with
  | FRecording => recording v = recording v'
  | FCaptureBody => captureBody v = captureBody v'
  | FCaptureHeaders => captureHeaders v = captureHeaders v'
  | FMaxSpans => maxSpans v = maxSpans v'
  | FSampler => sampler v = sampler v'
  | FSpanStackTraceMinDuration => spanStackTraceMinDuration v = spanStackTraceMinDuration v'
  | FExitSpanMinDuration => exitSpanMinDuration v = exitSpanMinDuration v'
  | FContinuationStrategy => continuationStrategy v = continuationStrategy v'
  | FStackTraceLimit => stackTraceLimit v = stackTraceLimit v'
  | FPropagateLegacyHeader => propagateLegacyHeader v = propagateLegacyHeader v'
  | FSanitizedFieldNames => sanitizedFieldNames v = sanitizedFieldNames v'
  | FIgnoreTransactionURLs => ignoreTransactionURLs v = ignoreTransactionURLs v'
  | FCompressionEnabled => enabled (compressionOptions_ v) = enabled (compressionOptions_ v')
  | FCompressionExactMatch => exactMatchMaxDuration (compressionOptions_ v) = exactMatchMaxDuration (compressionOptions_ v')
  | FCompressionSameKind => sameKindMaxDuration (compressionOptions_ v) = sameKindMaxDuration (compressionOptions_ v')
  end.

(** Two values agree on the field of the setting [e], if it has one. *)
Definition agree_env (e : string) (v v' : instrumentationConfigValues) : Prop :=
  match fieldOfEnv e with
  | Some f => agree f v v'
  | None => True
  end.

(** The function that [local] holds for the setting [e] sets the field of
    [e] to the value that it has in [v0], and no other field. *)
Definition local_setter (e : string)
    (f : instrumentationConfigValues → instrumentationConfigValues)
    (v0 : instrumentationConfigValues) : Prop :=
  (∀ v, agree_env e (f v) v0) ∧ (∀ e' v, e' ≠ e → agree_env e' (f v) v).

(** The config [cfg0] is under local configuration: every setting with a
    field has its function in [local], as the note at
    [instrumentationConfigValues] asks of [newTracer], and the fields hold
    the values that these functions set. *)
Definition under_local_config (cfg0 : instrumentationConfig) : Prop :=
  (∀ e fld, fieldOfEnv e = Some fld → is_Some (local cfg0 !! e))
  ∧ (∀ e f, local cfg0 !! e = Some f → local_setter e f (values cfg0)).

(** The functions of [local] leave the fields of other settings alone. *)
Definition local_independent (cfg : instrumentationConfig) : Prop :=
  ∀ e f, local cfg !! e = Some f → ∀ e' v, e' ≠ e → agree_env e' (f v) v.

(** Every attribute of [m] is a setting that [updateRemoteConfig] accepts,
    and its field in [cfg] holds the value of the attribute. *)
Definition in_force (logger : Logger) (cfg : instrumentationConfig)
    (m : gmap string string) : Prop :=
  ∀ k v, m !! k = Some v →
    ∃ u, remoteUpdate logger k v = Update u
         ∧ agree_env (envName k) (values cfg) (values (u cfg)).

(** No two keys of the attributes name the same setting. *)
Definition distinct_settings (old attrs : gmap string string) : Prop :=
  ∀ k k', is_Some (old !! k) ∨ is_Some (attrs !! k) →
          is_Some (old !! k') ∨ is_Some (attrs !! k') →
          envName k = envName k' → k = k'.

(** An update that, on a config whose [local] is [L], keeps [local] and the
    field of the setting [e]. *)
Definition keeps (e : string)
    (L : gmap string (instrumentationConfigValues → instrumentationConfigValues))
    (u : instrumentationConfig → instrumentationConfig) : Prop :=
  ∀ cfg, local cfg = L →
    local (u cfg) = L ∧ agree_env e (values (u cfg)) (values cfg).

(** What one round of the first loop appends to [updates], whether it
    deletes its key, and what it logs. *)
Definition stepUpdate (logger : Logger) (old : gmap string string)
    (kv : string * string) : option (instrumentationConfig → instrumentationConfig) :=
  if bool_decide (old !! kv.1 = Some kv.2) then None
  else match remoteUpdate logger kv.1 kv.2 with
       | Update u => Some u
       | Rejected _ => None
       end.

Definition stepDiscards (logger : Logger) (old : gmap string string)
    (kv : string * string) : bool :=
  if bool_decide (old !! kv.1 = Some kv.2) then false
  else match remoteUpdate logger kv.1 kv.2 with
       | Update _ => false
       | Rejected _ => true
       end.

Definition stepLog (logger : Logger) (old : gmap string string)
    (kv : string * string) : list logEvent :=
  if bool_decide (old !! kv.1 = Some kv.2) then []
  else match remoteUpdate logger kv.1 kv.2 with
       | Update _ => emit logger (DebugfUpdated kv.1 kv.2)
       | Rejected ev => emit logger ev
       end.

Definition delete_discarded (logger : Logger) (old : gmap string string)
    (m : gmap string string) (l : list (string * string)) : gmap string string :=
  foldl (λ m kv, if stepDiscards logger old kv then delete kv.1 m else m) m l.

(** The keys that the second loop reverts, in the order of the loop. *)
Definition reverted (m : gmap string string) (l : list (string * string))
  : list string :=
  (filter (λ kv, m !! kv.1 = None) l).*1.

(** The updates run on the copy of the config, in their order. *)
Definition apply_updates (cfg : instrumentationConfig)
    (us : list (instrumentationConfig → instrumentationConfig))
  : instrumentationConfig :=
  foldl (λ cfg update, update cfg) cfg us.

End WithExternals.

End ConfigSpec.

(** ** A concrete choice of the external functions

    For running the definitions on examples: ASCII case mapping, sample
    rates in ten-thousandths, durations written as a number of milliseconds
    followed by "ms", map entries visited in the order of [map_to_list], a
    linear congruential generator, a sampler that samples at rate one only,
    and a span side without compressed spans. *)

Module Example.
Import GoString Config Tx.

Definition parseRate (s : string) : option Z :=
  if bool_decide (s = "0") then Some 0
  else if bool_decide (s = "0.5") then Some 5000
  else if bool_decide (s = "1") then Some 10000
  else if bool_decide (s = "2") then Some 20000
  else None.

Definition parseMillis (s : string) : option Z :=
  let n := len s in
  if (2 <? n) && bool_decide (slice_from s (n - 2) = "ms")
  then (λ ms, ms * 1000000) <$> parse_decimal (slice_to s (n - 2))
  else None.

Definition parseLevel (s : string) : option string :=
  if bool_decide (s ∈ ["debug"; "info"; "warning"; "error"]) then Some s else None.

Definition configExternals : ConfigExternals :=
  {| ToUpper := asciiToUpper;
     ToLower := asciiToLower;
     TrimSpace := asciiTrimSpace;
     float := Z;
     float_zero := 0;
     float_one := 10000;
     float_ltb := Z.ltb;
     ParseFloat := parseRate;
     ParseDuration := parseMillis;
     ParseDurationOptions := λ s _, parseMillis s;
     Matchers := list string;
     ParseWildcardPatterns := λ s, [s];
     LogLevel := string;
     ParseLogLevel := parseLevel;
     Sampler := Z;
     NewRatioSampler := λ r, r;
     range := map_to_list;
     range_perm := λ m, Permutation_refl (map_to_list m) |}.

#[local] Existing Instance configExternals.

Definition lcg (r : Z) : Z * Z :=
  let n := (r * 6364136223846793005 + 1442695040888963407) mod 2 ^ 64 in (n, n).

Definition txExternals : @TxExternals configExternals :=
  @Build_TxExternals configExternals
    (list (string * string))                    (* TraceState *)
    []                                          (* zeroTraceState *)
    (λ st, bool_decide ("es" ∈ st.*1))          (* haveElastic *)
    (λ _, true)                                 (* TraceState_Validate *)
    (λ entries, entries)                        (* NewTraceState *)
    "es"                                        (* elasticTracestateVendorKey *)
    (λ r : Z, "s:" +:+ pretty r)                (* formatElasticTracestateValue *)
    (λ r : Z, r)                                (* roundSampleRate *)
    Z (λ seed, seed) lcg                        (* Rand, rand_New, Uint64 *)
    unit tt                                     (* ChildrenTimer *)
    unit tt (λ m, m)                            (* SpanTimingsMap *)
    unit tt (λ _ c, c)                          (* CompressedSpan *)
    unit (λ c, (None, c))                       (* SpanT, evict *)
    unit.                                       (* otherEvent *)

#[local] Existing Instance txExternals.

Definition tracerExternals : @TracerExternals configExternals txExternals :=
  @Build_TracerExternals configExternals txExternals
    (λ (smp : Z) _, mkSampleResult (bool_decide (10000 ≤ smp)) smp)
    (λ _ t, t).

#[local] Existing Instance tracerExternals.

(** The local configuration of the examples: each setting has its function
    in [local], as [newTracer] sets them, and holds its local value. *)
Definition localValues : @instrumentationConfigValues configExternals :=
  mkValues true CaptureBodyOff true 500 (Some 10000) 5000000 1000000
           "continue" 50 true ["password"] [] (mkCompressionOptions true 50000000 0).

Definition localSetters
  : list (string * (@instrumentationConfigValues configExternals
                    → @instrumentationConfigValues configExternals)) :=
  [ (envRecording, with_recording (recording localValues));
    (envCaptureBody, with_captureBody (captureBody localValues));
    (envCaptureHeaders, with_captureHeaders (captureHeaders localValues));
    (envMaxSpans, with_maxSpans (maxSpans localValues));
    (envTransactionSampleRate, with_sampler (sampler localValues));
    (envSpanStackTraceMinDuration,
       with_spanStackTraceMinDuration (spanStackTraceMinDuration localValues));
    (envExitSpanMinDuration, with_exitSpanMinDuration (exitSpanMinDuration localValues));
    (envContinuationStrategy,
       with_continuationStrategy (continuationStrategy localValues));
    (envStackTraceLimit, with_stackTraceLimit (stackTraceLimit localValues));
    (envUseElasticTraceparentHeader,
       with_propagateLegacyHeader (propagateLegacyHeader localValues));
    (envSanitizeFieldNames, with_sanitizedFieldNames (sanitizedFieldNames localValues));
    (envIgnoreURLs, with_ignoreTransactionURLs (ignoreTransactionURLs localValues));
    (envSpanCompressionEnabled,
       λ c, with_compressionOptions_
              (with_enabled (enabled (compressionOptions_ localValues))
                            (compressionOptions_ c)) c);
    (envSpanCompressionExactMatchMaxDuration,
       λ c, with_compressionOptions_
              (with_exactMatchMaxDuration
                 (exactMatchMaxDuration (compressionOptions_ localValues))
                 (compressionOptions_ c)) c);
    (envSpanCompressionSameKindMaxDuration,
       λ c, with_compressionOptions_
              (with_sameKindMaxDuration
                 (sameKindMaxDuration (compressionOptions_ localValues))
                 (compressionOptions_ c)) c) ].

(** The config after [setLocalInstrumentationConfig] was called for each
    setting, starting from a config without any. *)
Definition localConfig : @instrumentationConfig configExternals :=
  foldl (λ cfg kf, setLocalInstrumentationConfig kf.1 kf.2 cfg)
        (mkConfig (mkValues false CaptureBodyOff false 0 None 0 0 "" 0 false [] []
                            (mkCompressionOptions false 0 0)) ∅ ∅)
        localSetters.

Definition tracerWith (cfg : @instrumentationConfig configExternals)
  : @Tracer configExternals txExternals :=
  mkTracer cfg true true [] [] 2 [] 0.

Definition startEnv : StartEnv := mkStartEnv None (Some 42) 1000.

Definition traceA : TraceID := [1; 2; 3; 4; 5; 6; 7; 8; 9; 10; 11; 12; 13; 14; 15; 16].
Definition spanA : SpanID := [1; 1; 2; 3; 5; 8; 13; 21].

Definition inboundA : @TraceContext configExternals txExternals :=
  mkTraceContext traceA spanA 1 [].

Definition optsWith (inbound : @TraceContext configExternals txExternals)
  : @TransactionOptions configExternals txExternals :=
  mkTransactionOptions inbound zeroSpanID 0 [].

(** The same trace context without a Span ID, and no trace context. *)
Definition inboundNoSpan : @TraceContext configExternals txExternals :=
  mkTraceContext traceA zeroSpanID 1 [].

Definition noInbound : @TraceContext configExternals txExternals :=
  zeroTraceContext.

(** The trace context whose Trace ID is made of the two numbers that the
    generator of [startEnv] draws first. *)
Definition inboundDrawn : @TraceContext configExternals txExternals :=
  mkTraceContext
    (le_bytes (lcg 42).1 ++ le_bytes (lcg (lcg 42).2).1) spanA 1 [].

(** Configs with the "restart" strategy, and with a sample rate of 0.5. *)
Definition restartConfig : @instrumentationConfig configExternals :=
  on_values (with_continuationStrategy "restart") localConfig.

Definition halfSampledConfig : @instrumentationConfig configExternals :=
  on_values (with_sampler (Some 5000)) localConfig.

(** Two remote batches, and the attributes that withdraw two of their
    keys. *)
Definition exampleBatches : list (gmap string string) :=
  [ list_to_map [("transaction_max_spans", "10"); ("recording", "false")];
    list_to_map [("transaction_max_spans", "20"); ("capture_body", "all");
                 ("recording", "false")] ].

Definition finalAttrs : gmap string string :=
  list_to_map [("recording", "false")].

(** A batch with a value that does not parse. *)
Definition mixedAttrs : gmap string string :=
  list_to_map [("transaction_max_spans", "10"); ("recording", "maybe")].

(** A recording transaction that captured the status code 404. *)
Definition txData404 : @TransactionData configExternals txExternals :=
  let td := with_td_recording true (newTransactionData startEnv) in
  with_Context
    (mkContext (captureBodyMask (Context td)) true None
               (SpanCtx.SetHTTPStatusCode (spanContext (Context td)) 404)) td.

Definition tx404 : @Transaction configExternals txExternals :=
  mkTransaction inboundA zeroSpanID (Some txData404).

End Example.

(** ** More of the dropped-span statistics *)

Module DroppedSpansMore.
Import DroppedSpans.

Definition key_of (c : addCall) : droppedSpanTimingsKey :=
  mkKey (add_dst c) (add_outcome c).

(** The durations and the counts of a list of calls, added up as integers
    (a count goes through [uint64(count)] first). *)
Definition total_d (calls : list addCall) : Z :=
  foldr (λ c acc, add_d c + acc) 0 calls.

Definition total_count (calls : list addCall) : Z :=
  foldr (λ c acc, GoInt.uint64_of_int (add_count c) + acc) 0 calls.

(** Three calls for one key, and more calls than the map takes keys. *)
Definition sameKeyCalls : list addCall :=
  [mkAdd "db" "success" 1 100; mkAdd "db" "success" 2 250;
   mkAdd "db" "success" (-1) (-50)].

Definition manyCalls : list addCall := nthCall <$> seq 0 200.

End DroppedSpansMore.

(** ** More of the transactions (transaction.go) *)

Module TxMore.
Import GoString Config Tx.

Section WithExternals.
Context `{!ConfigExternals} `{!TxExternals} `{!TracerExternals}.

(** The zero [TransactionOptions]. *)
Definition zeroTransactionOptions : TransactionOptions :=
  mkTransactionOptions zeroTraceContext zeroSpanID 0 [].

(** [StartTransaction] returns a new Transaction with the specified name
    and type, and with the start time set to the current time.  This is
    equivalent to calling [StartTransactionOptions] with a zero
    [TransactionOptions]. *)
Definition StartTransaction (env : StartEnv) (t : Tracer)
    (name transactionType : string) : Transaction * Tracer :=
  StartTransactionOptions env t name transactionType zeroTransactionOptions.

(** [Sampled] reports whether or not the transaction is sampled; a nil
    transaction is [None]. *)
Definition Transaction_Sampled (tx : option Transaction) : bool :=
  match tx with
  | None => false
  | Some tx => Recorded (Options (traceContext tx))
  end.

(** [TraceContext] returns the transaction's TraceContext.  If tx is nil, a
    zero (invalid) TraceContext is returned. *)
Definition Transaction_TraceContext (tx : option Transaction) : TraceContext :=
  match tx with
  | None => zeroTraceContext
  | Some tx => traceContext tx
  end.

(** [ShouldPropagateLegacyHeader] reports whether instrumentation should
    propagate the legacy header in addition to the standard one. *)
Definition ShouldPropagateLegacyHeader (tx : Transaction) : bool :=
  match TransactionData_ tx with
  | None => false
  | Some td => td_propagateLegacyHeader td
  end.

(** [ParentID] returns the ID of the transaction's Parent or a zero
    (invalid) SpanID. *)
Definition ParentID (tx : option Transaction) : SpanID :=
  match tx with
  | None => zeroSpanID
  | Some tx => parentID tx
  end.

(** The tracer with another continuation strategy in its config. *)
Definition withStrategy (s : string) (t : Tracer) : Tracer :=
  mkTracer (on_values (with_continuationStrategy s) (instrumentationConfigInternal t))
           (active t) (breakdownMetrics_enabled t) (transactionDataPool t)
           (events t) (events_capacity t) (breakdownMetrics_recorded t)
           (stats_TransactionsDropped t).

(** Transaction data as [reset] leaves it and as it is newly made: nothing
    of a transaction is in it. *)
Definition pristine (td : TransactionData) : Prop :=
  Name td = "" ∧ Type_ td = "" ∧ Duration td = -1 ∧ Result td = ""
  ∧ Outcome td = "" ∧ td_recording td = false ∧ links td = []
  ∧ errorCaptured td = false ∧ spansCreated td = 0 ∧ spansDropped td = 0
  ∧ droppedSpansStats td = ∅
  ∧ spanContext (Context td) = SpanCtx.zeroSpanContext.

End WithExternals.

End TxMore.

(** ** More of the config (config.go) *)

Module ConfigMore.
Import GoString Config.

Definition defaultMaxSpans : Z := 500.
Definition defaultCaptureBody : CaptureBodyMode := CaptureBodyOff.
Definition defaultStackTraceLimit : Z := 50.

Section WithExternals.
Context `{!ConfigExternals}.

(** The functions that read the initial config take the environment as
    [Getenv], the function of [os.Getenv]: a variable that is not set reads
    as the empty string. *)
Definition initialMaxSpans (Getenv : string → string) : option Z :=
  let value := Getenv envMaxSpans in
  if is_empty value then Some defaultMaxSpans
  else
    match Atoi value with
    | None => None
    | Some max => Some max
    end.

(** [initialSampler] returns a nil Sampler if all transactions should be
    sampled. *)
Definition initialSampler (Getenv : string → string) : option Sampler :=
  let value := Getenv envTransactionSampleRate in
  parseSampleRate envTransactionSampleRate value.

(** [initContinuationStrategy] returns the value together with the error
    of the validation: the boolean is [true] for a nil error. *)
Definition initContinuationStrategy (Getenv : string → string) : string * bool :=
  let value := Getenv envContinuationStrategy in
  if is_empty value then (defaultContinuationStrategy, true)
  else (value, validateContinuationStrategy value).

Definition initialCaptureBody (Getenv : string → string) : option CaptureBodyMode :=
  let value := Getenv envCaptureBody in
  if is_empty value then Some defaultCaptureBody
  else parseCaptureBody envCaptureBody value.

Definition initialStackTraceLimit (Getenv : string → string) : option Z :=
  let value := Getenv envStackTraceLimit in
  if is_empty value then Some defaultStackTraceLimit
  else
    match Atoi value with
    | None => None
    | Some limit => Some limit
    end.

(** [remote] holds the environment variable names of the attributes that
    the last call of [updateRemoteConfig] left in force. *)
Definition remote_tracks (cfg : instrumentationConfig)
    (m : gmap string string) : Prop :=
  ∀ e, e ∈ remote cfg ↔ ∃ k, is_Some (m !! k) ∧ envName k = e.

End WithExternals.

(** *** Sizes and profiling intervals

    [configutil.ParseSizeEnv] and [configutil.ParseDurationEnv] read a
    variable of the environment, with a default for a variable that is not
    set; they and the units [configutil.KByte] and [configutil.MByte] are
    outside the three files, and the code is modelled over any of them.  A
    failing parser returns [None]. *)

Definition envAPIRequestSize := "ELASTIC_APM_API_REQUEST_SIZE".
Definition envAPIBufferSize := "ELASTIC_APM_API_BUFFER_SIZE".
Definition envMetricsBufferSize := "ELASTIC_APM_METRICS_BUFFER_SIZE".
Definition envCPUProfileInterval := "ELASTIC_APM_CPU_PROFILE_INTERVAL".
Definition envCPUProfileDuration := "ELASTIC_APM_CPU_PROFILE_DURATION".

Section Initial.
Variable ParseSizeEnv : string → Z → option Z.
Variable ParseDurationEnv : string → Z → option Z.
Variable KByte : Z.
Variable MByte : Z.

Definition defaultAPIRequestSize : Z := 750 * KByte.
Definition defaultAPIBufferSize : Z := 1 * MByte.
Definition defaultMetricsBufferSize : Z := 750 * KByte.
Definition minAPIBufferSize : Z := 10 * KByte.
Definition maxAPIBufferSize : Z := 100 * MByte.
Definition minAPIRequestSize : Z := 1 * KByte.
Definition maxAPIRequestSize : Z := 5 * MByte.
Definition minMetricsBufferSize : Z := 10 * KByte.
Definition maxMetricsBufferSize : Z := 100 * MByte.

Definition initialMetricsBufferSize : option Z :=
  match ParseSizeEnv envMetricsBufferSize defaultMetricsBufferSize with
  | None => None
  | Some size =>
      if (size <? minMetricsBufferSize) || (maxMetricsBufferSize <? size)
      then None
      else Some size
  end.

Definition initialAPIBufferSize : option Z :=
  match ParseSizeEnv envAPIBufferSize defaultAPIBufferSize with
  | None => None
  | Some size =>
      if (size <? minAPIBufferSize) || (maxAPIBufferSize <? size) then None
      else Some size
  end.

Definition initialAPIRequestSize : option Z :=
  match ParseSizeEnv envAPIRequestSize defaultAPIRequestSize with
  | None => None
  | Some size =>
      if (size <? minAPIRequestSize) || (maxAPIRequestSize <? size) then None
      else Some size
  end.

(** [initialCPUProfileIntervalDuration] returns the interval, the duration
    and the error; the boolean is [true] for a nil error. *)
Definition initialCPUProfileIntervalDuration : Z * Z * bool :=
  match ParseDurationEnv envCPUProfileInterval 0 with
  | None => (0, 0, false)
  | Some interval =>
      if interval <=? 0 then (0, 0, true)
      else
        match ParseDurationEnv envCPUProfileDuration 0 with
        | None => (0, 0, false)
        | Some duration =>
            if duration <=? 0 then (0, 0, true)
            else (interval, duration, true)
        end
  end.

End Initial.

End ConfigMore.

(** ** More examples *)

Module ExampleMore.
Import GoString Config Tx TxMore Example.

#[local] Existing Instance configExternals.
#[local] Existing Instance txExternals.
#[local] Existing Instance tracerExternals.

(** A tracer whose queue of events has no room, and one with an item in
    its pool; the call that picks this item. *)
Definition fullTracer : @Tracer configExternals txExternals :=
  mkTracer localConfig true true [] [] 0 [] 0.

Definition pooledTracer : @Tracer configExternals txExternals :=
  mkTracer localConfig true true [newTransactionData startEnv] [] 2 [] 0.

Definition pickEnv : StartEnv := mkStartEnv (Some 0%nat) (Some 42) 1000.

(** Central config that overrides the limit of spans, and the config and
    the attributes after it was applied to the local configuration. *)
Definition spansBatch : gmap string string :=
  list_to_map [("transaction_max_spans", "10")].

Definition overridden : @instrumentationConfig configExternals :=
  (updateRemoteConfig DefaultLogger localConfig ∅ spansBatch).1.1.

Definition overriding : gmap string string :=
  (updateRemoteConfig DefaultLogger localConfig ∅ spansBatch).1.2.

(** An environment in which every variable reads 10. *)
Definition envTen (name : string) : string := "10".

End ExampleMore.

(* ===================================================================== *)
(** * Part II: properties                                                  *)
(* ===================================================================== *)

Module DroppedSpansFacts.
Import DroppedSpans.

Lemma add_size_le (m : droppedSpanTimingsMap) dst out cnt d :
  (size m ≤ maxDroppedSpanStats)%nat →
  (size (add m dst out cnt d) ≤ maxDroppedSpanStats)%nat.
Proof.
  intros Hm. unfold add.
  destruct (m !! mkKey dst out) as [t|] eqn:Hk; simpl.
  - rewrite map_size_insert_Some; [done|by eexists].
  - case_bool_decide as Hlt; [|done].
    rewrite map_size_insert_None; [lia|done].
Qed.

Lemma add_all_size_le calls : ∀ m : droppedSpanTimingsMap,
  (size m ≤ maxDroppedSpanStats)%nat →
  (size (add_all m calls) ≤ maxDroppedSpanStats)%nat.
Proof.
  induction calls as [|c calls IH]; intros m Hm; [done|].
  apply IH. by apply add_size_le.
Qed.

Lemma add_full_new (m : droppedSpanTimingsMap) dst out cnt d :
  size m = maxDroppedSpanStats →
  m !! mkKey dst out = None →
  add m dst out cnt d = m.
Proof.
  intros Hfull Hnew. unfold add. rewrite Hnew. simpl.
  case_bool_decide; [lia|done].
Qed.

Lemma add_present (m : droppedSpanTimingsMap) dst out cnt d t :
  m !! mkKey dst out = Some t →
  add m dst out cnt d =
    <[mkKey dst out :=
        mkTiming (GoInt.wrap_int64 (duration t + d))
                 (GoInt.wrap_uint64 (count t + GoInt.uint64_of_int cnt))]> m.
Proof. intros Hk. unfold add. by rewrite Hk. Qed.

Lemma foldr_delete_lookup (l : list droppedSpanTimingsKey) :
  ∀ (m : droppedSpanTimingsMap) k,
    foldr delete m l !! k = if decide (k ∈ l) then None else m !! k.
Proof.
  induction l as [|j l IH]; intros m k.
  - rewrite decide_False; [done|]. by intros H%elem_of_nil.
  - change (foldr delete m (j :: l)) with (delete j (foldr delete m l)).
    destruct (decide (j = k)) as [->|Hne].
    + rewrite lookup_delete_eq. rewrite decide_True; [done|left].
    + rewrite lookup_delete_ne by done. rewrite IH.
      destruct (decide (k ∈ l)) as [Hin|Hnotin].
      * rewrite decide_True; [done|by right].
      * rewrite decide_False; [done|].
        intros [?|?]%elem_of_cons; congruence.
Qed.

Lemma reset_empty (m : droppedSpanTimingsMap) : reset m = ∅.
Proof.
  apply map_eq. intros k. unfold reset.
  rewrite foldr_delete_lookup, lookup_empty.
  case_decide as Hk; [done|].
  destruct (m !! k) as [t|] eqn:Hm; [|done].
  exfalso. apply Hk. apply list_elem_of_fmap.
  exists (k, t). split; [done|]. by apply elem_of_map_to_list.
Qed.

(** C7.  Whatever calls of [add] were made on a map that started empty, the
    map has at most 128 keys; when it has 128, a call for a key that is not
    in the map leaves the map as it is; and a call for a key that is in the
    map adds to its count and to its duration. *)
Theorem dropped_span_stats_capped (calls : list addCall) (dst out : string)
    (cnt d : Z) :
  let m := add_all ∅ calls in
  (size m ≤ 128)%nat
  ∧ (size m = 128%nat → m !! mkKey dst out = None → add m dst out cnt d = m)
  ∧ (∀ t, m !! mkKey dst out = Some t →
          add m dst out cnt d
          = <[mkKey dst out :=
                mkTiming (GoInt.wrap_int64 (duration t + d))
                         (GoInt.wrap_uint64 (count t + GoInt.uint64_of_int cnt))]> m).
Proof.
  intros m. split; [|split].
  - apply add_all_size_le. rewrite map_size_empty. unfold maxDroppedSpanStats. lia.
  - apply add_full_new.
  - intros t. apply add_present.
Qed.

Lemma dropped_span_stats_capped_witness :
  let m := add_all ∅ fullCalls in
  size m = 128%nat
  ∧ m !! mkKey "zz" "failure" = None
  ∧ add m "zz" "failure" 1 5 = m
  ∧ add m "A" "success" 2 5
    = <[mkKey "A" "success" := mkTiming 1005 3]> m.
Proof.
  intros m.
  destruct (dropped_span_stats_capped fullCalls "zz" "failure" 1 5)
    as (_ & Hfull & _).
  destruct (dropped_span_stats_capped fullCalls "A" "success" 2 5)
    as (_ & _ & Hpresent).
  assert (size m = 128%nat) as Hsize by (vm_compute; reflexivity).
  assert (m !! mkKey "zz" "failure" = None) as Hnew by (vm_compute; reflexivity).
  assert (m !! mkKey "A" "success" = Some (mkTiming 1000 1)) as Hold
    by (vm_compute; reflexivity).
  split; [exact Hsize|]. split; [exact Hnew|].
  split; [exact (Hfull Hsize Hnew)|exact (Hpresent _ Hold)].
Defined.

End DroppedSpansFacts.

(** ** Span context *)

Module SpanCtxFacts.
Import GoString GoURL SpanCtx.

Example build_zero : build zeroSpanContext = None.
Proof. reflexivity. Qed.

Example build_service_target_only :
  build (SetServiceTarget zeroSpanContext (mkServiceTargetArg "redis" "cache"))
  = None.
Proof. reflexivity. Qed.

Example build_label :
  build (SetLabel zeroSpanContext "a.b" (LBool true))
  = Some (mkModel false false false false false [mkItem "a_b" (LBool true)]).
Proof. reflexivity. Qed.

Example outcome_of_status :
  outcome (SetHTTPStatusCode zeroSpanContext 399) = "success"
  ∧ outcome (SetHTTPStatusCode zeroSpanContext 400) = "failure"
  ∧ outcome zeroSpanContext = "".
Proof. by repeat split. Qed.

Example SetHTTPRequest_without_port :
  destinationService
    (SetHTTPRequest zeroSpanContext
       (mkRequest (Some (mkURL "http" None "example.com" "/"))))
  = mkDestinationService "http://example.com" "example.com:80".
Proof. by vm_compute. Qed.

Lemma build_is_Some (c : SpanContext) : is_Some (build c) ↔ populated c.
Proof.
  unfold build, populated.
  destruct (m_Tags (model c)) as [|i tags]; simpl;
    destruct (m_Message (model c)), (m_Database (model c)), (m_HTTP (model c)),
             (m_Destination (model c)); simpl;
    split; intros H; try (by eexists); try (by destruct H as [? [=]]);
    try (by repeat (destruct H as [H|H]; try done)); eauto 6.
Qed.

Lemma build_None (c : SpanContext) : build c = None ↔ ¬ populated c.
Proof.
  rewrite eq_None_not_Some. by rewrite build_is_Some.
Qed.

Lemma targetCall_model (c : SpanContext) (call : targetCall) :
  let c' := do_targetCall c call in
  m_Tags (model c') = m_Tags (model c) ∧ m_Message (model c') = m_Message (model c)
  ∧ m_Database (model c') = m_Database (model c) ∧ m_HTTP (model c') = m_HTTP (model c)
  ∧ m_Destination (model c') = m_Destination (model c).
Proof. destruct call; cbv zeta; repeat split; reflexivity. Qed.

Lemma targetCalls_populated (calls : list targetCall) : ∀ c,
  populated (foldl do_targetCall c calls) ↔ populated c.
Proof.
  induction calls as [|call calls IH]; intros c; [done|].
  simpl. rewrite IH.
  destruct (targetCall_model c call) as (Ht & Hm & Hd & Hh & Hdst).
  unfold populated. by rewrite Ht, Hm, Hd, Hh, Hdst.
Qed.

Lemma targetCalls_build_None (calls : list targetCall) (c : SpanContext) :
  build c = None → build (foldl do_targetCall c calls) = None.
Proof. rewrite !build_None. by rewrite targetCalls_populated. Qed.

(** Each setter that populates a sub-context makes the context build. *)
Lemma setters_populate (c : SpanContext) :
  (∀ k v, populated (SetLabel c k v))
  ∧ (∀ msg, QueueName msg ≠ "" → populated (SetMessage c msg))
  ∧ (∀ db, populated (SetDatabase c db))
  ∧ (∀ code, populated (SetHTTPStatusCode c code))
  ∧ (∀ addr port, addr ≠ "" → populated (SetDestinationAddress c addr port))
  ∧ (∀ svc, Resource svc ≠ "" → populated (SetDestinationService c svc))
  ∧ (∀ cloud, populated (SetDestinationCloud c cloud)).
Proof.
  unfold populated. repeat split.
  - intros k v. left. simpl. by destruct (m_Tags (model c)).
  - intros msg Hq. right; left. unfold SetMessage, is_empty.
    by rewrite bool_decide_eq_false_2.
  - intros db. right; right; left. done.
  - intros code. right; right; right; left. done.
  - intros addr port Ha. do 4 right. unfold SetDestinationAddress, is_empty.
    by rewrite bool_decide_eq_false_2.
  - intros svc Hr. do 4 right. unfold SetDestinationService, is_empty.
    by rewrite bool_decide_eq_false_2.
  - intros cloud. do 4 right. done.
Qed.

(** C10.  [build] returns a non-nil context exactly when one of the labels,
    message, database, HTTP or destination sub-contexts has been populated;
    a context, new or reset, on which only [SetServiceTarget],
    [SetOTelAttributes] and [SetOTelSpanKind] have been called builds as
    nil, whatever the calls and their order. *)
Theorem build_nil_unless_populated :
  (∀ c : SpanContext, is_Some (build c) ↔ populated c)
  ∧ (∀ calls : list targetCall,
       build (foldl do_targetCall zeroSpanContext calls) = None)
  ∧ (∀ (c : SpanContext) (calls : list targetCall),
       build (foldl do_targetCall (reset c) calls) = None).
Proof.
  split; [exact build_is_Some|].
  split; intros; by apply targetCalls_build_None.
Qed.

(** C1, amended.  For https://example.com:443/x, [SetHTTPRequest] sets
    the destination address to example.com and the port to 443; the
    destination-service name is https://example.com, without the port, and
    the resource is example.com:443, with the port.  For port 8443 both the
    name and the resource keep the port. *)
Theorem SetHTTPRequest_example (c : SpanContext) :
  let c443 := SetHTTPRequest c request_443 in
  let c8443 := SetHTTPRequest c request_8443 in
  (dst_Address (destination c443) = "example.com"
   ∧ dst_Port (destination c443) = 443
   ∧ DestinationService_of c443
     = Some (mkDestinationService "https://example.com" "example.com:443")
   ∧ carries_port "https://example.com" = false
   ∧ carries_port "example.com:443" = true)
  ∧ (dst_Address (destination c8443) = "example.com"
     ∧ dst_Port (destination c8443) = 8443
     ∧ DestinationService_of c8443
       = Some (mkDestinationService "https://example.com:8443" "example.com:8443")
     ∧ carries_port "https://example.com:8443" = true
     ∧ carries_port "example.com:8443" = true).
Proof. by vm_compute. Qed.

(** Counterexample to C1 as first stated: for the URL with the default
    port the resource is example.com:443 and so carries the port. *)
Lemma SetHTTPRequest_default_port_in_resource :
  let c := SetHTTPRequest zeroSpanContext request_443 in
  ds_Resource (destinationService c) = "example.com:443"
  ∧ carries_port (ds_Resource (destinationService c)) ≠ false.
Proof. by vm_compute. Qed.

(** The resource of [SetHTTPRequest] does not depend on what
    [DestinationAddr] and [SchemeDefaultPort] return for that URL: when the
    host is written with a port, the resource is the host as written. *)
Lemma SetHTTPRequest_resource_is_host (c : SpanContext) (u : URL) :
  LastIndexByte (Host u) ":" ≠ -1 →
  byte_at (Host u) (len (Host u) - 1) ≠ Some "]"%char →
  Host u ≠ "" →
  ds_Resource (destinationService (SetHTTPRequest c (mkRequest (Some u))))
  = truncateString (Host u).
Proof.
  intros Hi Hb Hne. unfold SetHTTPRequest. cbn [req_URL].
  destruct (DestinationAddr (mkRequest (Some u))) as [addr port].
  assert ((0 <? len (Host u)) = true) as Hlen.
  { apply Z.ltb_lt. unfold len. destruct (Host u); [done|simpl; lia]. }
  rewrite Hlen, (bool_decide_eq_false_2 _ Hb).
  assert ((LastIndexByte (Host u) ":" =? -1) = false) as -> by by apply Z.eqb_neq.
  cbn [negb andb].
  destruct (negb (port =? 0) && (port =? SchemeDefaultPort (Scheme u)));
    cbn [negb]; unfold SetDestinationService; cbn [Resource];
    unfold is_empty; rewrite (bool_decide_eq_false_2 _ Hne); done.
Qed.

End SpanCtxFacts.

(** ** Transactions *)

Module TxFacts.
Import GoString Config Tx.

Section WithExternals.
Context {CE : ConfigExternals} {TE : TxExternals} {TRE : TracerExternals}.

Lemma copy_le_bytes (n : Z) : copy zeroSpanID (le_bytes n) = le_bytes n.
Proof. reflexivity. Qed.

Lemma acquire_tracer (env : StartEnv) (t : Tracer) :
  instrumentationConfigInternal (acquire env t).2 = instrumentationConfigInternal t
  ∧ active (acquire env t).2 = active t
  ∧ breakdownMetrics_enabled (acquire env t).2 = breakdownMetrics_enabled t.
Proof.
  unfold acquire.
  by destruct (pool_Get (poolPick env) (transactionDataPool t)) as [[td pool]|].
Qed.

Lemma stamped_rand (env : StartEnv) (t : Tracer) :
  rand (stamped env t) = rand (acquire env t).1
  ∧ links (stamped env t) = links (acquire env t).1.
Proof. unfold stamped. by destruct (acquire env t) as [td t']. Qed.

(** A call on an active, recording tracer, unfolded up to the phases. *)
Lemma StartTransactionOptions_recording (env : StartEnv) (t : Tracer)
    (name ty : string) (opts : TransactionOptions) :
  active t = true →
  recording (values (instrumentationConfigInternal t)) = true →
  let cfg := values (instrumentationConfigInternal t) in
  let '(tc, parent, td, root) :=
    continuation (continuationStrategy cfg) opts (stamped env t) in
  (StartTransactionOptions env t name ty opts).1
  = mkTransaction
      (sampling (sampler cfg) (opts_TraceContext opts) tc root) parent
      (Some (with_links (links td ++ Links opts)
               (with_timestamp (if IsZero (Start opts) then now env else Start opts)
                  (with_Type_ ty (with_Name name td))))).
Proof.
  intros Hactive Hrec cfg. subst cfg. unfold StartTransactionOptions, stamped.
  destruct (acquire_tracer env t) as (Hcfg & Hact & _).
  destruct (acquire env t) as [td0 t']. simpl in Hcfg, Hact.
  rewrite Hcfg, Hact, Hactive. cbn [td_recording with_td_recording].
  rewrite Hrec. cbn [negb orb].
  by destruct (continuation _ _ _) as [[[tc parent] td] root].
Qed.

(** C3.  On an active, recording tracer whose continuation strategy is
    "continue", for every inbound trace context with a valid Trace ID and a
    valid Span ID, the new transaction has the inbound Trace ID, its parent
    ID is the inbound Span ID, and its own Span ID is the TransactionID of
    the options when that is valid, and otherwise the eight bytes of the
    next number drawn from the transaction's random generator. *)
Theorem continue_reuses_inbound_trace (env : StartEnv) (t : Tracer)
    (name ty : string) (opts : TransactionOptions) :
  active t = true →
  recording (values (instrumentationConfigInternal t)) = true →
  continuationStrategy (values (instrumentationConfigInternal t)) = "continue" →
  Validate (Trace (opts_TraceContext opts)) = true →
  Validate (Span (opts_TraceContext opts)) = true →
  let tx := (StartTransactionOptions env t name ty opts).1 in
  Trace (traceContext tx) = Trace (opts_TraceContext opts)
  ∧ parentID tx = Span (opts_TraceContext opts)
  ∧ Span (traceContext tx)
    = (if Validate (TransactionID opts) then TransactionID opts
       else le_bytes (Uint64 (rand (acquire env t).1)).1).
Proof.
  intros Hactive Hrec Hstrat Htrace Hspan tx. subst tx.
  pose proof (StartTransactionOptions_recording env t name ty opts Hactive Hrec) as Hstart.
  cbv zeta in Hstart. rewrite Hstrat in Hstart.
  destruct (stamped_rand env t) as [Hrand _]. rewrite <- Hrand.
  unfold continuation, effectiveStrategy in Hstart.
  rewrite Htrace, Hspan in Hstart.
  rewrite !bool_decide_eq_false_2 in Hstart by done.
  cbn [andb negb] in Hstart.
  destruct (Validate (TransactionID opts)).
  - destruct (TraceState_Validate _); rewrite Hstart; done.
  - destruct (Uint64 (rand (stamped env t))) as [n r].
    destruct (TraceState_Validate _); rewrite Hstart; done.
Qed.

(** C4, amended.  On an active, recording tracer whose continuation
    strategy is "restart", for every inbound trace context whose Trace ID
    and Span ID are both non-zero, the new transaction is a root: its Trace
    ID is made of the next two numbers drawn from the transaction's random
    generator, not of the inbound Trace ID, from which it differs whenever
    the bytes drawn do; it has no parent; and the link that holds the
    inbound Trace ID and Span ID is recorded, before the links of the
    options. *)
Theorem restart_links_inbound_trace (env : StartEnv) (t : Tracer)
    (name ty : string) (opts : TransactionOptions) :
  active t = true →
  recording (values (instrumentationConfigInternal t)) = true →
  continuationStrategy (values (instrumentationConfigInternal t)) = "restart" →
  isZero (Trace (opts_TraceContext opts)) = false →
  isZero (Span (opts_TraceContext opts)) = false →
  let tx := (StartTransactionOptions env t name ty opts).1 in
  let td0 := (acquire env t).1 in
  let fresh := le_bytes (Uint64 (rand td0)).1
               ++ le_bytes (Uint64 (Uint64 (rand td0)).2).1 in
  Trace (traceContext tx) = fresh
  ∧ (fresh ≠ Trace (opts_TraceContext opts)
     → Trace (traceContext tx) ≠ Trace (opts_TraceContext opts))
  ∧ parentID tx = zeroSpanID
  ∧ ∃ td, TransactionData_ tx = Some td
          ∧ links td
            = links td0
              ++ [mkSpanLink (Trace (opts_TraceContext opts))
                             (Span (opts_TraceContext opts))]
              ++ Links opts.
Proof.
  intros Hactive Hrec Hstrat Htrace Hspan tx td0 fresh. subst tx td0 fresh.
  pose proof (StartTransactionOptions_recording env t name ty opts Hactive Hrec) as Hstart.
  cbv zeta in Hstart. rewrite Hstrat in Hstart.
  destruct (stamped_rand env t) as [Hrand Hlinks]. rewrite <- Hrand, <- Hlinks.
  unfold continuation, effectiveStrategy in Hstart.
  rewrite Htrace, Hspan in Hstart.
  rewrite (bool_decide_eq_false_2 ("restart" = "restart_external")) in Hstart by done.
  rewrite (bool_decide_eq_true_2 ("restart" = "restart")) in Hstart by done.
  cbn [andb negb] in Hstart. rewrite andb_false_r in Hstart.
  cbn [rand with_links] in Hstart.
  destruct (Uint64 (rand (stamped env t))) as [n1 r1]. cbn [fst snd].
  destruct (Uint64 r1) as [n2 r2]. cbn [fst snd].
  assert (∀ sp, Trace (sampling (sampler (values (instrumentationConfigInternal t)))
                         (opts_TraceContext opts)
                         (with_Span sp (with_Trace (le_bytes n1 ++ le_bytes n2)
                                                   zeroTraceContext)) true)
                = le_bytes n1 ++ le_bytes n2) as Hsampling.
  { intros sp. unfold sampling.
    destruct (sampler _) as [smp|]; [|reflexivity].
    destruct (Sampled _); reflexivity. }
  destruct (Validate (TransactionID opts)); rewrite Hstart; cbn [traceContext parentID];
    rewrite Hsampling; (split; [done|]); (split; [done|]); (split; [done|]);
    eexists; (split; [done|]); cbn; by rewrite <- app_assoc.
Qed.

(** C5.  On an active, recording tracer with a sampler, when the new
    transaction is a root and the sampler returns Sampled = false for its
    trace context, the trace state of the transaction is the one made for
    the sample rate zero, whatever the sample rate that the sampler
    returned; the recorded flag is not set. *)
Theorem unsampled_root_reports_rate_zero (env : StartEnv) (t : Tracer)
    (name ty : string) (opts : TransactionOptions) (smp : Sampler)
    (tc : TraceContext) (parent : SpanID) (td : TransactionData) :
  active t = true →
  recording (values (instrumentationConfigInternal t)) = true →
  sampler (values (instrumentationConfigInternal t)) = Some smp →
  continuation (continuationStrategy (values (instrumentationConfigInternal t)))
               opts (stamped env t) = (tc, parent, td, true) →
  Sampled (Sample smp (mkSampleParams tc)) = false →
  let tx := (StartTransactionOptions env t name ty opts).1 in
  State (traceContext tx)
  = NewTraceState [(elasticTracestateVendorKey,
                    formatElasticTracestateValue (roundSampleRate float_zero))]
  ∧ Options (traceContext tx) = Options tc
  ∧ Trace (traceContext tx) = Trace tc.
Proof.
  intros Hactive Hrec Hsmp Hcont Hunsampled tx. subst tx.
  pose proof (StartTransactionOptions_recording env t name ty opts Hactive Hrec) as Hstart.
  cbv zeta in Hstart. rewrite Hcont, Hsmp in Hstart. rewrite Hstart.
  unfold sampling. rewrite Hunsampled. done.
Qed.

Lemma End_detaches (now : Time) (tx : Transaction) (t : Tracer) :
  TransactionData_ (End now tx t).1 = None.
Proof.
  unfold End. destruct (TransactionData_ tx) as [td|] eqn:Htd; [|done].
  destruct (td_recording _); [|done].
  by destruct (evict _).
Qed.

Lemma Discard_detaches (tx : Transaction) (t : Tracer) :
  TransactionData_ (Discard tx t).1 = None.
Proof. unfold Discard. by destruct (TransactionData_ tx) as [td|] eqn:Htd. Qed.

Lemma End_ended (now : Time) (tx : Transaction) (t : Tracer) :
  TransactionData_ tx = None → End now tx t = (tx, t).
Proof. intros H. unfold End. by rewrite H. Qed.

Lemma Discard_ended (tx : Transaction) (t : Tracer) :
  TransactionData_ tx = None → Discard tx t = (tx, t).
Proof. intros H. unfold Discard. by rewrite H. Qed.

(** C6.  After [End] or [Discard] has completed once on a transaction, a
    later call of [End] or of [Discard] changes nothing: the transaction and
    the tracer, and so its queue of events and its pool, stay as the first
    call left them. *)
Theorem End_Discard_idempotent (now now' : Time) (tx : Transaction) (t : Tracer) :
  let ended1 := End now tx t in
  let ended2 := Discard tx t in
  (ended (ended1.1) = true
   ∧ End now' ended1.1 ended1.2 = ended1
   ∧ Discard ended1.1 ended1.2 = ended1)
  ∧ (ended (ended2.1) = true
     ∧ End now' ended2.1 ended2.2 = ended2
     ∧ Discard ended2.1 ended2.2 = ended2).
Proof.
  cbv zeta. pose proof (End_detaches now tx t) as HE.
  pose proof (Discard_detaches tx t) as HD.
  destruct (End now tx t) as [tx1 t1], (Discard tx t) as [tx2 t2].
  simpl in *. unfold ended.
  rewrite !End_ended, !Discard_ended by done.
  by rewrite !bool_decide_eq_true_2.
Qed.

(** A later call does not enqueue an event and does not put the
    transaction data into the pool again. *)
Corollary second_End_keeps_queue_and_pool (now now' : Time) (tx : Transaction)
    (t : Tracer) :
  let first := End now tx t in
  let second := End now' first.1 first.2 in
  events second.2 = events first.2
  ∧ transactionDataPool second.2 = transactionDataPool first.2.
Proof.
  cbv zeta. pose proof (End_detaches now tx t) as HE.
  destruct (End now tx t) as [tx1 t1]. simpl in *.
  by rewrite End_ended.
Qed.

(** C8.  When a recording transaction ends, the transaction data that is
    handed on, to the queue of events or, when the queue is full, to the
    breakdown metrics, carries the outcome by the order of precedence: the
    non-empty value set by the caller; else "success" for a status code that
    is not zero and less than 400 and "failure" for one of 400 or more; else
    "failure" if an error was captured and "success" otherwise. *)
Theorem End_resolves_outcome (now : Time) (tx : Transaction) (t : Tracer)
    (td : TransactionData) :
  TransactionData_ tx = Some td →
  td_recording td = true →
  let t' := (End now tx t).2 in
  ∃ td', Outcome td' = resolvedOutcome td
         ∧ ((∃ evs tx', events t' = evs ++ [transactionEvent tx' td'])
            ∨ (∃ tds, breakdownMetrics_recorded t' = tds ++ [td'])).
Proof.
  intros Htd Hrec t'. subst t'. unfold End. rewrite Htd.
  set (td1 := if is_empty (Type_ td) then with_Type_ "custom" td else td).
  assert (td_recording td1 = true ∧ Outcome td1 = Outcome td
          ∧ Context td1 = Context td ∧ errorCaptured td1 = errorCaptured td)
    as (Hrec1 & Ho1 & Hc1 & He1).
  { subst td1. by destruct (is_empty (Type_ td)). }
  rewrite Hrec1.
  set (td2 := if Duration td1 <? 0 then _ else td1).
  assert (Outcome td2 = Outcome td ∧ Context td2 = Context td
          ∧ errorCaptured td2 = errorCaptured td) as (Ho2 & Hc2 & He2).
  { subst td2. by destruct (Duration td1 <? 0). }
  set (td3 := if is_empty (Outcome td2) then _ else td2).
  assert (Outcome td3 = resolvedOutcome td) as Ho3.
  { subst td3. unfold resolvedOutcome, Context_outcome, SpanCtx.outcome.
    rewrite Ho2, Hc2.
    destruct (is_empty (Outcome td)) eqn:Hempty; cbn [negb]; [|done].
    cbn [Outcome with_Outcome errorCaptured]. rewrite He2.
    destruct (SpanCtx.http_StatusCode _ =? 0); cbn [negb].
    - by destruct (errorCaptured td).
    - by destruct (_ <? 400). }
  destruct (evict (compressedSpan td3)) as [evicted cache].
  exists (with_compressedSpan cache td3). split; [done|].
  cbn [snd]. unfold enqueue. case_bool_decide.
  - left. by eexists _, _.
  - right. by eexists.
Qed.

End WithExternals.

End TxFacts.

(** ** The config store *)

Module ConfigFacts.
Import GoString Config ConfigSpec.

Lemma fieldOfEnv_inj (e e' : string) (f : configField) :
  fieldOfEnv e = Some f → fieldOfEnv e' = Some f → e = e'.
Proof.
  unfold fieldOfEnv. intros H1 H2.
  repeat case_bool_decide; congruence.
Qed.

Section WithExternals.
Context {CE : ConfigExternals}.

#[local] Instance agree_equiv (f : configField) : Equivalence (agree f).
Proof.
  split.
  - intros v. by destruct f.
  - intros v v' Hv. destruct f; simpl in *; congruence.
  - intros v1 v2 v3 H1 H2. destruct f; simpl in *; congruence.
Qed.

#[local] Instance agree_env_equiv (e : string) : Equivalence (agree_env e).
Proof.
  unfold agree_env. destruct (fieldOfEnv e) as [f|].
  - apply agree_equiv.
  - by split.
Qed.


(** *** What one update does *)

Lemma on_values_local f (cfg : instrumentationConfig) :
  local (on_values f cfg) = local cfg.
Proof. done. Qed.

Ltac setter_cases E :=
  split; [done|split];
  [ intros cfg cfg'; unfold agree_env; rewrite E; reflexivity
  | let e := fresh "e" in
    let Hne := fresh "Hne" in
    let f := fresh "f" in
    let Hf := fresh "Hf" in
    intros e cfg Hne; unfold agree_env;
    destruct (fieldOfEnv e) as [f|] eqn:Hf; [|done];
    destruct f; try reflexivity;
    exfalso; apply Hne; rewrite E; by apply (fieldOfEnv_inj _ _ _ Hf) ].

(** An update made from an attribute keeps [local], sets the field of its
    setting to a value that depends on the attribute only, and leaves the
    other fields as they are. *)
Lemma remoteUpdate_sets (logger : Logger) (k v : string) u :
  remoteUpdate logger k v = Update u →
  (∀ cfg, local (u cfg) = local cfg)
  ∧ (∀ cfg cfg', agree_env (envName k) (values (u cfg)) (values (u cfg')))
  ∧ (∀ e cfg, e ≠ envName k → agree_env e (values (u cfg)) (values cfg)).
Proof.
  unfold remoteUpdate. cbv zeta. unfold parsed.
  repeat case_bool_decide;
    repeat match goal with
           | |- context [match ?r with Some _ => _ | None => _ end] => destruct r
           | |- context [match logger with NilLogger => _ | _ => _ end] => destruct logger
           end;
    intros [= <-];
    match goal with E : envName k = _ |- _ => setter_cases E end.
Qed.

Lemma revert_local (k : string) (cfg : instrumentationConfig) :
  local (revert k cfg) = local cfg.
Proof. unfold revert. by destruct (local cfg !! envName k). Qed.

(** *** The two loops in closed form *)

Lemma fold_attrStep (logger : Logger) (old : gmap string string) l : ∀ st,
  foldl (attrStep logger old) st l
  = mkLoop (updates st ++ omap (stepUpdate logger old) l)
           (delete_discarded logger old (attrs_of st) l)
           (log_of st ++ (l ≫= stepLog logger old)).
Proof.
  induction l as [|[k v] l IH]; intros st.
  - destruct st. simpl. by rewrite !app_nil_r.
  - cbn [foldl]. rewrite IH. unfold delete_discarded. cbn [foldl omap list_omap mbind list_bind].
    unfold attrStep, stepUpdate, stepDiscards, stepLog. cbn [fst snd].
    case_bool_decide; [done|].
    destruct (remoteUpdate logger k v); cbn; by rewrite <- ?app_assoc.
Qed.

Lemma fold_oldStep (logger : Logger) l : ∀ st,
  foldl (oldStep logger) st l
  = mkLoop (updates st ++ (revert <$> reverted (attrs_of st) l))
           (attrs_of st)
           (log_of st ++ (reverted (attrs_of st) l
                          ≫= λ k, emit logger (DebugfReverted k))).
Proof.
  induction l as [|[k v] l IH]; intros st.
  - destruct st. simpl. by rewrite !app_nil_r.
  - cbn [foldl]. rewrite IH. unfold reverted, oldStep.
    rewrite filter_cons. cbn [fst].
    destruct (attrs_of st !! k) as [w|] eqn:Hk.
    + rewrite bool_decide_eq_true_2 by by eexists.
      rewrite decide_False by done. done.
    + rewrite bool_decide_eq_false_2 by by intros [? [=]].
      rewrite decide_True by done. cbn. by rewrite <- !app_assoc.
Qed.

Lemma delete_discarded_cons (logger : Logger) (old m : gmap string string) kv l :
  delete_discarded logger old m (kv :: l)
  = delete_discarded logger old
      (if stepDiscards logger old kv then delete kv.1 m else m) l.
Proof. reflexivity. Qed.

Lemma delete_discarded_None (logger : Logger) (old : gmap string string) l k :
  ∀ m : gmap string string,
    m !! k = None → delete_discarded logger old m l !! k = None.
Proof.
  induction l as [|kv l IH]; intros m Hm; [done|].
  rewrite delete_discarded_cons. apply IH.
  destruct (stepDiscards logger old kv); [|done].
  rewrite lookup_delete. case_decide; done.
Qed.

Lemma delete_discarded_subseteq (logger : Logger) (old : gmap string string) l k v :
  ∀ m : gmap string string,
    delete_discarded logger old m l !! k = Some v → m !! k = Some v.
Proof.
  induction l as [|kv l IH]; intros m Hm; [done|].
  rewrite delete_discarded_cons in Hm. apply IH in Hm.
  destruct (stepDiscards logger old kv); [|done].
  rewrite lookup_delete in Hm. by case_decide.
Qed.

Lemma delete_discarded_gone (logger : Logger) (old : gmap string string) l k v :
  ∀ m : gmap string string,
    (k, v) ∈ l → stepDiscards logger old (k, v) = true →
    delete_discarded logger old m l !! k = None.
Proof.
  induction l as [|kv l IH]; intros m Hin Hd; [by apply elem_of_nil in Hin|].
  rewrite delete_discarded_cons.
  apply elem_of_cons in Hin as [<-|Hin].
  - rewrite Hd. apply delete_discarded_None. apply lookup_delete_eq.
  - by apply IH.
Qed.

Lemma delete_discarded_kept (logger : Logger) (old : gmap string string) l k :
  ∀ m : gmap string string,
    (∀ v, (k, v) ∈ l → stepDiscards logger old (k, v) = false) →
    delete_discarded logger old m l !! k = m !! k.
Proof.
  induction l as [|[k' v'] l IH]; intros m Hkept; [done|].
  rewrite delete_discarded_cons.
  rewrite IH by (intros v Hv; apply Hkept; by right).
  destruct (stepDiscards logger old (k', v')) eqn:Hd; [|done].
  cbn [fst]. rewrite lookup_delete_ne; [done|].
  intros ->. rewrite Hkept in Hd; [done|left].
Qed.

(** *** [updateRemoteConfig] in closed form *)

Lemma updateRemoteConfig_unfold (logger : Logger) (cfg : instrumentationConfig)
    (old attrs : gmap string string) :
  let attrs' := delete_discarded logger old attrs (range attrs) in
  let us := omap (stepUpdate logger old) (range attrs)
            ++ (revert <$> reverted attrs' (range old)) in
  ∃ cfg0 log,
    values cfg0 = values cfg ∧ local cfg0 = local cfg
    ∧ log = (range attrs ≫= stepLog logger old)
            ++ (reverted attrs' (range old) ≫= λ k, emit logger (DebugfReverted k))
    ∧ updateRemoteConfig logger cfg old attrs = (apply_updates cfg0 us, attrs', log).
Proof.
  intros attrs' us. unfold updateRemoteConfig.
  rewrite fold_attrStep, fold_oldStep.
  cbn [updates attrs_of log_of app]. fold attrs' us.
  destruct us as [|u us'] eqn:Hus.
  - eexists cfg, _.
    split; [done|]. split; [done|]. split; [reflexivity|]. done.
  - eexists (mkConfig (values cfg) (local cfg) _), _.
    split; [done|]. split; [done|]. split; [reflexivity|]. done.
Qed.

Lemma apply_updates_app cfg us us' :
  apply_updates cfg (us ++ us') = apply_updates (apply_updates cfg us) us'.
Proof. unfold apply_updates. by rewrite foldl_app. Qed.

Lemma apply_updates_local us : ∀ cfg,
  Forall (λ u, ∀ cfg, local (u cfg) = local cfg) us →
  local (apply_updates cfg us) = local cfg.
Proof.
  induction us as [|u us IH]; intros cfg Hus; [done|].
  apply Forall_cons in Hus as [Hu Hus].
  cbn. fold (apply_updates (u cfg) us). by rewrite IH, Hu.
Qed.

Lemma apply_updates_keeps e L us : ∀ cfg,
  Forall (keeps e L) us → local cfg = L →
  local (apply_updates cfg us) = L
  ∧ agree_env e (values (apply_updates cfg us)) (values cfg).
Proof.
  induction us as [|u us IH]; intros cfg Hus HL; [done|].
  apply Forall_cons in Hus as [Hu Hus].
  destruct (Hu cfg HL) as [HL' Hagree].
  cbn. fold (apply_updates (u cfg) us).
  destruct (IH (u cfg) Hus HL') as [HL'' Hagree'].
  split; [done|]. by etrans.
Qed.

Lemma stepUpdate_local (logger : Logger) (old : gmap string string) l :
  Forall (λ u, ∀ cfg, local (u cfg) = local cfg) (omap (stepUpdate logger old) l).
Proof.
  apply Forall_forall. intros u Hu.
  apply list_elem_of_omap in Hu as ([k v] & _ & Hu).
  unfold stepUpdate in Hu. cbn [fst snd] in Hu.
  case_bool_decide; [done|].
  destruct (remoteUpdate logger k v) as [|u'] eqn:Hr; [done|].
  injection Hu as <-. by apply remoteUpdate_sets in Hr as [? _].
Qed.

Lemma reverts_local ks :
  Forall (λ u, ∀ cfg, local (u cfg) = local cfg) (revert <$> ks).
Proof.
  apply Forall_fmap, Forall_forall. intros k _ cfg. apply revert_local.
Qed.

(** [updateRemoteConfig] does not touch [local]. *)
Lemma updateRemoteConfig_local (logger : Logger) (cfg : instrumentationConfig)
    (old attrs : gmap string string) :
  local (updateRemoteConfig logger cfg old attrs).1.1 = local cfg.
Proof.
  destruct (updateRemoteConfig_unfold logger cfg old attrs)
    as (cfg0 & log & _ & HL & _ & ->).
  cbn [fst]. rewrite apply_updates_local; [done|].
  apply Forall_app. split; [apply stepUpdate_local|apply reverts_local].
Qed.

Lemma applyBatches_local (logger : Logger) batches : ∀ cfg old,
  local (applyBatches logger cfg old batches).1 = local cfg.
Proof.
  induction batches as [|attrs batches IH]; intros cfg old; [done|].
  cbn [applyBatches].
  pose proof (updateRemoteConfig_local logger cfg old attrs) as HL.
  destruct (updateRemoteConfig logger cfg old attrs) as [[cfg' attrs'] log].
  rewrite IH. exact HL.
Qed.


Lemma range_elem (m : gmap string string) k v :
  (k, v) ∈ range m ↔ m !! k = Some v.
Proof. rewrite range_perm. apply elem_of_map_to_list. Qed.

Lemma range_NoDup (m : gmap string string) : NoDup (range m).*1.
Proof. rewrite range_perm. apply NoDup_fst_map_to_list. Qed.

Lemma reverted_elem (m m' : gmap string string) k :
  k ∈ reverted m' (range m) ↔ is_Some (m !! k) ∧ m' !! k = None.
Proof.
  unfold reverted. rewrite list_elem_of_fmap. split.
  - intros ([k' v] & -> & Hin). apply list_elem_of_filter in Hin as [Hnone Hin].
    apply range_elem in Hin. split; [by eexists|done].
  - intros [[v Hv] Hnone]. exists (k, v). split; [done|].
    apply list_elem_of_filter. split; [done|]. by apply range_elem.
Qed.

(** *** Reverting *)

(** Once a key of the setting [e] is among the reverted ones, the field of
    [e] ends with the value that its local function sets. *)
Lemma reverts_restore e L v0 ks :
  (∀ fld, fieldOfEnv e = Some fld → is_Some (L !! e)) →
  (∀ e' f, L !! e' = Some f → local_setter e' f v0) →
  ∀ cfg, local cfg = L →
    agree_env e (values cfg) v0 ∨ (∃ k, k ∈ ks ∧ envName k = e) →
    agree_env e (values (apply_updates cfg (revert <$> ks))) v0.
Proof.
  intros Hhas Hset. induction ks as [|k1 ks IH]; intros cfg HL Hor.
  - destruct Hor as [?|(k & Hk & _)]; [done|by apply elem_of_nil in Hk].
  - cbn. fold (apply_updates (revert k1 cfg) (revert <$> ks)). apply IH.
    { by rewrite revert_local. }
    destruct (decide (envName k1 = e)) as [He|Hne].
    + left. unfold revert. rewrite HL, He.
      destruct (L !! e) as [f|] eqn:Hf.
      * apply (Hset e f Hf).
      * unfold agree_env. destruct (fieldOfEnv e) as [fld|] eqn:Hfld; [|done].
        destruct (Hhas fld eq_refl) as [? [=]].
    + destruct Hor as [Hag|(k & Hk & Hke)].
      * left. unfold revert. rewrite HL.
        destruct (L !! envName k1) as [f|] eqn:Hf; [|done].
        etrans; [|exact Hag]. apply (Hset _ _ Hf). congruence.
      * right. exists k. split; [|done].
        apply elem_of_cons in Hk as [->|Hk]; [congruence|done].
Qed.


(** *** One batch *)

Lemma remote_keeps (logger : Logger) e L k v u :
  remoteUpdate logger k v = Update u → envName k ≠ e → keeps e L u.
Proof.
  intros Hu Hne cfg HL. apply remoteUpdate_sets in Hu as (Hloc & _ & Hother).
  split; [by rewrite Hloc|]. apply Hother. congruence.
Qed.

Lemma revert_keeps e (cfg0 : instrumentationConfig) k :
  local_independent cfg0 → envName k ≠ e → keeps e (local cfg0) (revert k).
Proof.
  intros Hind Hne cfg HL. split; [by rewrite revert_local|].
  unfold revert. rewrite HL.
  destruct (local cfg0 !! envName k) as [f|] eqn:Hf; [|done].
  apply (Hind _ _ Hf). congruence.
Qed.

Lemma stepUpdates_keep (logger : Logger) (old : gmap string string) e L l :
  (∀ k v u, (k, v) ∈ l → stepUpdate logger old (k, v) = Some u → envName k ≠ e) →
  Forall (keeps e L) (omap (stepUpdate logger old) l).
Proof.
  intros Hl. apply Forall_forall. intros u Hu.
  apply list_elem_of_omap in Hu as ([k v] & Hin & Hu).
  pose proof (Hl k v u Hin Hu) as Hne.
  unfold stepUpdate in Hu. cbn [fst snd] in Hu.
  case_bool_decide; [done|].
  destruct (remoteUpdate logger k v) as [|u'] eqn:Hr; [done|].
  injection Hu as <-. by eapply remote_keeps.
Qed.


End WithExternals.

End ConfigFacts.

(** ** The properties on the examples *)

Module ExampleFacts.
Import GoString Config ConfigSpec Tx Example.

#[local] Existing Instance configExternals.
#[local] Existing Instance txExternals.
#[local] Existing Instance tracerExternals.

Lemma localConfig_values : values localConfig = localValues.
Proof. reflexivity. Qed.

Lemma localConfig_local : local localConfig = list_to_map localSetters.
Proof. reflexivity. Qed.

Ltac local_setter_case :=
  split;
  [ intros v; hnf; reflexivity
  | let e' := fresh "e" in
    let v := fresh "v" in
    let Hne := fresh "Hne" in
    let f := fresh "f" in
    let Hf := fresh "Hf" in
    intros e' v Hne; unfold agree_env;
    destruct (fieldOfEnv e') as [f|] eqn:Hf; [|done];
    destruct f; try reflexivity;
    exfalso; apply Hne; by apply (ConfigFacts.fieldOfEnv_inj _ _ _ Hf) ].

(** The local configuration of the examples is one. *)
Lemma localConfig_under_local : under_local_config localConfig.
Proof.
  split.
  - intros e fld. rewrite localConfig_local. unfold fieldOfEnv.
    repeat case_bool_decide; intros [= <-]; subst e; eexists; reflexivity.
  - intros e f. rewrite localConfig_local, localConfig_values.
    intros Hin%elem_of_list_to_map_2.
    unfold localSetters in Hin.
    repeat (apply elem_of_cons in Hin as [[= -> ->]|Hin]; [local_setter_case|]).
    by apply elem_of_nil in Hin.
Qed.

Lemma localConfig_independent : local_independent localConfig.
Proof.
  intros e f Hf. by apply (proj2 localConfig_under_local e f Hf).
Qed.

Lemma triple_eta {A B C} (p : A * B * C) : p = (p.1.1, p.1.2, p.2).
Proof. by destruct p as [[a b] c]. Qed.

Lemma continue_reuses_inbound_trace_witness :
  let t := tracerWith localConfig in
  let tx := (StartTransactionOptions startEnv t "GET /" "request"
                                     (optsWith inboundA)).1 in
  (active t = true
   ∧ recording (values (instrumentationConfigInternal t)) = true
   ∧ continuationStrategy (values (instrumentationConfigInternal t)) = "continue"
   ∧ Validate (Trace inboundA) = true ∧ Validate (Span inboundA) = true)
  ∧ Trace (traceContext tx) = traceA
  ∧ parentID tx = spanA
  ∧ Span (traceContext tx) = le_bytes (lcg 42).1.
Proof.
  intros t tx.
  assert (active t = true) as H1 by reflexivity.
  assert (recording (values (instrumentationConfigInternal t)) = true) as H2
    by reflexivity.
  assert (continuationStrategy (values (instrumentationConfigInternal t))
          = "continue") as H3 by reflexivity.
  assert (Validate (Trace (opts_TraceContext (optsWith inboundA))) = true) as H4
    by reflexivity.
  assert (Validate (Span (opts_TraceContext (optsWith inboundA))) = true) as H5
    by reflexivity.
  split; [by repeat split|].
  exact (TxFacts.continue_reuses_inbound_trace startEnv t "GET /" "request"
           (optsWith inboundA) H1 H2 H3 H4 H5).
Defined.

Lemma restart_links_inbound_trace_witness :
  let t := tracerWith restartConfig in
  let tx := (StartTransactionOptions startEnv t "GET /" "request"
                                     (optsWith inboundA)).1 in
  (continuationStrategy (values (instrumentationConfigInternal t)) = "restart"
   ∧ isZero (Trace inboundA) = false ∧ isZero (Span inboundA) = false)
  ∧ Trace (traceContext tx) = le_bytes (lcg 42).1 ++ le_bytes (lcg (lcg 42).2).1
  ∧ parentID tx = zeroSpanID
  ∧ ∃ td, TransactionData_ tx = Some td
          ∧ links td = [] ++ [mkSpanLink traceA spanA] ++ [].
Proof.
  intros t tx.
  assert (active t = true) as H1 by reflexivity.
  assert (recording (values (instrumentationConfigInternal t)) = true) as H2
    by reflexivity.
  assert (continuationStrategy (values (instrumentationConfigInternal t))
          = "restart") as H3 by reflexivity.
  assert (isZero (Trace (opts_TraceContext (optsWith inboundA))) = false) as H4
    by reflexivity.
  assert (isZero (Span (opts_TraceContext (optsWith inboundA))) = false) as H5
    by reflexivity.
  split; [by repeat split|].
  destruct (TxFacts.restart_links_inbound_trace startEnv t "GET /" "request"
              (optsWith inboundA) H1 H2 H3 H4 H5) as (Htrace & _ & Hparent & Hlinks).
  split; [exact Htrace|]. split; [exact Hparent|exact Hlinks].
Defined.

(** Counterexample to C4 as first stated: under the "restart" strategy an
    inbound trace context with a Trace ID and no Span ID is continued, with
    the inbound Trace ID and without a link. *)
Lemma restart_without_span_continues_inbound_trace :
  let t := tracerWith restartConfig in
  let tx := (StartTransactionOptions startEnv t "GET /" "request"
                                     (optsWith inboundNoSpan)).1 in
  (active t = true
   ∧ recording (values (instrumentationConfigInternal t)) = true
   ∧ continuationStrategy (values (instrumentationConfigInternal t)) = "restart")
  ∧ Trace (traceContext tx) = Trace inboundNoSpan
  ∧ links <$> TransactionData_ tx = Some [].
Proof. repeat split; reflexivity. Qed.

(** Under the "restart" strategy the new Trace ID is equal to the inbound
    one when the generator draws its bytes. *)
Lemma restart_can_draw_inbound_trace :
  let t := tracerWith restartConfig in
  let tx := (StartTransactionOptions startEnv t "GET /" "request"
                                     (optsWith inboundDrawn)).1 in
  (isZero (Trace inboundDrawn) = false ∧ isZero (Span inboundDrawn) = false)
  ∧ Trace (traceContext tx) = Trace inboundDrawn
  ∧ links <$> TransactionData_ tx
    = Some [mkSpanLink (Trace inboundDrawn) (Span inboundDrawn)].
Proof. repeat split; reflexivity. Qed.

Lemma unsampled_root_reports_rate_zero_witness :
  let t := tracerWith halfSampledConfig in
  let opts := optsWith noInbound in
  let c := continuation (continuationStrategy (values (instrumentationConfigInternal t)))
                        opts (stamped startEnv t) in
  let tx := (StartTransactionOptions startEnv t "GET /" "request" opts).1 in
  (sampler (values (instrumentationConfigInternal t)) = Some 5000
   ∧ c.2 = true
   ∧ Sample 5000 (mkSampleParams c.1.1.1) = mkSampleResult false 5000)
  ∧ State (traceContext tx) = [("es", "s:0")]
  ∧ Recorded (Options (traceContext tx)) = false.
Proof.
  intros t opts c tx.
  assert (active t = true) as H1 by reflexivity.
  assert (recording (values (instrumentationConfigInternal t)) = true) as H2
    by reflexivity.
  assert (sampler (values (instrumentationConfigInternal t)) = Some 5000) as H3
    by reflexivity.
  assert (c = (c.1.1.1, c.1.1.2, c.1.2, true)) as H4 by reflexivity.
  assert (Sampled (Sample 5000 (mkSampleParams c.1.1.1)) = false) as H5
    by reflexivity.
  split; [by repeat split|].
  destruct (TxFacts.unsampled_root_reports_rate_zero startEnv t "GET /" "request"
              opts 5000 c.1.1.1 c.1.1.2 c.1.2 H1 H2 H3 H4 H5) as (Hstate & Hopts & _).
  split; [exact Hstate|].
  unfold tx. rewrite Hopts. reflexivity.
Defined.

Lemma End_resolves_outcome_witness :
  let t' := (End 2000 tx404 (tracerWith localConfig)).2 in
  (td_recording txData404 = true ∧ Outcome txData404 = ""
   ∧ resolvedOutcome txData404 = "failure")
  ∧ ∃ td', Outcome td' = resolvedOutcome txData404
           ∧ ((∃ evs tx', events t' = evs ++ [transactionEvent tx' td'])
              ∨ (∃ tds, breakdownMetrics_recorded t' = tds ++ [td'])).
Proof.
  intros t'.
  assert (TransactionData_ tx404 = Some txData404) as H1 by reflexivity.
  assert (td_recording txData404 = true) as H2 by reflexivity.
  split; [by repeat split|].
  exact (TxFacts.End_resolves_outcome 2000 tx404 (tracerWith localConfig)
           txData404 H1 H2).
Defined.


Lemma mixedAttrs_distinct : distinct_settings ∅ mixedAttrs.
Proof.
  assert (∀ k, is_Some ((∅ : gmap string string) !! k) ∨ is_Some (mixedAttrs !! k) →
               k = "transaction_max_spans" ∨ k = "recording") as Hkeys.
  { intros k [[v H]|[v H]]; [by rewrite lookup_empty in H|].
    apply elem_of_list_to_map_2 in H.
    repeat (apply elem_of_cons in H as [[= -> ->]|H]; [by auto|]).
    by apply elem_of_nil in H. }
  intros k k' Hk Hk' He.
  destruct (Hkeys k Hk) as [->| ->], (Hkeys k' Hk') as [->| ->]; try done;
    by vm_compute in He.
Qed.


End ExampleFacts.

(** ** More on the dropped-span statistics *)

Module DroppedSpansMoreFacts.
Import DroppedSpans DroppedSpansMore.

Lemma add_lookup_ne (m : droppedSpanTimingsMap) dst out cnt d k :
  k ≠ mkKey dst out → add m dst out cnt d !! k = m !! k.
Proof.
  intros Hne. unfold add.
  destruct (m !! mkKey dst out) as [t|]; simpl.
  - by rewrite lookup_insert_ne.
  - case_bool_decide; [|done]. by rewrite lookup_insert_ne.
Qed.

Lemma add_dom_subseteq (m : droppedSpanTimingsMap) dst out cnt d :
  dom m ⊆ dom (add m dst out cnt d).
Proof.
  unfold add.
  destruct (m !! mkKey dst out) as [t|]; simpl.
  - rewrite dom_insert. set_solver.
  - case_bool_decide; [|done]. rewrite dom_insert. set_solver.
Qed.

(** X1.  A call of [add] changes no timing but the one of its own key, and
    removes no key from the map. *)
Theorem add_touches_own_key_only (m : droppedSpanTimingsMap)
    (dst out : string) (cnt d : Z) :
  (∀ k, k ≠ mkKey dst out → add m dst out cnt d !! k = m !! k)
  ∧ dom m ⊆ dom (add m dst out cnt d).
Proof. split; [intros k; apply add_lookup_ne|apply add_dom_subseteq]. Qed.

Lemma wrap_int64_add (a b : Z) :
  GoInt.wrap_int64 (GoInt.wrap_int64 a + b) = GoInt.wrap_int64 (a + b).
Proof.
  unfold GoInt.wrap_int64. f_equal.
  replace ((a + 2 ^ 63) mod 2 ^ 64 - 2 ^ 63 + b + 2 ^ 63)
    with ((a + 2 ^ 63) mod 2 ^ 64 + b) by lia.
  rewrite Zplus_mod_idemp_l. f_equal. lia.
Qed.

Lemma wrap_uint64_add (a b : Z) :
  GoInt.wrap_uint64 (GoInt.wrap_uint64 a + b) = GoInt.wrap_uint64 (a + b).
Proof. unfold GoInt.wrap_uint64. by rewrite Zplus_mod_idemp_l. Qed.

Lemma add_all_same_key (k : droppedSpanTimingsKey) (calls : list addCall) :
  ∀ (m : droppedSpanTimingsMap) (t : spanTiming),
    m !! k = Some t →
    Forall (λ c, key_of c = k) calls →
    add_all m calls !! k
    = Some (mkTiming (if decide (calls = []) then duration t
                      else GoInt.wrap_int64 (duration t + total_d calls))
                     (if decide (calls = []) then count t
                      else GoInt.wrap_uint64 (count t + total_count calls))).
Proof.
  induction calls as [|c calls IH]; intros m t Hm Hall.
  - simpl. rewrite Hm. by destruct t.
  - apply Forall_cons in Hall as [Hc Hall]. unfold key_of in Hc.
    cbn [add_all foldl]. fold (add_all (add m (add_dst c) (add_outcome c)
                                           (add_count c) (add_d c)) calls).
    rewrite (IH _ (mkTiming (GoInt.wrap_int64 (duration t + add_d c))
                      (GoInt.wrap_uint64
                         (count t + GoInt.uint64_of_int (add_count c))))); [|
      unfold add; rewrite Hc, Hm; simpl; by rewrite lookup_insert_eq | done].
    rewrite (decide_False (P := c :: calls = [])) by done.
    cbn [duration count total_d total_count foldr].
    fold (total_d calls) (total_count calls).
    destruct (decide (calls = [])) as [->|Hne].
    + cbn. by rewrite !Z.add_0_r.
    + rewrite wrap_int64_add, wrap_uint64_add. by rewrite !Z.add_assoc.
Qed.



Lemma add_all_snoc (m : droppedSpanTimingsMap) calls c :
  add_all m (calls ++ [c])
  = add (add_all m calls) (add_dst c) (add_outcome c) (add_count c) (add_d c).
Proof. unfold add_all. by rewrite foldl_app. Qed.

Lemma add_new (m : droppedSpanTimingsMap) dst out cnt d :
  m !! mkKey dst out = None →
  add m dst out cnt d
  = if bool_decide (size m < maxDroppedSpanStats)%nat
    then <[mkKey dst out :=
             mkTiming (GoInt.wrap_int64 (0 + d))
                      (GoInt.wrap_uint64 (0 + GoInt.uint64_of_int cnt))]> m
    else m.
Proof. intros Hnone. unfold add. by rewrite Hnone. Qed.

Lemma add_all_distinct_keys (calls : list addCall) :
  NoDup (key_of <$> calls) →
  dom (add_all ∅ calls)
  = list_to_set (take maxDroppedSpanStats (key_of <$> calls))
  ∧ size (add_all ∅ calls) = (length calls `min` maxDroppedSpanStats)%nat.
Proof.
  pose proof add_new as Hadd.
  set (cap := maxDroppedSpanStats) in *. clearbody cap.
  induction calls as [|c calls IH] using rev_ind; intros Hnodup.
  - change (add_all ∅ []) with (∅ : droppedSpanTimingsMap).
    change (key_of <$> []) with (@nil droppedSpanTimingsKey).
    split.
    + rewrite take_nil. apply dom_empty_L.
    + rewrite map_size_empty. by destruct cap.
  - rewrite fmap_app in Hnodup. apply NoDup_app in Hnodup as (Hnd & Hfresh & _).
    destruct (IH Hnd) as [Hdom Hsize].
    assert (add_all ∅ calls !! key_of c = None) as Hnone.
    { apply not_elem_of_dom. rewrite Hdom. intros Hin.
      apply elem_of_list_to_set, elem_of_take in Hin as (i & Hi & _).
      apply list_elem_of_lookup_2 in Hi.
      apply (Hfresh _ Hi). apply list_elem_of_singleton. reflexivity. }
    rewrite add_all_snoc, fmap_app, length_app.
    change (key_of <$> [c]) with [key_of c]. change (length [c]) with 1%nat.
    rewrite (Hadd _ _ _ _ _ Hnone). fold (key_of c).
    case_bool_decide as Hlt; rewrite Hsize in Hlt.
    + assert (length calls < cap)%nat as Hlen by lia.
      rewrite dom_insert_L, map_size_insert_None by done.
      rewrite Hdom, Hsize.
      rewrite (take_ge (key_of <$> calls)) by (rewrite length_fmap; lia).
      rewrite (take_ge (_ ++ _))
        by (rewrite length_app, length_fmap; change (length [key_of c]) with 1%nat; lia).
      rewrite list_to_set_app_L.
      change (list_to_set [key_of c])
        with ({[key_of c]} ∪ (∅ : gset droppedSpanTimingsKey)).
      rewrite union_empty_r_L.
      split; [apply union_comm_L|lia].
    + assert (cap ≤ length calls)%nat as Hlen by lia.
      rewrite take_app_le by (rewrite length_fmap; lia).
      split; [done|lia].
Qed.

(** X3.  When the calls of [add] on an empty map are for keys that are all
    different, the map keeps the keys of the first 128 calls and no other:
    keys are taken first come, first served. *)
Theorem add_keeps_first_keys (calls : list addCall) :
  NoDup (key_of <$> calls) →
  dom (add_all ∅ calls) = list_to_set (take 128 (key_of <$> calls))
  ∧ size (add_all ∅ calls) = (length calls `min` 128)%nat.
Proof. apply add_all_distinct_keys. Qed.

Lemma manyCalls_NoDup : NoDup (key_of <$> manyCalls).
Proof.
  unfold manyCalls. rewrite <- list_fmap_compose.
  apply NoDup_fmap_2_strong; [|apply NoDup_seq].
  intros i j Hi%elem_of_seq Hj%elem_of_seq [= Heq].
  apply (f_equal Ascii.nat_of_ascii) in Heq.
  rewrite !Ascii.nat_ascii_embedding in Heq by lia. done.
Qed.

Lemma add_keeps_first_keys_witness :
  NoDup (key_of <$> manyCalls)
  ∧ size (add_all ∅ manyCalls) = 128%nat
  ∧ is_Some (add_all ∅ manyCalls !! key_of (nthCall 127))
  ∧ add_all ∅ manyCalls !! key_of (nthCall 128) = None.
Proof.
  pose proof manyCalls_NoDup as Hnd.
  destruct (add_keeps_first_keys manyCalls Hnd) as [Hdom Hsize].
  assert ((key_of <$> manyCalls) !! 127%nat = Some (key_of (nthCall 127)))
    as H127 by (vm_compute; reflexivity).
  assert ((key_of <$> manyCalls) !! 128%nat = Some (key_of (nthCall 128)))
    as H128 by (vm_compute; reflexivity).
  assert (length manyCalls = 200%nat) as Hlen by (vm_compute; reflexivity).
  rewrite Hlen in Hsize.
  remember (add_all ∅ manyCalls) as m eqn:Em in *. clear Em.
  remember (key_of <$> manyCalls) as ks eqn:Eks in *. clear Eks.
  split; [exact Hnd|]. split; [exact Hsize|]. split.
  - apply (proj1 (elem_of_dom m _)). rewrite Hdom. apply elem_of_list_to_set.
    apply elem_of_take. exists 127%nat. split; [exact H127|lia].
  - apply (proj1 (not_elem_of_dom m _)). rewrite Hdom. intros Hin.
    apply elem_of_list_to_set, elem_of_take in Hin as (i & Hi & Hlt).
    pose proof (NoDup_lookup _ _ _ _ Hnd Hi H128). lia.
Defined.

End DroppedSpansMoreFacts.

(** ** More on the span context *)

Module SpanCtxMoreFacts.
Import GoString GoURL SpanCtx.

(** X4.  [SetDestinationService] looks at the resource only: with a
    non-empty resource the service is recorded, also when its name is
    empty; with an empty resource nothing is recorded but the fact that the
    call was made, whatever the name. *)
Theorem SetDestinationService_needs_resource_only (c : SpanContext)
    (svc : DestinationServiceSpanContext) :
  (Resource svc ≠ "" →
     DestinationService_of (SetDestinationService c svc)
     = Some (mkDestinationService (truncateString (Name svc))
                                  (truncateString (Resource svc)))
     ∧ populated (SetDestinationService c svc))
  ∧ (Resource svc = "" →
       SetDestinationService c svc = with_setDestinationServiceCalled true c)
  ∧ setDestinationServiceCalled (SetDestinationService c svc) = true.
Proof.
  unfold SetDestinationService, is_empty. repeat split.
  - rewrite bool_decide_eq_false_2 by done. reflexivity.
  - rewrite bool_decide_eq_false_2 by done. do 4 right. reflexivity.
  - intros Hempty. by rewrite bool_decide_eq_true_2.
  - by case_bool_decide.
Qed.

Lemma SetDestinationService_needs_resource_only_witness :
  let c := SetDestinationService zeroSpanContext
             (mkDestinationServiceArg "" "queue-a") in
  let c' := SetDestinationService zeroSpanContext
              (mkDestinationServiceArg "broker" "") in
  DestinationService_of c = Some (mkDestinationService "" "queue-a")
  ∧ build c' = None.
Proof.
  intros c c'.
  destruct (SetDestinationService_needs_resource_only zeroSpanContext
              (mkDestinationServiceArg "" "queue-a")) as (Hset & _ & _).
  destruct (SetDestinationService_needs_resource_only zeroSpanContext
              (mkDestinationServiceArg "broker" "")) as (_ & Hskip & _).
  split.
  - exact (proj1 (Hset ltac:(discriminate))).
  - unfold c'. rewrite (Hskip eq_refl). reflexivity.
Defined.

(** X5.  The number of rows affected is seen through the database context
    only: [SetDatabaseRowsAffected] alone does not make the context build,
    a later [SetDatabase] drops the number, and after an earlier
    [SetDatabase] the number is kept with the database. *)
Theorem rows_affected_needs_database_first (c : SpanContext) (n : Z)
    (db : DatabaseSpanContext) :
  (populated (SetDatabaseRowsAffected c n) ↔ populated c)
  ∧ db_RowsAffected (database (SetDatabase (SetDatabaseRowsAffected c n) db))
    = false
  ∧ (let c' := SetDatabaseRowsAffected (SetDatabase c db) n in
     m_Database (model c') = true
     ∧ db_RowsAffected (database c') = true
     ∧ databaseRowsAffected c' = n
     ∧ db_Statement (database c') = truncateLongString (Statement db)).
Proof. by repeat split. Qed.

Lemma SetDestinationAddress_http (c : SpanContext) addr port :
  http (SetDestinationAddress c addr port) = http c
  ∧ m_HTTP (model (SetDestinationAddress c addr port)) = m_HTTP (model c).
Proof. unfold SetDestinationAddress. by destruct (negb (is_empty addr)). Qed.

Lemma SetDestinationService_http (c : SpanContext) svc :
  http (SetDestinationService c svc) = http c
  ∧ m_HTTP (model (SetDestinationService c svc)) = m_HTTP (model c).
Proof. unfold SetDestinationService. by destruct (is_empty (Resource svc)). Qed.

Lemma SetHTTPRequest_shape (c : SpanContext) (u : URL) :
  ∃ addr port svc,
    SetHTTPRequest c (mkRequest (Some u))
    = SetDestinationService
        (SetDestinationAddress
           (with_model
              (with_m_HTTP true
                 (model (with_http (mkHTTP (Some u) (http_StatusCode (http c))) c)))
              (with_http (mkHTTP (Some u) (http_StatusCode (http c))) c))
           addr port) svc.
Proof.
  unfold SetHTTPRequest. cbn [req_URL].
  destruct (DestinationAddr (mkRequest (Some u))) as [addr port].
  repeat case_match; simplify_eq; by eexists _, _, _.
Qed.

Lemma SetHTTPRequest_http (c : SpanContext) (u : URL) :
  http (SetHTTPRequest c (mkRequest (Some u)))
  = mkHTTP (Some u) (http_StatusCode (http c))
  ∧ m_HTTP (model (SetHTTPRequest c (mkRequest (Some u)))) = true.
Proof.
  destruct (SetHTTPRequest_shape c u) as (addr & port & svc & ->).
  destruct (SetDestinationService_http
              (SetDestinationAddress
                 (with_model
                    (with_m_HTTP true
                       (model (with_http (mkHTTP (Some u) (http_StatusCode (http c))) c)))
                    (with_http (mkHTTP (Some u) (http_StatusCode (http c))) c))
                 addr port) svc) as [-> ->].
  destruct (SetDestinationAddress_http
              (with_model
                 (with_m_HTTP true
                    (model (with_http (mkHTTP (Some u) (http_StatusCode (http c))) c)))
                 (with_http (mkHTTP (Some u) (http_StatusCode (http c))) c))
              addr port) as [-> ->].
  done.
Qed.

(** X6.  [SetHTTPRequest] keeps the status code, and so the outcome, that
    was recorded before; [SetHTTPStatusCode] keeps the URL; the two calls
    give the same HTTP context in either order; a request without a URL
    changes nothing. *)
Theorem SetHTTPRequest_keeps_status (c : SpanContext) (req : Request)
    (code : Z) :
  outcome (SetHTTPRequest c req) = outcome c
  ∧ http_StatusCode (http (SetHTTPRequest c req)) = http_StatusCode (http c)
  ∧ http_URL (http (SetHTTPStatusCode c code)) = http_URL (http c)
  ∧ http (SetHTTPStatusCode (SetHTTPRequest c req) code)
    = http (SetHTTPRequest (SetHTTPStatusCode c code) req)
  ∧ (req_URL req = None → SetHTTPRequest c req = c).
Proof.
  destruct req as [[u|]].
  - destruct (SetHTTPRequest_http c u) as [Hhttp _].
    destruct (SetHTTPRequest_http (SetHTTPStatusCode c code) u) as [Hhttp' _].
    unfold outcome. rewrite Hhttp. cbn [http_StatusCode].
    repeat split; try done.
    cbn [SetHTTPStatusCode http with_http with_model]. rewrite Hhttp, Hhttp'. done.
  - by repeat split.
Qed.



(** X8.  Labels are appended in the order of the calls of [SetLabel], one
    item per call: an earlier label with the same key stays in the list. *)
Theorem SetLabel_appends (c : SpanContext) (kvs : list (string * labelValue)) :
  m_Tags (model (foldl (λ c kv, SetLabel c kv.1 kv.2) c kvs))
  = m_Tags (model c)
    ++ ((λ kv, mkItem (cleanLabelKey kv.1) (makeLabelValue kv.2)) <$> kvs).
Proof.
  revert c. induction kvs as [|[k v] kvs IH]; intros c.
  - by rewrite app_nil_r.
  - cbn [foldl]. rewrite IH. cbn. by rewrite <- app_assoc.
Qed.

(** X9.  The three setters of the destination write different parts of it:
    called in any order they give the same context. *)
Theorem destination_setters_commute (c : SpanContext) (addr : string)
    (port : Z) (svc : DestinationServiceSpanContext)
    (cloud : DestinationCloudSpanContext) :
  SetDestinationService (SetDestinationAddress c addr port) svc
  = SetDestinationAddress (SetDestinationService c svc) addr port
  ∧ SetDestinationCloud (SetDestinationAddress c addr port) cloud
    = SetDestinationAddress (SetDestinationCloud c cloud) addr port
  ∧ SetDestinationCloud (SetDestinationService c svc) cloud
    = SetDestinationService (SetDestinationCloud c cloud) svc.
Proof.
  unfold SetDestinationService, SetDestinationAddress, SetDestinationCloud.
  destruct (is_empty addr), (is_empty (Resource svc)); by repeat split.
Qed.

(** X24.  The two setters of the OpenTelemetry part keep what the other
    one set, whether or not the part existed before: in either order the
    context ends with the attributes and the span kind given, and with
    nothing else changed. *)
Theorem otel_setters_keep_each_other (c : SpanContext)
    (m : option (gmap string labelValue)) (kind : string) :
  SetOTelSpanKind (SetOTelAttributes c m) kind
  = SetOTelAttributes (SetOTelSpanKind c kind) m
  ∧ SetOTelSpanKind (SetOTelAttributes c m) kind
    = with_otel (Some (mkOTel m kind)) c
  ∧ otel_SpanKind <$> otel (SetOTelAttributes c m)
    = Some (default "" (otel_SpanKind <$> otel c))
  ∧ otel_Attributes <$> otel (SetOTelSpanKind c kind)
    = Some (default None (otel_Attributes <$> otel c)).
Proof.
  unfold SetOTelSpanKind, SetOTelAttributes, otel_or_new.
  destruct c as [md ds dsv sv st cl ms ra db ht [o|] called]; by repeat split.
Qed.

End SpanCtxMoreFacts.

(** ** More on the transactions *)

Module TxMoreFacts.
Import GoString Config Tx TxMore.

Lemma copy_length (dst src : list Z) : length (copy dst src) = length dst.
Proof. unfold copy. rewrite length_app, length_take, length_drop. lia. Qed.

Lemma copy_idemp (dst src : list Z) : copy (copy dst src) src = copy dst src.
Proof.
  unfold copy at 1. rewrite copy_length. unfold copy. f_equal.
  destruct (decide (length dst ≤ length src)%nat) as [Hle|Hgt].
  - rewrite (drop_ge dst) by done. rewrite app_nil_r.
    apply drop_ge. rewrite length_take. lia.
  - rewrite (take_ge src) by lia. by rewrite drop_app_length.
Qed.

Ltac td_cbn :=
  cbn [Tx.td_recording Tx.with_Type_ Tx.with_Duration Tx.with_Outcome
       Tx.with_compressedSpan Tx.Type_ Tx.Duration Tx.Outcome Tx.Name
       Tx.timestamp Tx.compressedSpan Tx.Context Tx.errorCaptured].

Section WithExternals.
Context {CE : ConfigExternals} {TE : TxExternals} {TRE : TracerExternals}.

(** X10.  [EnsureParent] gives the same parent ID when called again, and
    the second call changes nothing; it never changes the trace context; it
    returns a parent that is already set as it is; and on an ended
    transaction it returns the zero ID and changes nothing. *)
Theorem EnsureParent_idempotent (tx : Transaction) :
  let first := EnsureParent tx in
  EnsureParent first.2 = first
  ∧ traceContext first.2 = traceContext tx
  ∧ TransactionData_ first.2 = TransactionData_ tx
  ∧ (ended tx = false → isZero (parentID tx) = false → first = (parentID tx, tx))
  ∧ (ended tx = true → first = (zeroSpanID, tx)).
Proof.
  cbv zeta. unfold EnsureParent.
  destruct (ended tx) eqn:He.
  - cbn [fst snd]. rewrite He. by repeat split.
  - destruct (isZero (parentID tx)) eqn:Hzero.
    + cbn [fst snd].
      set (p := copy (parentID tx) (drop 8 (Trace (traceContext tx)))).
      change (ended (mkTransaction (traceContext tx) p (TransactionData_ tx)))
        with (ended tx).
      rewrite He. cbn [traceContext parentID TransactionData_].
      repeat split; try done.
      destruct (isZero p); [|done]. subst p. by rewrite copy_idemp.
    + cbn [fst snd]. rewrite He, Hzero. by repeat split.
Qed.

Lemma sampling_ids (smp : option Sampler) (inbound tc : TraceContext)
    (root : bool) :
  Trace (sampling smp inbound tc root) = Trace tc
  ∧ Span (sampling smp inbound tc root) = Span tc.
Proof. unfold sampling. by repeat case_match. Qed.

Lemma acquire_rest (env : StartEnv) (t : Tracer) :
  events (acquire env t).2 = events t
  ∧ events_capacity (acquire env t).2 = events_capacity t
  ∧ breakdownMetrics_recorded (acquire env t).2 = breakdownMetrics_recorded t
  ∧ stats_TransactionsDropped (acquire env t).2 = stats_TransactionsDropped t.
Proof.
  unfold acquire.
  by destruct (pool_Get (poolPick env) (transactionDataPool t)) as [[td pool]|].
Qed.

(** X11.  Without a valid inbound Trace ID the new transaction is a root,
    whatever the continuation strategy: its Trace ID is made of the next two
    numbers drawn from its generator, it has no parent and no link to the
    inbound context, its own ID is the TransactionID of the options or else
    the first half of the Trace ID, and [EnsureParent] then gives the second
    half. *)
Theorem new_root_identity (env : StartEnv) (t : Tracer) (name ty : string)
    (opts : TransactionOptions) :
  active t = true →
  recording (values (instrumentationConfigInternal t)) = true →
  Validate (Trace (opts_TraceContext opts)) = false →
  let tx := (StartTransactionOptions env t name ty opts).1 in
  let td0 := (acquire env t).1 in
  let n1 := (Uint64 (rand td0)).1 in
  let n2 := (Uint64 (Uint64 (rand td0)).2).1 in
  Trace (traceContext tx) = le_bytes n1 ++ le_bytes n2
  ∧ parentID tx = zeroSpanID
  ∧ Span (traceContext tx)
    = (if Validate (TransactionID opts) then TransactionID opts else le_bytes n1)
  ∧ (EnsureParent tx).1 = le_bytes n2
  ∧ ∃ td, TransactionData_ tx = Some td ∧ links td = links td0 ++ Links opts.
Proof.
  intros Hactive Hrec Htrace tx td0 n1 n2. subst tx td0 n1 n2.
  pose proof (TxFacts.StartTransactionOptions_recording env t name ty opts
                Hactive Hrec) as Hstart.
  cbv zeta in Hstart.
  destruct (TxFacts.stamped_rand env t) as [Hrand Hlinks].
  rewrite <- Hrand, <- Hlinks.
  unfold continuation in Hstart. rewrite Htrace in Hstart.
  assert (isZero (Trace (opts_TraceContext opts)) = true) as Hzero.
  { unfold Validate in Htrace. by destruct (isZero _). }
  rewrite Hzero in Hstart. cbn [negb andb] in Hstart.
  rewrite andb_false_r in Hstart.
  destruct (Uint64 (rand (stamped env t))) as [n1 r1]. cbn [fst snd].
  destruct (Uint64 r1) as [n2 r2]. cbn [fst snd].
  rewrite Hstart. cbn [traceContext parentID TransactionData_].
  destruct (sampling_ids (sampler (values (instrumentationConfigInternal t)))
              (opts_TraceContext opts)
              (if Validate (TransactionID opts)
               then with_Span (TransactionID opts)
                      (with_Trace (copy (take 8 zeroTraceID) (le_bytes n1)
                                   ++ copy (drop 8 zeroTraceID) (le_bytes n2))
                         zeroTraceContext)
               else with_Span
                      (copy (Span (with_Trace
                                     (copy (take 8 zeroTraceID) (le_bytes n1)
                                      ++ copy (drop 8 zeroTraceID) (le_bytes n2))
                                     zeroTraceContext))
                         (Trace (with_Trace
                                   (copy (take 8 zeroTraceID) (le_bytes n1)
                                    ++ copy (drop 8 zeroTraceID) (le_bytes n2))
                                   zeroTraceContext)))
                      (with_Trace (copy (take 8 zeroTraceID) (le_bytes n1)
                                   ++ copy (drop 8 zeroTraceID) (le_bytes n2))
                         zeroTraceContext)) true) as [HT HS].
  assert (∀ tc, Trace tc = le_bytes n1 ++ le_bytes n2 →
     (EnsureParent (mkTransaction tc zeroSpanID
        (Some (with_links (links (with_rand r2 (stamped env t)) ++ Links opts)
           (with_timestamp (if IsZero (Start opts) then now env else Start opts)
              (with_Type_ ty (with_Name name (with_rand r2 (stamped env t))))))))).1
     = le_bytes n2) as Hparent.
  { intros tc Htc. unfold EnsureParent. cbn. by rewrite Htc. }
  destruct (Validate (TransactionID opts)).
  - rewrite HT, HS. split; [reflexivity|]. split; [reflexivity|].
    split; [reflexivity|].
    split; [apply Hparent; rewrite HT; reflexivity|]. by eexists.
  - rewrite HT, HS. split; [reflexivity|]. split; [reflexivity|].
    split; [reflexivity|].
    split; [apply Hparent; rewrite HT; reflexivity|]. by eexists.
Qed.

Lemma acquire_withStrategy (s : string) (env : StartEnv) (t : Tracer) :
  acquire env (withStrategy s t)
  = ((acquire env t).1, withStrategy s (acquire env t).2).
Proof.
  unfold acquire, withStrategy. cbn [transactionDataPool].
  by destruct (pool_Get (poolPick env) (transactionDataPool t)) as [[td pool]|].
Qed.

(** Two strategies that restart the same inbound contexts start the same
    transaction. *)
Lemma StartTransactionOptions_strategy (s1 s2 : string) (env : StartEnv)
    (t : Tracer) (name ty : string) (opts : TransactionOptions) :
  bool_decide (effectiveStrategy s1 (opts_TraceContext opts) = "restart")
  = bool_decide (effectiveStrategy s2 (opts_TraceContext opts) = "restart") →
  (StartTransactionOptions env (withStrategy s1 t) name ty opts).1
  = (StartTransactionOptions env (withStrategy s2 t) name ty opts).1.
Proof.
  intros Heq. unfold StartTransactionOptions.
  rewrite !acquire_withStrategy.
  destruct (acquire env t) as [td t']. cbn [fst snd].
  assert (∀ s, recording (values (instrumentationConfigInternal (withStrategy s t')))
               = recording (values (instrumentationConfigInternal t'))) as Hrec
    by done.
  assert (∀ s, active (withStrategy s t') = active t') as Hact by done.
  assert (∀ s, sampler (values (instrumentationConfigInternal (withStrategy s t')))
               = sampler (values (instrumentationConfigInternal t'))) as Hsmp
    by done.
  assert (∀ s, continuationStrategy
                 (values (instrumentationConfigInternal (withStrategy s t'))) = s)
    as Hstr by done.
  assert (∀ s x, applySnapshot
                   (values (instrumentationConfigInternal (withStrategy s t')))
                   (withStrategy s t') x
                 = applySnapshot (values (instrumentationConfigInternal t')) t' x)
    as Hsnap by done.
  rewrite !Hrec, !Hact, !Hsmp, !Hstr, !Hsnap.
  destruct (negb (td_recording _) || negb (active t')); [done|].
  set (td2 := applySnapshot _ t' _).
  assert (continuation s1 opts td2 = continuation s2 opts td2) as ->.
  { unfold continuation. by rewrite Heq. }
  by destruct (continuation s2 opts td2) as [[[tc parent] td3] root].
Qed.

(** X12.  The strategy "restart_external" starts the transaction that
    "continue" starts when the inbound trace state has the entry of this
    vendor, and the one that "restart" starts when it has not; a strategy
    that is none of the three starts the transaction that "continue"
    starts. *)
Theorem restart_external_follows_tracestate (env : StartEnv) (t : Tracer)
    (name ty : string) (opts : TransactionOptions) (s : string) :
  let start s := (StartTransactionOptions env (withStrategy s t) name ty opts).1 in
  start "restart_external"
  = start (if haveElastic (State (opts_TraceContext opts))
           then "continue" else "restart")
  ∧ (s ≠ "restart" → s ≠ "restart_external" → start s = start "continue").
Proof.
  cbv zeta. split.
  - apply StartTransactionOptions_strategy. unfold effectiveStrategy.
    rewrite (bool_decide_eq_true_2 ("restart_external" = "restart_external"))
      by done.
    destruct (haveElastic (State (opts_TraceContext opts)));
      by repeat case_bool_decide.
  - intros H1 H2. apply StartTransactionOptions_strategy.
    unfold effectiveStrategy.
    rewrite (bool_decide_eq_false_2 (s = "restart_external")) by done.
    rewrite (bool_decide_eq_false_2 ("continue" = "restart_external")) by done.
    rewrite (bool_decide_eq_false_2 (s = "restart")) by done.
    by rewrite (bool_decide_eq_false_2 ("continue" = "restart")).
Qed.

(** X13.  A transaction that continues an inbound trace takes the caller's
    sampling decision: its trace options are the inbound ones, whatever the
    sampler of the tracer would say, its trace state is the inbound one
    when that is valid, and its parent is the inbound Span ID when that is
    valid. *)
Theorem continued_transaction_keeps_flags (env : StartEnv) (t : Tracer)
    (name ty : string) (opts : TransactionOptions) :
  active t = true →
  recording (values (instrumentationConfigInternal t)) = true →
  effectiveStrategy (continuationStrategy (values (instrumentationConfigInternal t)))
    (opts_TraceContext opts) ≠ "restart" →
  Validate (Trace (opts_TraceContext opts)) = true →
  let inbound := opts_TraceContext opts in
  let tx := (StartTransactionOptions env t name ty opts).1 in
  Trace (traceContext tx) = Trace inbound
  ∧ Options (traceContext tx) = Options inbound
  ∧ Transaction_Sampled (Some tx) = Recorded (Options inbound)
  ∧ State (traceContext tx)
    = (if TraceState_Validate (State inbound) then State inbound
       else zeroTraceState)
  ∧ parentID tx = (if Validate (Span inbound) then Span inbound else zeroSpanID).
Proof.
  intros Hactive Hrec Hstrat Htrace inbound tx. subst inbound tx.
  pose proof (TxFacts.StartTransactionOptions_recording env t name ty opts
                Hactive Hrec) as Hstart.
  cbv zeta in Hstart. unfold continuation in Hstart.
  rewrite (bool_decide_eq_false_2 _ Hstrat), Htrace in Hstart.
  cbn [andb negb] in Hstart. unfold Transaction_Sampled.
  destruct (Validate (TransactionID opts)).
  - destruct (TraceState_Validate _); rewrite Hstart; by repeat split.
  - destruct (Uint64 (rand (stamped env t))) as [n r].
    destruct (TraceState_Validate _); rewrite Hstart; by repeat split.
Qed.

(** X14.  On a tracer that is not recording, or not active, the new
    transaction is a placeholder: its trace context is the zero one, it has
    no parent, it is not sampled, and its data is the acquired one with
    nothing of the call but the recording flag.  When the tracer is not
    recording, [End] does to it what [Discard] does: nothing is put on the
    queue, nothing is counted, and the data goes back to the pool. *)
Theorem placeholder_is_never_reported (env : StartEnv) (t : Tracer)
    (name ty : string) (opts : TransactionOptions) (now : Time) :
  let cfg := values (instrumentationConfigInternal t) in
  let tx := (StartTransactionOptions env t name ty opts).1 in
  let t1 := (StartTransactionOptions env t name ty opts).2 in
  (recording cfg = false ∨ active t = false →
   tx = mkTransaction zeroTraceContext zeroSpanID
          (Some (with_td_recording (recording cfg) (acquire env t).1))
   ∧ Transaction_Sampled (Some tx) = false
   ∧ (EnsureParent tx).1 = zeroSpanID)
  ∧ (recording cfg = false →
     End now tx t1 = Discard tx t1
     ∧ events (End now tx t1).2 = events t
     ∧ breakdownMetrics_recorded (End now tx t1).2 = breakdownMetrics_recorded t
     ∧ stats_TransactionsDropped (End now tx t1).2 = stats_TransactionsDropped t
     ∧ length (transactionDataPool (End now tx t1).2)
       = S (length (transactionDataPool t1))).
Proof.
  cbv zeta.
  assert (recording (values (instrumentationConfigInternal t)) = false
          ∨ active t = false →
          StartTransactionOptions env t name ty opts
          = (mkTransaction zeroTraceContext zeroSpanID
               (Some (with_td_recording
                        (recording (values (instrumentationConfigInternal t)))
                        (acquire env t).1)),
             (acquire env t).2)) as Hstart.
  { intros Hor. unfold StartTransactionOptions.
    destruct (TxFacts.acquire_tracer env t) as (Hcfg & Hact & _).
    destruct (acquire env t) as [td0 t']. cbn [fst snd] in *.
    rewrite Hcfg, Hact. cbn [td_recording with_td_recording].
    by destruct Hor as [-> | ->]; [|rewrite orb_true_r]. }
  split.
  - intros Hor. rewrite (Hstart Hor). cbn [fst]. by repeat split.
  - intros Hrec. rewrite (Hstart (or_introl Hrec)). cbn [fst snd].
    destruct (acquire_rest env t) as (Hev & _ & Hbd & Hst).
    rewrite Hrec. unfold End, Discard. cbn [TransactionData_].
    assert (∀ td, td_recording
              (if is_empty (Type_ (with_td_recording false td))
               then with_Type_ "custom" (with_td_recording false td)
               else with_td_recording false td) = false) as Hnot.
    { intros td. by destruct (is_empty _). }
    rewrite Hnot.
    split; [|split; [|split; [|split]]].
    + unfold TransactionData_reset. by destruct (is_empty _).
    + by rewrite <- Hev.
    + by rewrite <- Hbd.
    + by rewrite <- Hst.
    + unfold TransactionData_reset. cbn [snd transactionDataPool
        with_transactionDataPool]. rewrite length_app. simpl. lia.
Qed.

(** X15.  [End] of a recording transaction whose cache holds no span
    never blocks on the queue: with room in the buffer the transaction is
    appended to it, and pool and counter stay as they are; with a full
    buffer the queue stays as it is, the transaction is counted as dropped,
    its data is recorded for the breakdown metrics and one item goes back
    to the pool.  The data handed on has the type "custom" when none was
    set, and the time since the start as duration when none was set. *)
Theorem End_enqueues_or_drops (now : Time) (tx : Transaction) (t : Tracer)
    (td : TransactionData) :
  TransactionData_ tx = Some td →
  td_recording td = true →
  (evict (compressedSpan td)).1 = None →
  let t' := (End now tx t).2 in
  ∃ td',
    Name td' = Name td
    ∧ Type_ td' = (if is_empty (Type_ td) then "custom" else Type_ td)
    ∧ Duration td'
      = (if Duration td <? 0 then Since now (timestamp td) else Duration td)
    ∧ compressedSpan td' = (evict (compressedSpan td)).2
    ∧ if bool_decide (length (events t) < events_capacity t)%nat then
        events t'
        = events t
          ++ [transactionEvent
                (mkTransaction (traceContext tx) (parentID tx) (Some td')) td']
        ∧ transactionDataPool t' = transactionDataPool t
        ∧ breakdownMetrics_recorded t' = breakdownMetrics_recorded t
        ∧ stats_TransactionsDropped t' = stats_TransactionsDropped t
      else
        events t' = events t
        ∧ length (transactionDataPool t') = S (length (transactionDataPool t))
        ∧ breakdownMetrics_recorded t' = breakdownMetrics_recorded t ++ [td']
        ∧ stats_TransactionsDropped t' = stats_TransactionsDropped t + 1.
Proof.
  intros Htd Hrec Hevict t'. subst t'.
  destruct td as [nm tp du cx rs oc rc ms ex sk sl be pl ts lk er scr sdr ct
                  st ds rd cs].
  cbn [td_recording Type_ Duration Outcome Name timestamp compressedSpan] in *.
  subst rc.
  set (tp' := if is_empty tp then "custom" else tp).
  set (du' := if du <? 0 then Since now ts else du).
  destruct (evict cs) as [evicted cache] eqn:Hev. cbn [fst snd] in *. subst evicted.
  assert (∃ oc',
    End now tx t
    = (let td' := mkTransactionData nm tp' du' cx rs oc' true ms ex sk sl be pl
                    ts lk er scr sdr ct st ds rd cache in
       (detach (mkTransaction (traceContext tx) (parentID tx) (Some td')),
        enqueue (mkTransaction (traceContext tx) (parentID tx) (Some td')) td' t)))
    as [oc' HEnd].
  { unfold End. rewrite Htd. subst tp' du'. td_cbn.
    destruct (is_empty tp); td_cbn; destruct (du <? 0); td_cbn;
      destruct (is_empty oc); td_cbn;
      try destruct (is_empty (Context_outcome cx)); td_cbn;
      try destruct er; td_cbn;
      rewrite Hev; td_cbn; by eexists. }
  rewrite HEnd. cbv zeta. cbn [snd].
  exists (mkTransactionData nm tp' du' cx rs oc' true ms ex sk sl be pl ts lk
            er scr sdr ct st ds rd cache).
  split; [reflexivity|]. split; [reflexivity|]. split; [reflexivity|].
  split; [reflexivity|].
  unfold enqueue. case_bool_decide.
  - by repeat split.
  - unfold TransactionData_reset.
    cbn [events transactionDataPool breakdownMetrics_recorded
         stats_TransactionsDropped with_events with_transactionDataPool
         with_breakdownMetrics_recorded with_stats_TransactionsDropped].
    repeat split; try done. rewrite length_app. simpl. lia.
Qed.

Lemma pristine_new (env : StartEnv) : pristine (newTransactionData env).
Proof. by repeat split. Qed.

Lemma pristine_reset (td : TransactionData) (t : Tracer) :
  ∃ td', transactionDataPool (TransactionData_reset td t)
         = transactionDataPool t ++ [td']
         ∧ pristine td' ∧ rand td' = rand td.
Proof.
  unfold TransactionData_reset. eexists. split; [reflexivity|].
  split; [|reflexivity].
  repeat split. cbn [droppedSpansStats]. apply DroppedSpansFacts.reset_empty.
Qed.

Lemma pristine_acquire (env : StartEnv) (t : Tracer) :
  Forall pristine (transactionDataPool t) →
  pristine (acquire env t).1
  ∧ Forall pristine (transactionDataPool (acquire env t).2).
Proof.
  intros Hpool. unfold acquire, pool_Get.
  destruct (poolPick env) as [i|]; [|by split; [apply pristine_new|]].
  destruct (transactionDataPool t !! i) as [td|] eqn:Hi;
    [|by split; [apply pristine_new|]].
  cbn [fst snd transactionDataPool with_transactionDataPool]. split.
  - by eapply Forall_lookup_1.
  - by apply Forall_delete.
Qed.

Lemma StartTransactionOptions_tracer (env : StartEnv) (t : Tracer)
    (name ty : string) (opts : TransactionOptions) :
  (StartTransactionOptions env t name ty opts).2 = (acquire env t).2.
Proof.
  unfold StartTransactionOptions. destruct (acquire env t) as [td t'].
  destruct (negb _ || negb _); [done|].
  by destruct (continuation _ _ _) as [[[tc parent] td'] root].
Qed.

(** X16.  The pool holds only data with nothing of a transaction in it,
    and keeps doing so: [StartTransactionOptions] takes one item out,
    [Discard] puts back the data of the transaction reset, with its
    generator, and so does [End] of a transaction whose cache holds no
    span. *)
Theorem pool_stays_pristine (env : StartEnv) (now : Time) (t : Tracer)
    (tx : Transaction) (name ty : string) (opts : TransactionOptions) :
  Forall pristine (transactionDataPool t) →
  Forall pristine
    (transactionDataPool (StartTransactionOptions env t name ty opts).2)
  ∧ Forall pristine (transactionDataPool (Discard tx t).2)
  ∧ (∀ td, TransactionData_ tx = Some td →
       ∃ td', transactionDataPool (Discard tx t).2 = transactionDataPool t ++ [td']
              ∧ rand td' = rand td)
  ∧ ((∀ td, TransactionData_ tx = Some td →
        (evict (compressedSpan td)).1 = None) →
     Forall pristine (transactionDataPool (End now tx t).2)).
Proof.
  intros Hpool. split; [|split; [|split]].
  - rewrite StartTransactionOptions_tracer. by apply pristine_acquire.
  - unfold Discard. destruct (TransactionData_ tx) as [td|]; [|done].
    cbn [snd]. destruct (pristine_reset td t) as (td' & -> & Hp & _).
    apply Forall_app. split; [done|]. by apply Forall_singleton.
  - intros td Htd. unfold Discard. rewrite Htd. cbn [snd].
    destruct (pristine_reset td t) as (td' & -> & _ & Hr). by eexists.
  - intros Hevict. unfold End.
    destruct (TransactionData_ tx) as [td|] eqn:Htd; [|done].
    specialize (Hevict td eq_refl).
    assert (∀ td1, Forall pristine
              (transactionDataPool (TransactionData_reset td1 t))) as Hreset.
    { intros td1. destruct (pristine_reset td1 t) as (td' & -> & Hp & _).
      apply Forall_app. split; [done|]. by apply Forall_singleton. }
    destruct (td_recording (if is_empty (Type_ td) then with_Type_ "custom" td
                            else td)) eqn:Hrec; [|apply Hreset].
    match goal with
    | |- context [evict (compressedSpan ?x)] =>
        assert (compressedSpan x = compressedSpan td) as Hcs
          by (by repeat case_match)
    end.
    rewrite Hcs. destruct (evict (compressedSpan td)) as [evicted cache].
    cbn [fst] in Hevict. subst evicted. cbn [snd]. unfold enqueue.
    case_bool_decide; [done|].
    match goal with
    | |- context [TransactionData_reset ?td1 ?t1] =>
        destruct (pristine_reset td1 t1) as (td' & -> & Hp & _)
    end.
    apply Forall_app. split; [done|]. by apply Forall_singleton.
Qed.

(** What [continuation] does to the transaction data: it draws from the
    generator and may add the link of a restarted trace. *)
Lemma continuation_data (s : string) (opts : TransactionOptions)
    (td : TransactionData) :
  ∃ r ls,
    (continuation s opts td).1.2 = with_rand r (with_links (links td ++ ls) td)
    ∧ (ls = []
       ∨ ls = [mkSpanLink (Trace (opts_TraceContext opts))
                          (Span (opts_TraceContext opts))]).
Proof.
  destruct td as [nm tp du cx rs oc rc ms ex sk sl be pl ts lk er scr sdr ct
                  st ds rd cs].
  unfold continuation. cbn [links rand].
  destruct (bool_decide _ && (negb _ && negb _)).
  - rewrite andb_false_r. cbn [rand with_links].
    destruct (Uint64 rd) as [n1 r1]. destruct (Uint64 r1) as [n2 r2].
    exists r2, [mkSpanLink (Trace (opts_TraceContext opts))
                           (Span (opts_TraceContext opts))].
    split; [reflexivity|by right].
  - cbn [negb]. rewrite andb_true_r.
    destruct (Validate (Trace (opts_TraceContext opts))).
    + destruct (Validate (TransactionID opts)).
      * exists rd, []. rewrite app_nil_r. split; [|by left].
        by destruct (TraceState_Validate _).
      * cbn [rand]. destruct (Uint64 rd) as [n r].
        exists r, []. rewrite app_nil_r. split; [|by left].
        by destruct (TraceState_Validate _).
    + cbn [rand]. destruct (Uint64 rd) as [n1 r1].
      destruct (Uint64 r1) as [n2 r2].
      exists r2, []. rewrite app_nil_r. by split; [|left].
Qed.

(** X17.  A transaction started on a pool of reset data carries nothing
    of an earlier transaction: it has the name, the type and the start time
    of the call, no duration, result or outcome yet, no error, no dropped
    spans, an empty span context, only the links of the call (after the link
    of a restarted trace), and the limits of the tracer's config at the
    time of the call. *)
Theorem recycled_data_starts_clean (env : StartEnv) (t : Tracer)
    (name ty : string) (opts : TransactionOptions) :
  Forall pristine (transactionDataPool t) →
  active t = true →
  recording (values (instrumentationConfigInternal t)) = true →
  let cfg := values (instrumentationConfigInternal t) in
  let tx := (StartTransactionOptions env t name ty opts).1 in
  ∃ td,
    TransactionData_ tx = Some td
    ∧ Name td = name ∧ Type_ td = ty
    ∧ timestamp td = (if IsZero (Start opts) then now env else Start opts)
    ∧ Duration td = -1 ∧ Result td = "" ∧ Outcome td = ""
    ∧ errorCaptured td = false
    ∧ spansCreated td = 0 ∧ spansDropped td = 0 ∧ droppedSpansStats td = ∅
    ∧ spanContext (Context td) = SpanCtx.zeroSpanContext
    ∧ (links td = Links opts
       ∨ links td = mkSpanLink (Trace (opts_TraceContext opts))
                               (Span (opts_TraceContext opts)) :: Links opts)
    ∧ td_recording td = true
    ∧ td_maxSpans td = maxSpans cfg
    ∧ td_stackTraceLimit td = stackTraceLimit cfg
    ∧ ctx_captureHeaders (Context td) = captureHeaders cfg
    ∧ ShouldPropagateLegacyHeader tx = propagateLegacyHeader cfg.
Proof.
  intros Hpool Hactive Hrec cfg tx. subst cfg tx.
  pose proof (TxFacts.StartTransactionOptions_recording env t name ty opts
                Hactive Hrec) as Hstart.
  cbv zeta in Hstart.
  destruct (continuation_data
              (continuationStrategy (values (instrumentationConfigInternal t)))
              opts (stamped env t)) as (r & ls & Hdata & Hls).
  destruct (continuation _ opts (stamped env t)) as [[[tc parent] td] root].
  cbn [fst snd] in Hdata. subst td. rewrite Hstart.
  unfold ShouldPropagateLegacyHeader. cbn [TransactionData_].
  eexists. split; [reflexivity|].
  destruct (pristine_acquire env t Hpool) as [Hp _].
  destruct (TxFacts.acquire_tracer env t) as (Hcfg & _ & _).
  unfold stamped. destruct (acquire env t) as [td0 t'].
  cbn [fst snd] in Hp, Hcfg. rewrite Hcfg.
  destruct Hp as (HN & HT & HD & HR & HO & Hr & HL & HE & HC & HS & HM & HX).
  destruct td0 as [nm tp du cx rs oc rc ms ex sk sl be pl ts lk er scr sdr ct
                   st ds rd cs].
  cbn in HN, HT, HD, HR, HO, Hr, HL, HE, HC, HS, HM, HX. subst.
  cbn. rewrite Hrec.
  repeat (split; [reflexivity|]). split; [exact HX|].
  split; [by destruct Hls as [-> | ->]; [left|right]|].
  by repeat split.
Qed.

(** X18.  After [End] or [Discard] the transaction still answers with its
    trace context, its sampling decision and its parent ID, but it no
    longer asks for the legacy header and [EnsureParent] gives the zero ID
    and sets no parent. *)
Theorem ended_transaction_keeps_identity (now : Time) (tx : Transaction)
    (t : Tracer) (discard : bool) :
  let tx' := if discard then (Discard tx t).1 else (End now tx t).1 in
  Transaction_TraceContext (Some tx') = Transaction_TraceContext (Some tx)
  ∧ Transaction_Sampled (Some tx') = Transaction_Sampled (Some tx)
  ∧ ParentID (Some tx') = ParentID (Some tx)
  ∧ ShouldPropagateLegacyHeader tx' = false
  ∧ EnsureParent tx' = (zeroSpanID, tx').
Proof.
  cbv zeta.
  assert (∀ tx', TransactionData_ tx' = None →
            ShouldPropagateLegacyHeader tx' = false
            ∧ EnsureParent tx' = (zeroSpanID, tx')) as Hended.
  { intros tx' Hnone. unfold ShouldPropagateLegacyHeader, EnsureParent, ended.
    rewrite Hnone. split; [done|]. by case_bool_decide. }
  assert (∀ tx1, traceContext tx1 = traceContext tx → parentID tx1 = parentID tx →
            TransactionData_ tx1 = None →
            Transaction_TraceContext (Some tx1) = Transaction_TraceContext (Some tx)
            ∧ Transaction_Sampled (Some tx1) = Transaction_Sampled (Some tx)
            ∧ ParentID (Some tx1) = ParentID (Some tx)
            ∧ ShouldPropagateLegacyHeader tx1 = false
            ∧ EnsureParent tx1 = (zeroSpanID, tx1)) as Hall.
  { intros tx1 Htc Hp Hnone. destruct (Hended tx1 Hnone) as [H1 H2].
    unfold Transaction_TraceContext, Transaction_Sampled, ParentID.
    by rewrite Htc, Hp. }
  destruct (TransactionData_ tx) as [td|] eqn:Htd.
  - destruct discard.
    + unfold Discard. rewrite Htd. by apply Hall.
    + unfold End. rewrite Htd.
      destruct (td_recording _); [|by apply Hall].
      destruct (evict _) as [evicted cache]. by apply Hall.
  - assert (Discard tx t = (tx, t)) as -> by (unfold Discard; by rewrite Htd).
    assert (End now tx t = (tx, t)) as -> by (unfold End; by rewrite Htd).
    cbn [fst]. destruct discard; by apply Hall.
Qed.

End WithExternals.

End TxMoreFacts.

(** ** More on the config *)

Module ConfigMoreFacts.
Import GoString Config ConfigSpec ConfigMore ConfigFacts.

(** The branch of the [switch] for a known name of a setting. *)
Ltac pick_setting :=
  repeat match goal with
         | |- context [bool_decide (?a = ?b)] =>
             first [ rewrite (bool_decide_eq_false_2 (a = b)) by (by vm_compute)
                   | rewrite (bool_decide_eq_true_2 (a = b)) by reflexivity ]
         end.

Section WithExternals.
Context {CE : ConfigExternals}.

Lemma omap_all_None {A B} (f : A → option B) (l : list A) :
  (∀ x, x ∈ l → f x = None) → omap f l = [].
Proof.
  induction l as [|x l IH]; intros Hall; [done|]. cbn.
  rewrite (Hall x) by left. apply IH. intros y Hy. apply Hall. by right.
Qed.

Lemma bind_all_nil {A B} (f : A → list B) (l : list A) :
  (∀ x, x ∈ l → f x = []) → l ≫= f = [].
Proof.
  induction l as [|x l IH]; intros Hall; [done|]. cbn.
  rewrite (Hall x) by left. apply IH. intros y Hy. apply Hall. by right.
Qed.

Lemma delete_discarded_none (logger : Logger) (old : gmap string string) l :
  ∀ m : gmap string string,
    (∀ kv, kv ∈ l → stepDiscards logger old kv = false) →
    delete_discarded logger old m l = m.
Proof.
  induction l as [|kv l IH]; intros m Hall; [done|].
  rewrite delete_discarded_cons, (Hall kv) by left.
  apply IH. intros y Hy. apply Hall. by right.
Qed.

Lemma reverted_none (m : gmap string string) (l : list (string * string)) :
  (∀ kv, kv ∈ l → is_Some (m !! kv.1)) → reverted m l = [].
Proof.
  intros Hall. unfold reverted.
  induction l as [|kv l IH]; [done|].
  rewrite filter_cons. destruct (Hall kv) as [w Hw]; [left|].
  rewrite decide_False by by rewrite Hw.
  apply IH. intros y Hy. apply Hall. by right.
Qed.

(** X19.  A batch of central config that is the one applied before changes
    nothing: the config, with its [remote] set, and the attributes are as
    they were, and nothing is logged, whatever the logger and whatever the
    values are. *)
Theorem unchanged_batch_is_noop (logger : Logger) (cfg : instrumentationConfig)
    (m : gmap string string) :
  updateRemoteConfig logger cfg m m = (cfg, m, []).
Proof.
  unfold updateRemoteConfig. rewrite fold_attrStep, fold_oldStep.
  cbn [updates attrs_of log_of app].
  assert (∀ kv, kv ∈ range m → m !! kv.1 = Some kv.2) as Hin.
  { intros [k v] Hkv. by apply range_elem. }
  rewrite (omap_all_None (stepUpdate logger m)); last first.
  { intros kv Hkv. unfold stepUpdate.
    by rewrite (bool_decide_eq_true_2 _ (Hin kv Hkv)). }
  rewrite (bind_all_nil (stepLog logger m)); last first.
  { intros kv Hkv. unfold stepLog.
    by rewrite (bool_decide_eq_true_2 _ (Hin kv Hkv)). }
  rewrite delete_discarded_none; last first.
  { intros kv Hkv. unfold stepDiscards.
    by rewrite (bool_decide_eq_true_2 _ (Hin kv Hkv)). }
  rewrite reverted_none; [done|].
  intros kv Hkv. rewrite (Hin kv Hkv). by eexists.
Qed.

Lemma remoteUpdate_remote (logger : Logger) (k v : string) u :
  remoteUpdate logger k v = Update u → ∀ cfg, remote (u cfg) = remote cfg.
Proof.
  unfold remoteUpdate. cbv zeta. unfold parsed.
  repeat case_bool_decide;
    repeat match goal with
           | |- context [match ?r with Some _ => _ | None => _ end] => destruct r
           | |- context [match logger with NilLogger => _ | _ => _ end] => destruct logger
           end;
    by intros [= <-].
Qed.

Lemma revert_remote (k : string) (cfg : instrumentationConfig) :
  remote (revert k cfg) = remote cfg.
Proof. unfold revert. by destruct (local cfg !! envName k). Qed.

Lemma apply_updates_remote us : ∀ cfg,
  Forall (λ u, ∀ cfg, remote (u cfg) = remote cfg) us →
  remote (apply_updates cfg us) = remote cfg.
Proof.
  induction us as [|u us IH]; intros cfg Hall; [done|].
  apply Forall_cons in Hall as [Hu Hus]. cbn.
  fold (apply_updates (u cfg) us). by rewrite IH, Hu.
Qed.

Lemma stepUpdate_remote (logger : Logger) (old : gmap string string) l :
  Forall (λ u, ∀ cfg, remote (u cfg) = remote cfg) (omap (stepUpdate logger old) l).
Proof.
  apply Forall_forall. intros u Hu.
  apply list_elem_of_omap in Hu as ([k v] & _ & Hstep).
  unfold stepUpdate in Hstep. cbn [fst snd] in Hstep.
  case_bool_decide; [done|].
  destruct (remoteUpdate logger k v) as [ev|u'] eqn:Hru; [done|].
  injection Hstep as <-. by eapply remoteUpdate_remote.
Qed.

Lemma reverts_remote ks :
  Forall (λ u, ∀ cfg, remote (u cfg) = remote cfg) (revert <$> ks).
Proof.
  apply Forall_fmap, Forall_forall. intros k _ cfg. apply revert_remote.
Qed.

(** The set [remote] follows the attributes through a call. *)
Lemma updateRemoteConfig_remote_tracks (logger : Logger)
    (cfg : instrumentationConfig) (old attrs : gmap string string) :
  remote_tracks cfg old →
  remote_tracks (updateRemoteConfig logger cfg old attrs).1.1
                (updateRemoteConfig logger cfg old attrs).1.2.
Proof.
  intros Htracks. unfold updateRemoteConfig.
  rewrite fold_attrStep, fold_oldStep. cbn [updates attrs_of log_of app fst snd].
  set (attrs' := delete_discarded logger old attrs (range attrs)).
  set (ups := omap (stepUpdate logger old) (range attrs)).
  set (revs := revert <$> reverted attrs' (range old)).
  destruct (ups ++ revs) as [|u us] eqn:Hus.
  - (* nothing to update: the attributes left are the old ones *)
    apply app_eq_nil in Hus as [Hups Hrevs].
    intros e. rewrite (Htracks e). split; intros (k & [v Hk] & <-); exists k.
    + split; [|done]. destruct (attrs' !! k) as [w|] eqn:Hw; [by eexists|].
      assert (k ∈ reverted attrs' (range old)) as Hin
        by (apply reverted_elem; split; [by eexists|done]).
      subst revs. apply fmap_nil_inv in Hrevs. rewrite Hrevs in Hin.
      by apply elem_of_nil in Hin.
    + split; [|done].
      pose proof (delete_discarded_subseteq logger old (range attrs) k v attrs Hk)
        as Hattrs.
      destruct (decide (old !! k = Some v)) as [Hold|Hold]; [by eexists|].
      exfalso.
      assert ((k, v) ∈ range attrs) as Hin by by apply range_elem.
      destruct (remoteUpdate logger k v) as [ev|u] eqn:Hru.
      * assert (attrs' !! k = None) as Hnone.
        { apply (delete_discarded_gone logger old (range attrs) k v attrs Hin).
          unfold stepDiscards. cbn [fst snd].
          by rewrite (bool_decide_eq_false_2 _ Hold), Hru. }
        congruence.
      * assert (u ∈ ups) as Hu.
        { apply list_elem_of_omap. exists (k, v). split; [done|].
          unfold stepUpdate. cbn [fst snd].
          by rewrite (bool_decide_eq_false_2 _ Hold), Hru. }
        rewrite Hups in Hu. by apply elem_of_nil in Hu.
  - rewrite <- Hus. unfold updateInstrumentationConfig.
    fold (apply_updates
            (mkConfig (values cfg) (local cfg)
               (list_to_set ((λ kv : string * string, envName kv.1) <$> range attrs')))
            (ups ++ revs)).
    intros e. rewrite apply_updates_remote; last first.
    { apply Forall_app. split; [apply stepUpdate_remote|apply reverts_remote]. }
    cbn [remote]. rewrite elem_of_list_to_set, list_elem_of_fmap. split.
    + intros ([k v] & -> & Hin). apply range_elem in Hin.
      exists k. split; [by eexists|done].
    + intros (k & [v Hk] & <-). exists (k, v). split; [done|].
      by apply range_elem.
Qed.

(** X20.  The set [remote] of the config names the settings that central
    config overrides: if it holds the names of the attributes in force
    before a run of calls of [updateRemoteConfig], then after the run it
    holds the names of the attributes that the last call left in [attrs].
    So [setLocalInstrumentationConfig] then defers the change of a setting
    exactly when an attribute in force names it. *)
Theorem remote_names_attributes_in_force (logger : Logger)
    (batches : list (gmap string string)) (cfg : instrumentationConfig)
    (old : gmap string string) :
  remote_tracks cfg old →
  let cfg' := (applyBatches logger cfg old batches).1 in
  let old' := (applyBatches logger cfg old batches).2 in
  remote_tracks cfg' old'
  ∧ ∀ e f,
      ((∃ k, is_Some (old' !! k) ∧ envName k = e) →
       values (setLocalInstrumentationConfig e f cfg') = values cfg')
      ∧ (¬ (∃ k, is_Some (old' !! k) ∧ envName k = e) →
         values (setLocalInstrumentationConfig e f cfg') = f (values cfg')).
Proof.
  intros Htracks cfg' old'.
  assert (remote_tracks cfg' old') as Hfin.
  { subst cfg' old'. revert cfg old Htracks.
    induction batches as [|attrs rest IH]; intros cfg old Htracks; [done|].
    cbn [applyBatches].
    pose proof (updateRemoteConfig_remote_tracks logger cfg old attrs Htracks)
      as Hstep.
    destruct (updateRemoteConfig logger cfg old attrs) as [[cfg1 attrs1] log].
    by apply IH. }
  split; [done|]. intros e f.
  unfold setLocalInstrumentationConfig, updateInstrumentationConfig. split.
  - intros Hin%Hfin. by rewrite (bool_decide_eq_true_2 _ Hin).
  - intros Hnot. rewrite bool_decide_eq_false_2; [done|].
    intros Hin%Hfin. by apply Hnot.
Qed.

(** Once a key of the setting [e] is among the reverted ones, the field of
    [e] ends with the value that the function of [e] in [local] sets, when
    the functions of the other settings leave that field alone. *)
Lemma reverts_apply e f v0
    (L : gmap string (instrumentationConfigValues → instrumentationConfigValues))
    ks :
  L !! e = Some f →
  (∀ v, agree_env e (f v) v0) →
  (∀ e' f', L !! e' = Some f' → e' ≠ e → ∀ v, agree_env e (f' v) v) →
  ∀ cfg, local cfg = L →
    agree_env e (values cfg) v0 ∨ (∃ k, k ∈ ks ∧ envName k = e) →
    agree_env e (values (apply_updates cfg (revert <$> ks))) v0.
Proof.
  intros Hf Hset Hind. induction ks as [|k1 ks IH]; intros cfg HL Hor.
  - destruct Hor as [?|(k & Hk & _)]; [done|by apply elem_of_nil in Hk].
  - cbn. fold (apply_updates (revert k1 cfg) (revert <$> ks)). apply IH.
    { by rewrite revert_local. }
    destruct (decide (envName k1 = e)) as [He|Hne].
    + left. unfold revert. rewrite HL, He, Hf. apply Hset.
    + destruct Hor as [Hag|(k & Hk & Hke)].
      * left. unfold revert. rewrite HL.
        destruct (L !! envName k1) as [f'|] eqn:Hf'; [|done].
        pose proof (agree_env_equiv e) as Hequiv.
        etrans; [|exact Hag]. by apply (Hind _ _ Hf').
      * right. exists k. split; [|done].
        apply elem_of_cons in Hk as [->|Hk]; [congruence|done].
Qed.


(** An update comes from a setting that central config supports; the
    capture of headers and the legacy header are not among them. *)
Lemma remoteUpdate_supported (logger : Logger) (k v : string) u :
  remoteUpdate logger k v = Update u →
  envName k ≠ envCaptureHeaders ∧ envName k ≠ envUseElasticTraceparentHeader.
Proof.
  intros Hu.
  split; intros He; unfold remoteUpdate in Hu; cbv zeta in Hu;
    rewrite He in Hu; by vm_compute in Hu.
Qed.

(** X22.  Central config never changes whether headers are captured, nor
    whether the legacy header is propagated: a call of [updateRemoteConfig]
    leaves both fields as they are, whatever the attributes. *)
Theorem central_config_keeps_header_settings (logger : Logger)
    (cfg : instrumentationConfig) (old attrs : gmap string string) :
  local_independent cfg →
  in_force logger cfg old →
  let cfg' := (updateRemoteConfig logger cfg old attrs).1.1 in
  captureHeaders (values cfg') = captureHeaders (values cfg)
  ∧ propagateLegacyHeader (values cfg') = propagateLegacyHeader (values cfg).
Proof.
  intros Hind Hforce cfg'. subst cfg'.
  destruct (updateRemoteConfig_unfold logger cfg old attrs)
    as (cfg0 & log & Hv & Hl & _ & ->). cbn [fst].
  assert (∀ e, e = envCaptureHeaders ∨ e = envUseElasticTraceparentHeader →
            agree_env e
              (values (apply_updates cfg0
                 (omap (stepUpdate logger old) (range attrs)
                  ++ (revert <$> reverted
                        (delete_discarded logger old attrs (range attrs))
                        (range old)))))
              (values cfg0)) as Hkeep.
  { intros e He.
    apply (apply_updates_keeps e (local cfg)); [|done].
    apply Forall_app. split.
    - apply stepUpdates_keep. intros k v u _ Hstep.
      unfold stepUpdate in Hstep. cbn [fst snd] in Hstep.
      case_bool_decide; [done|].
      destruct (remoteUpdate logger k v) as [ev|u'] eqn:Hru; [done|].
      destruct (remoteUpdate_supported _ _ _ _ Hru) as [H1 H2].
      by destruct He as [-> | ->].
    - apply Forall_fmap, Forall_forall. intros k Hk.
      apply reverted_elem in Hk as [[v Hk] _].
      destruct (Hforce k v Hk) as (u & Hru & _).
      destruct (remoteUpdate_supported _ _ _ _ Hru) as [H1 H2].
      apply revert_keeps; [done|]. by destruct He as [-> | ->]. }
  rewrite <- Hv. split.
  - exact (Hkeep envCaptureHeaders (or_introl eq_refl)).
  - exact (Hkeep envUseElasticTraceparentHeader (or_intror eq_refl)).
Qed.


End WithExternals.

(** X25.  The sizes read at start-up are within their limits: each of
    the three functions returns the size that was parsed when it is between
    the minimum and the maximum of its setting, both included, and an error
    otherwise, also when the default is what was out of range. *)
Theorem initial_sizes_within_limits (ParseSizeEnv : string → Z → option Z)
    (KByte MByte : Z) :
  let within (r : option Z) (name : string) (default lo hi : Z) : Prop :=
    match r with
    | Some n => ParseSizeEnv name default = Some n ∧ lo ≤ n ≤ hi
    | None => ∀ n, ParseSizeEnv name default = Some n → n < lo ∨ hi < n
    end in
  within (initialMetricsBufferSize ParseSizeEnv KByte MByte)
         envMetricsBufferSize (750 * KByte) (10 * KByte) (100 * MByte)
  ∧ within (initialAPIBufferSize ParseSizeEnv KByte MByte)
           envAPIBufferSize (1 * MByte) (10 * KByte) (100 * MByte)
  ∧ within (initialAPIRequestSize ParseSizeEnv KByte MByte)
           envAPIRequestSize (750 * KByte) (1 * KByte) (5 * MByte).
Proof.
  cbv zeta.
  unfold initialMetricsBufferSize, initialAPIBufferSize, initialAPIRequestSize,
    defaultMetricsBufferSize, defaultAPIBufferSize, defaultAPIRequestSize,
    minMetricsBufferSize, maxMetricsBufferSize, minAPIBufferSize,
    maxAPIBufferSize, minAPIRequestSize, maxAPIRequestSize.
  repeat split;
    match goal with
    | |- context [ParseSizeEnv ?name ?d] =>
        destruct (ParseSizeEnv name d) as [size|] eqn:Hp; [|done]
    end;
    match goal with
    | |- context [(?a <? ?b) || (?c <? ?d)] =>
        destruct (Z.ltb_spec a b), (Z.ltb_spec c d); cbn [orb]
    end;
    try (intros n [= <-]; lia); try (split; [done|lia]).
Qed.

(** X26.  Profiling of the CPU is set up with an interval and a duration
    that are both positive, or not at all: the function returns two
    positive numbers without an error, or two zeros.  When the interval is
    not positive the duration is not looked at, so that a duration that does
    not parse is no error then. *)
Theorem cpu_profile_interval_and_duration
    (ParseDurationEnv : string → Z → option Z) :
  let r := initialCPUProfileIntervalDuration ParseDurationEnv in
  ((r.1.1 = 0 ∧ r.1.2 = 0) ∨ (0 < r.1.1 ∧ 0 < r.1.2 ∧ r.2 = true))
  ∧ (∀ interval, ParseDurationEnv envCPUProfileInterval 0 = Some interval →
       interval ≤ 0 → r = (0, 0, true))
  ∧ (r.2 = false ↔
     ParseDurationEnv envCPUProfileInterval 0 = None
     ∨ ∃ interval, ParseDurationEnv envCPUProfileInterval 0 = Some interval
                   ∧ 0 < interval
                   ∧ ParseDurationEnv envCPUProfileDuration 0 = None).
Proof.
  cbv zeta. unfold initialCPUProfileIntervalDuration.
  destruct (ParseDurationEnv envCPUProfileInterval 0) as [interval|].
  - destruct (Z.leb_spec interval 0) as [Hle|Hlt].
    + split; [by left|]. split; [done|]. cbn. split; [done|].
      intros [[=]|(i & [= <-] & Hpos & _)]. lia.
    + destruct (ParseDurationEnv envCPUProfileDuration 0) as [duration|].
      * destruct (Z.leb_spec duration 0) as [Hle'|Hlt'].
        -- split; [by left|]. split; [intros i [= <-]; lia|]. cbn.
           split; [done|]. by intros [[=]|(i & _ & _ & [=])].
        -- split; [by right|]. split; [intros i [= <-]; lia|]. cbn.
           split; [done|]. by intros [[=]|(i & _ & _ & [=])].
      * split; [by left|]. split; [intros i [= <-]; lia|]. cbn.
        split; [|done]. intros _. right. by exists interval.
  - split; [by left|]. split; [done|]. cbn. split; [by left|done].
Qed.

End ConfigMoreFacts.

(** ** More examples *)

Module ExampleMoreFacts.
Import GoString Config ConfigSpec ConfigMore Tx TxMore Example ExampleMore.

#[local] Existing Instance configExternals.
#[local] Existing Instance txExternals.
#[local] Existing Instance tracerExternals.

Lemma new_root_identity_witness :
  let t := tracerWith restartConfig in
  let tx := (StartTransactionOptions startEnv t "GET /" "request"
                                     (optsWith noInbound)).1 in
  (active t = true
   ∧ recording (values (instrumentationConfigInternal t)) = true
   ∧ Validate (Trace noInbound) = false)
  ∧ Trace (traceContext tx) = le_bytes (lcg 42).1 ++ le_bytes (lcg (lcg 42).2).1
  ∧ parentID tx = zeroSpanID
  ∧ Span (traceContext tx) = le_bytes (lcg 42).1
  ∧ (EnsureParent tx).1 = le_bytes (lcg (lcg 42).2).1.
Proof.
  intros t tx.
  assert (active t = true) as H1 by reflexivity.
  assert (recording (values (instrumentationConfigInternal t)) = true) as H2
    by reflexivity.
  assert (Validate (Trace (opts_TraceContext (optsWith noInbound))) = false)
    as H3 by reflexivity.
  split; [by repeat split|].
  destruct (TxMoreFacts.new_root_identity startEnv t "GET /" "request"
              (optsWith noInbound) H1 H2 H3) as (HT & HP & HS & HE & _).
  split; [exact HT|]. split; [exact HP|]. split; [exact HS|exact HE].
Defined.

Lemma continued_transaction_keeps_flags_witness :
  let t := tracerWith halfSampledConfig in
  let tx := (StartTransactionOptions startEnv t "GET /" "request"
                                     (optsWith inboundA)).1 in
  (active t = true
   ∧ recording (values (instrumentationConfigInternal t)) = true
   ∧ Validate (Trace inboundA) = true)
  ∧ Trace (traceContext tx) = traceA
  ∧ Options (traceContext tx) = 1
  ∧ Transaction_Sampled (Some tx) = true
  ∧ parentID tx = spanA.
Proof.
  intros t tx.
  assert (active t = true) as H1 by reflexivity.
  assert (recording (values (instrumentationConfigInternal t)) = true) as H2
    by reflexivity.
  assert (effectiveStrategy
            (continuationStrategy (values (instrumentationConfigInternal t)))
            (opts_TraceContext (optsWith inboundA)) ≠ "restart") as H3
    by (intros H; discriminate H).
  assert (Validate (Trace (opts_TraceContext (optsWith inboundA))) = true) as H4
    by reflexivity.
  split; [by repeat split|].
  destruct (TxMoreFacts.continued_transaction_keeps_flags startEnv t "GET /"
              "request" (optsWith inboundA) H1 H2 H3 H4)
    as (HT & HO & HS & _ & HP).
  split; [exact HT|]. split; [exact HO|]. split; [exact HS|exact HP].
Defined.

Lemma End_enqueues_or_drops_witness :
  let t' := (End 2000 tx404 fullTracer).2 in
  (TransactionData_ tx404 = Some txData404
   ∧ td_recording txData404 = true
   ∧ (evict (compressedSpan txData404)).1 = None)
  ∧ ∃ td', Type_ td' = "custom"
           ∧ Duration td' = 2000
           ∧ events t' = []
           ∧ length (transactionDataPool t') = 1%nat
           ∧ breakdownMetrics_recorded t' = [td']
           ∧ stats_TransactionsDropped t' = 1.
Proof.
  intros t'.
  assert (TransactionData_ tx404 = Some txData404) as H1 by reflexivity.
  assert (td_recording txData404 = true) as H2 by reflexivity.
  assert ((evict (compressedSpan txData404)).1 = None) as H3 by reflexivity.
  split; [by repeat split|].
  destruct (TxMoreFacts.End_enqueues_or_drops 2000 tx404 fullTracer txData404
              H1 H2 H3) as (td' & _ & HT & HD & _ & Hq).
  exists td'. split; [exact HT|]. split; [exact HD|]. exact Hq.
Defined.

Lemma pool_stays_pristine_witness :
  let t := pooledTracer in
  Forall pristine (transactionDataPool t)
  ∧ Forall pristine
      (transactionDataPool
         (StartTransactionOptions pickEnv t "GET /" "request" (optsWith inboundA)).2)
  ∧ Forall pristine (transactionDataPool (Discard tx404 t).2)
  ∧ Forall pristine (transactionDataPool (End 2000 tx404 t).2).
Proof.
  intros t.
  assert (Forall pristine (transactionDataPool t)) as H1.
  { apply Forall_singleton. apply TxMoreFacts.pristine_new. }
  split; [exact H1|].
  destruct (TxMoreFacts.pool_stays_pristine pickEnv 2000 t tx404 "GET /"
              "request" (optsWith inboundA) H1) as (HS & HD & _ & HE).
  split; [exact HS|]. split; [exact HD|].
  apply HE. intros td Htd. reflexivity.
Defined.

Lemma recycled_data_starts_clean_witness :
  let t := pooledTracer in
  let tx := (StartTransactionOptions pickEnv t "GET /" "request"
                                     (optsWith inboundA)).1 in
  (Forall pristine (transactionDataPool t)
   ∧ active t = true
   ∧ recording (values (instrumentationConfigInternal t)) = true)
  ∧ ∃ td, TransactionData_ tx = Some td
          ∧ Name td = "GET /" ∧ Type_ td = "request"
          ∧ timestamp td = 1000
          ∧ Duration td = -1
          ∧ td_maxSpans td = 500.
Proof.
  intros t tx.
  assert (Forall pristine (transactionDataPool t)) as H1.
  { apply Forall_singleton. apply TxMoreFacts.pristine_new. }
  assert (active t = true) as H2 by reflexivity.
  assert (recording (values (instrumentationConfigInternal t)) = true) as H3
    by reflexivity.
  split; [by repeat split|].
  destruct (TxMoreFacts.recycled_data_starts_clean pickEnv t "GET /" "request"
              (optsWith inboundA) H1 H2 H3)
    as (td & Htd & HN & HT & Hts & HD & _ & _ & _ & _ & _ & _ & _ & _ & _ & HM & _).
  exists td. split; [exact Htd|]. split; [exact HN|]. split; [exact HT|].
  split; [exact Hts|]. split; [exact HD|exact HM].
Defined.

Lemma localConfig_remote_tracks : remote_tracks localConfig ∅.
Proof.
  intros e. split.
  - intros H. by apply not_elem_of_empty in H.
  - intros (k & [v H] & _). by rewrite lookup_empty in H.
Qed.

Lemma overridden_remote_tracks : remote_tracks overridden overriding.
Proof.
  apply ConfigMoreFacts.updateRemoteConfig_remote_tracks,
    localConfig_remote_tracks.
Qed.

Lemma remote_names_attributes_in_force_witness :
  let run := applyBatches DefaultLogger localConfig ∅ exampleBatches in
  remote_tracks localConfig ∅
  ∧ envMaxSpans ∈ remote run.1
  ∧ values (setLocalInstrumentationConfig envMaxSpans (with_maxSpans 100) run.1)
    = values run.1.
Proof.
  intros run. split; [exact localConfig_remote_tracks|].
  destruct (ConfigMoreFacts.remote_names_attributes_in_force DefaultLogger
              exampleBatches localConfig ∅ localConfig_remote_tracks)
    as [Htracks Hset].
  assert (∃ k, is_Some (run.2 !! k) ∧ envName k = envMaxSpans) as Hk.
  { exists "transaction_max_spans". split; [eexists; reflexivity|reflexivity]. }
  split.
  - apply Htracks. exact Hk.
  - apply (Hset envMaxSpans (with_maxSpans 100)). exact Hk.
Defined.


Lemma overriding_in_force : in_force DefaultLogger overridden overriding.
Proof.
  intros k v H.
  change overriding with spansBatch in H.
  apply elem_of_list_to_map_2 in H.
  apply elem_of_cons in H as [[= -> ->]|H]; [|by apply elem_of_nil in H].
  exists (on_values (with_maxSpans 10)). split; reflexivity.
Qed.

Lemma central_config_keeps_header_settings_witness :
  let cfg' := (updateRemoteConfig DefaultLogger overridden overriding
                 mixedAttrs).1.1 in
  (local_independent overridden ∧ in_force DefaultLogger overridden overriding)
  ∧ captureHeaders (values cfg') = true
  ∧ propagateLegacyHeader (values cfg') = true.
Proof.
  intros cfg'.
  assert (local_independent overridden) as H1.
  { intros e f Hf. apply (ExampleFacts.localConfig_independent e f).
    exact Hf. }
  split; [split; [exact H1|exact overriding_in_force]|].
  exact (ConfigMoreFacts.central_config_keeps_header_settings DefaultLogger
           overridden overriding mixedAttrs H1 overriding_in_force).
Defined.


End ExampleMoreFacts.
